(** * skynet [sky] build tool: the builder of cmd/sky/builder.go

    A shallow embedding of the build and deploy pipeline of [builder.go].
    The builder drives a [Terminal] (local or ssh), a version control
    provider ([Scm]) and the operating system; those live outside
    [builder.go], so they enter the development as an abstract system
    [Sys] whose answers are arbitrary.  Every call the builder makes on
    them is recorded, in order, in a log of events, and a Go [panic] is an
    outcome that stops the run and keeps the state reached. *)

From Stdlib Require Import String Ascii List Bool Arith Lia.
Import ListNotations.
Open Scope string_scope.

(** ** Strings: the functions of Go's [strings] and [path] packages in use *)

Module GoStrings.

(** [strings.Split(s, sep)] for a separator of one byte. *)
Fixpoint Split (s : string) (sep : ascii) : list string :=
  match s with
  | EmptyString => [""]
  | String c rest =>
      if Ascii.eqb c sep then "" :: Split rest sep
      else match Split rest sep with
           | [] => [String c ""]
           | hd :: tl => String c hd :: tl
           end
  end.

(** [strings.Join(elems, sep)]. *)
Definition Join (elems : list string) (sep : string) : string :=
  String.concat sep elems.

End GoStrings.

Module GoPath.

Definition slash : ascii := "/"%char.

Definition nonEmpty (s : string) : bool := negb (String.eqb s "").

(** The walk of [path.Clean] over the elements between slashes: empty
    elements and [.] vanish, [..] removes the element before it, stays at
    the front of a relative path and vanishes at the root. [stack] holds the
    elements kept so far, last one first. *)
Fixpoint cleanElems (rooted : bool) (stack elems : list string) : list string :=
  match elems with
  | [] => rev stack
  | e :: es =>
      if String.eqb e "" then cleanElems rooted stack es
      else if String.eqb e "." then cleanElems rooted stack es
      else if String.eqb e ".." then
        match stack with
        | top :: below =>
            if String.eqb top ".." then cleanElems rooted (e :: stack) es
            else cleanElems rooted below es
        | [] =>
            if rooted then cleanElems rooted [] es
            else cleanElems rooted [e] es
        end
      else cleanElems rooted (e :: stack) es
  end.

Definition isRooted (p : string) : bool :=
  match p with
  | String c _ => Ascii.eqb c slash
  | EmptyString => false
  end.

(** [path.Clean]: the shortest equivalent path; the empty path is [.]. *)
Definition Clean (p : string) : string :=
  let rooted := isRooted p in
  let body := String.concat "/" (cleanElems rooted [] (GoStrings.Split p slash)) in
  let out := if rooted then "/" ++ body else body in
  if String.eqb out "" then "." else out.

(** [path.Join]: empty elements are ignored, the rest is joined with
    slashes and cleaned; nothing but empty elements gives the empty string. *)
Definition Join (elem : list string) : string :=
  match filter nonEmpty elem with
  | [] => ""
  | kept => Clean (String.concat "/" kept)
  end.

(** Removal of the trailing slashes of a path, as the first loop of
    [path.Base] does. *)
Fixpoint stripTrailingSlashes (p : string) : string :=
  match p with
  | EmptyString => EmptyString
  | String c rest =>
      match stripTrailingSlashes rest with
      | EmptyString => if Ascii.eqb c slash then EmptyString else String c EmptyString
      | rest' => String c rest'
      end
  end.

(** [path.Base]: the last element of a path. *)
Definition Base (p : string) : string :=
  if String.eqb p "" then "."
  else
    let q := stripTrailingSlashes p in
    let lastElem := last (GoStrings.Split q slash) "" in
    if String.eqb lastElem "" then "/" else lastElem.

End GoPath.

(** ** Configuration and builder (builder.go, lines 13-49) *)

Record buildConfig := {
  Host : string;
  User : string;
  Jail : string;
  CgoCFlags : string;
  CgoLdFlags : string;
  GoRoot : string;
  GoPath : string;
  AppRepo : string;
  AppPath : string;
  RepoType : string;
  RepoBranch : string;
  UpdatePackages : bool;
  BuildAllPackages : bool;
  RunTests : bool;
  TestSkynet : bool;
  PreBuildCommands : list string;
  PostBuildCommands : list string
}.

Record deployConfig := {
  DeployPath : string;
  BinaryName : string
}.

(** The two implementations of the [Terminal] interface, and the one of
    [Scm]. A nil interface value is [None]. *)
Inductive Terminal := LocalTerminal | SSHConn.
Inductive Scm := GitScm.

(** What the builder reads of a [build.Package]: whether it is a command. *)
Record Package := { IsCommand : bool }.

Record builder := {
  BuildConfig : buildConfig;
  DeployConfig : deployConfig;
  term : option Terminal;
  scm : option Scm;
  projectPath : string;
  pack : option Package
}.

(** A Go [error]: [None] is nil, [Some msg] carries [err.Error()]. *)
Definition error := option string.

Definition isNil (e : error) : bool :=
  match e with None => true | Some _ => false end.

(** ** The system around the builder

    [World] is the state of everything outside the builder (file system,
    network, remote host). Terminal and Scm methods, file reading, package
    import and process spawning answer as functions of it. [Connect] and
    [Checkout] return no value the builder looks at; they can only stop the
    run, which is their [Some msg]. *)
Record Sys := {
  World : Type;
  ReadFile : string -> World -> option string;
  Unmarshal : string -> (buildConfig * deployConfig) + string;
  ImportDir : World -> option Package * error;
  Connect : string -> string -> World -> error * World;
  Exec : Terminal -> string -> World -> (string * error) * World;
  ExecPath : Terminal -> string -> string -> World -> (string * error) * World;
  SetEnv : Terminal -> string -> string -> World -> World;
  Close : Terminal -> World -> World;
  BinaryNameOf : Scm -> string;
  ImportPathFromRepo : Scm -> string -> string * error;
  Checkout : Scm -> Terminal -> string -> string -> string -> World -> error * World;
  CombinedOutput : string -> list string -> World -> (string * error) * World
}.

(** The calls that leave the builder, and the lines it prints. *)
Inductive event :=
| EvConnect (host user : string)
| EvExec (cmd : string)
| EvExecPath (cmd dir : string)
| EvSetEnv (name value : string)
| EvClose
| EvCheckout (repo branch dir : string)
| EvCommand (name : string) (args : list string)
| EvPrint (line : string).

(** ** Pure helpers of builder.go *)

(** builder.go, lines 333-339. *)
Definition isHostLocal (host : string) : bool :=
  if String.eqb host "localhost" || String.eqb host "127.0.0.1" || String.eqb host ""
  then true
  else false.

(** builder.go, lines 323-331. *)
Definition splitHostPort (host : string) : string * string :=
  let parts := GoStrings.Split host ":"%char in
  if Nat.ltb (List.length parts) 2 then (nth 0 parts "", "22")
  else (nth 0 parts "", nth 1 parts "").

(** builder.go, lines 287-293. *)
Definition goPath (b : builder) : string :=
  if negb (String.eqb (GoPath (BuildConfig b)) "")
  then Jail (BuildConfig b) ++ ":" ++ GoPath (BuildConfig b)
  else Jail (BuildConfig b).

Definition skynetPath : string := "src/github.com/skynetservices/skynet2".

Definition nilDeref : string :=
  "runtime error: invalid memory address or nil pointer dereference".

Definition newline : string := String (ascii_of_nat 10) "".

(** [new(builder)]: every field at its zero value. *)
Definition zeroBuildConfig : buildConfig :=
  {| Host := ""; User := ""; Jail := ""; CgoCFlags := ""; CgoLdFlags := "";
     GoRoot := ""; GoPath := ""; AppRepo := ""; AppPath := ""; RepoType := "";
     RepoBranch := ""; UpdatePackages := false; BuildAllPackages := false;
     RunTests := false; TestSkynet := false;
     PreBuildCommands := []; PostBuildCommands := [] |}.

Definition zeroBuilder : builder :=
  {| BuildConfig := zeroBuildConfig;
     DeployConfig := {| DeployPath := ""; BinaryName := "" |};
     term := None; scm := None; projectPath := ""; pack := None |}.

(** ** Runs: state, panics and the log *)

Inductive outcome (A : Type) :=
| Returned (a : A)
| Panicked (msg : string).
Arguments Returned {A} a.
Arguments Panicked {A} msg.

Section Builder.

Variable S : Sys.

(** The builder behind the pointer [b], the world, and the events so far
    (oldest first). *)
Record state := {
  bld : builder;
  world : World S;
  log : list event
}.

Definition M (A : Type) : Type := state -> outcome A * state.

Definition ret {A} (a : A) : M A := fun st => (Returned a, st).

Definition bind {A B} (m : M A) (k : A -> M B) : M B :=
  fun st =>
    match m st with
    | (Returned a, st1) => k a st1
    | (Panicked msg, st1) => (Panicked msg, st1)
    end.

Definition panic {A} (msg : string) : M A := fun st => (Panicked msg, st).

Notation "x <- m ;; k" := (bind m (fun x => k))
  (at level 61, m at next level, right associativity).
Notation "m ;; k" := (bind m (fun _ => k))
  (at level 61, right associativity).

(** One call that leaves the builder: the event is logged and the world
    steps to what the call made of it. *)
Definition call {A} (e : event) (f : World S -> A * World S) : M A :=
  fun st =>
    let '(a, w) := f (world st) in
    (Returned a, {| bld := bld st; world := w; log := log st ++ [e] |}).

(** A look at the world that changes nothing and is not logged. *)
Definition ask {A} (f : World S -> A) : M A :=
  fun st => (Returned (f (world st)), st).

Definition getBuilder : M builder := fun st => (Returned (bld st), st).

Definition setBuilder (b : builder) : M unit :=
  fun st => (Returned tt, {| bld := b; world := world st; log := log st |}).

(** Assignments to the fields of [b] that the code writes. *)
Definition setTerm (t : Terminal) : M unit :=
  b <- getBuilder ;;
  setBuilder {| BuildConfig := BuildConfig b; DeployConfig := DeployConfig b;
                term := Some t; scm := scm b;
                projectPath := projectPath b; pack := pack b |}.

Definition setScm (s : Scm) : M unit :=
  b <- getBuilder ;;
  setBuilder {| BuildConfig := BuildConfig b; DeployConfig := DeployConfig b;
                term := term b; scm := Some s;
                projectPath := projectPath b; pack := pack b |}.

Definition setProjectPath (p : string) : M unit :=
  b <- getBuilder ;;
  setBuilder {| BuildConfig := BuildConfig b; DeployConfig := DeployConfig b;
                term := term b; scm := scm b;
                projectPath := p; pack := pack b |}.

Definition setPack (p : option Package) : M unit :=
  b <- getBuilder ;;
  setBuilder {| BuildConfig := BuildConfig b; DeployConfig := DeployConfig b;
                term := term b; scm := scm b;
                projectPath := projectPath b; pack := p |}.

(** A method call on [b.term] or [b.scm] panics when the interface is nil. *)
Definition theTerm : M Terminal :=
  b <- getBuilder ;;
  match term b with
  | Some t => ret t
  | None => panic nilDeref
  end.

Definition theScm : M Scm :=
  b <- getBuilder ;;
  match scm b with
  | Some s => ret s
  | None => panic nilDeref
  end.

Definition Println (line : string) : M unit :=
  call (EvPrint line) (fun w => (tt, w)).

Definition termExec (cmd : string) : M (string * error) :=
  t <- theTerm ;; call (EvExec cmd) (Exec S t cmd).

Definition termExecPath (cmd dir : string) : M (string * error) :=
  t <- theTerm ;; call (EvExecPath cmd dir) (ExecPath S t cmd dir).

Definition termSetEnv (name value : string) : M unit :=
  t <- theTerm ;; call (EvSetEnv name value) (fun w => (tt, SetEnv S t name value w)).

Definition termClose : M unit :=
  t <- theTerm ;; call EvClose (fun w => (tt, Close S t w)).

(** [exec.Command(name, args...).CombinedOutput()]. *)
Definition osCommand (name : string) (args : list string) : M (string * error) :=
  call (EvCommand name args) (CombinedOutput S name args).

(** ** The builder's methods *)

(** builder.go, lines 122-134. *)
Definition validatePackage : M unit :=
  r <- ask (ImportDir S) ;;
  setPack (fst r) ;;
  match snd r with
  | Some _ => panic "Could not import package for validation"
  | None =>
      match fst r with
      | None => panic nilDeref
      | Some p =>
          if negb (IsCommand p) then panic "Package is not a command"
          else ret tt
      end
  end.

(** builder.go, lines 53-83. The builder made is left in the state. *)
Definition newBuilder (config : string) : M unit :=
  let config := if String.eqb config "" then "./build.cfg" else config in
  f <- ask (ReadFile S config) ;;
  match f with
  | None => panic ("Failed to read: " ++ config)
  | Some f =>
      setBuilder zeroBuilder ;;
      match Unmarshal S f with
      | inr e => panic ("Failed to parse " ++ config ++ ": " ++ e)
      | inl (bc, dc) =>
          setBuilder {| BuildConfig := bc; DeployConfig := dc;
                        term := None; scm := None;
                        projectPath := ""; pack := None |} ;;
          b <- getBuilder ;;
          (if isHostLocal (Host (BuildConfig b)) then
             setTerm LocalTerminal
           else
             setTerm SSHConn ;;
             e <- call (EvConnect (Host (BuildConfig b)) (User (BuildConfig b)))
                       (Connect S (Host (BuildConfig b)) (User (BuildConfig b))) ;;
             match e with
             | Some msg => panic msg
             | None => ret tt
             end) ;;
          validatePackage
      end
  end.

(** builder.go, lines 199-207. *)
Definition setupScm : M unit :=
  b <- getBuilder ;;
  if String.eqb (RepoType (BuildConfig b)) "git" then setScm GitScm
  else panic "unkown RepoType".

(** One probe of [validateBuildEnvironment]: the command runs, a failure is
    printed and clears [valid]. *)
Definition probe (cmd complaint : string) (valid : bool) : M bool :=
  r <- termExec cmd ;;
  match snd r with
  | Some e => Println (complaint ++ e) ;; ret false
  | None => ret valid
  end.

(** builder.go, lines 137-170. *)
Definition validateBuildEnvironment : M bool :=
  b <- getBuilder ;;
  let valid := true in
  valid <- probe ("ls " ++ Jail (BuildConfig b))
                 "Could not find Jail directory: " valid ;;
  valid <- probe ("ls " ++ GoRoot (BuildConfig b))
                 "Could not find GOROOT directory: " valid ;;
  valid <- probe ("ls " ++ GoRoot (BuildConfig b) ++ "/bin/go")
                 "Could not find Go binary: " valid ;;
  s <- theScm ;;
  valid <- probe ("which " ++ BinaryNameOf S s)
                 ("Could not find " ++ RepoType (BuildConfig b) ++ " binary: ") valid ;;
  ret valid.

(** builder.go, lines 173-197. The project path is assigned on line 175,
    before the error of the derivation is looked at on line 177. *)
Definition updateCode : M unit :=
  b <- getBuilder ;;
  s <- theScm ;;
  let '(p, err) := ImportPathFromRepo S s (AppRepo (BuildConfig b)) in
  setProjectPath (GoPath.Join [Jail (BuildConfig b); "src"; p]) ;;
  match err with
  | Some e => panic e
  | None =>
      b <- getBuilder ;;
      r <- termExec ("ls " ++ projectPath b) ;;
      match snd r with
      | Some _ =>
          Println "Creating project directories" ;;
          r <- termExec ("mkdir -p " ++ projectPath b) ;;
          match snd r with
          | Some _ => panic "Could not create project directories"
          | None => Println (fst r)
          end
      | None => ret tt
      end ;;
      t <- theTerm ;;
      e <- call (EvCheckout (AppRepo (BuildConfig b)) (RepoBranch (BuildConfig b))
                            (projectPath b))
                (Checkout S s t (AppRepo (BuildConfig b)) (RepoBranch (BuildConfig b))
                          (projectPath b)) ;;
      match e with
      | Some msg => panic msg
      | None => ret tt
      end
  end.

(** builder.go, lines 260-274. *)
Definition getPackageDependencies (p : string) : M unit :=
  b <- getBuilder ;;
  let flags := ["-d"] in
  let flags := if UpdatePackages (BuildConfig b) then (flags ++ ["-u"])%list else flags in
  Println "Fetching dependencies" ;;
  r <- termExecPath ("go get " ++ GoStrings.Join flags " " ++ " ./...") p ;;
  Println (fst r) ;;
  match snd r with
  | Some e => panic ("Failed to fetch dependencies" ++ newline ++ e)
  | None => ret tt
  end.

(** builder.go, lines 209-211. *)
Definition updateDependencies : M unit :=
  b <- getBuilder ;;
  getPackageDependencies (GoPath.Join [projectPath b; AppPath (BuildConfig b)]).

(** builder.go, lines 213-228. *)
Definition buildProject : M unit :=
  b <- getBuilder ;;
  let p := GoPath.Join [projectPath b; AppPath (BuildConfig b)] in
  let flags := "-v" in
  let flags := if BuildAllPackages (BuildConfig b) then flags ++ " -a" else flags in
  Println "Building packages" ;;
  r <- termExecPath ("go install " ++ flags) p ;;
  Println (fst r) ;;
  match snd r with
  | Some e => panic ("Failed build: " ++ e)
  | None => ret tt
  end.

(** builder.go, lines 246-258. *)
Definition testSkynet : M unit :=
  b <- getBuilder ;;
  Println "Testing Skynet" ;;
  let p := GoPath.Join [Jail (BuildConfig b); skynetPath] in
  getPackageDependencies p ;;
  r <- termExecPath "go test ./..." p ;;
  Println (fst r) ;;
  match snd r with
  | Some e => panic ("Failed tests: " ++ e)
  | None => ret tt
  end.

(** builder.go, lines 230-244. *)
Definition runTests : M unit :=
  b <- getBuilder ;;
  let p := GoPath.Join [projectPath b; AppPath (BuildConfig b)] in
  Println "Testing packages" ;;
  r <- termExecPath "go test" p ;;
  Println (fst r) ;;
  match snd r with
  | Some e => panic ("Failed tests: " ++ e)
  | None => if TestSkynet (BuildConfig b) then testSkynet else ret tt
  end.

(** builder.go, lines 276-285. *)
Fixpoint runCommands (cmds : list string) : M unit :=
  match cmds with
  | [] => ret tt
  | cmd :: rest =>
      r <- termExec cmd ;;
      Println (fst r) ;;
      match snd r with
      | Some e =>
          panic ("Failed to execute dependent command: " ++ cmd ++ newline ++ e)
      | None => runCommands rest
      end
  end.

(** builder.go, lines 97-120. *)
Definition performBuild : M unit :=
  setupScm ;;
  valid <- validateBuildEnvironment ;;
  if valid then
    updateCode ;;
    b <- getBuilder ;;
    termSetEnv "GOPATH" (goPath b) ;;
    termSetEnv "GOROOT" (GoRoot (BuildConfig b)) ;;
    termSetEnv "CGO_CFLAGS" (CgoCFlags (BuildConfig b)) ;;
    termSetEnv "CGO_LDFLAGS" (CgoLdFlags (BuildConfig b)) ;;
    runCommands (PreBuildCommands (BuildConfig b)) ;;
    updateDependencies ;;
    buildProject ;;
    (if RunTests (BuildConfig b) then runTests else ret tt) ;;
    runCommands (PostBuildCommands (BuildConfig b))
  else ret tt.

(** The stages of [performBuild] that come before the pre-build commands
    (lines 98-106); the result tells whether the environment was valid. *)
Definition stagesBeforePreBuild : M bool :=
  setupScm ;;
  valid <- validateBuildEnvironment ;;
  if valid then
    updateCode ;;
    b <- getBuilder ;;
    termSetEnv "GOPATH" (goPath b) ;;
    termSetEnv "GOROOT" (GoRoot (BuildConfig b)) ;;
    termSetEnv "CGO_CFLAGS" (CgoCFlags (BuildConfig b)) ;;
    termSetEnv "CGO_LDFLAGS" (CgoLdFlags (BuildConfig b)) ;;
    ret true
  else ret false.

(** The stages that follow the pre-build commands (lines 110-118). *)
Definition stagesAfterPreBuild : M unit :=
  b <- getBuilder ;;
  updateDependencies ;;
  buildProject ;;
  (if RunTests (BuildConfig b) then runTests else ret tt) ;;
  runCommands (PostBuildCommands (BuildConfig b)).

(** The stages up to and including the build (lines 98-112). *)
Definition stagesBeforeTests : M bool :=
  valid <- stagesBeforePreBuild ;;
  if valid then
    b <- getBuilder ;;
    runCommands (PreBuildCommands (BuildConfig b)) ;;
    updateDependencies ;;
    buildProject ;;
    ret true
  else ret false.

(** builder.go, lines 295-321. A host that is not local enters neither
    branch: [out] and [err] keep their zero values. *)
Fixpoint deploy (hosts : list string) : M unit :=
  match hosts with
  | [] => ret tt
  | host :: rest =>
      b <- getBuilder ;;
      let bc := BuildConfig b in
      let dc := DeployConfig b in
      r <- (if isHostLocal host && isHostLocal (Host bc) then
              Println "Copying local binary" ;;
              osCommand "cp"
                [GoPath.Join [Jail bc; "bin"; GoPath.Base (AppPath bc)];
                 GoPath.Join [DeployPath dc; BinaryName dc]]
            else if isHostLocal host && negb (isHostLocal (Host bc)) then
              Println "Copying binary from build machine" ;;
              let '(h, port) := splitHostPort (Host bc) in
              osCommand "scp"
                ["-P"; port;
                 User bc ++ "@" ++ h ++ ":" ++
                   GoPath.Join [Jail bc; "bin"; GoPath.Base (AppPath bc)];
                 GoPath.Join [DeployPath dc; BinaryName dc]]
            else ret ("", None)) ;;
      Println (fst r) ;;
      match snd r with
      | Some e => panic ("Failed to deploy: " ++ e)
      | None => deploy rest
      end
  end.

(** builder.go, lines 85-89. *)
Definition Build (config : string) : M unit :=
  newBuilder config ;;
  performBuild ;;
  termClose.

(** builder.go, lines 91-95. *)
Definition Deploy (config : string) : M unit :=
  newBuilder config ;;
  deploy ["localhost"] ;;
  termClose.

(** A run starts with no builder made and nothing logged. *)
Definition start (w : World S) : state :=
  {| bld := zeroBuilder; world := w; log := [] |}.

End Builder.

Arguments bld {S} _.
Arguments world {S} _.
Arguments log {S} _.

(** ** A small system to run the builder on

    The world is the list of the commands that fail there; every other
    call succeeds. The configuration file always parses to [bc] and [dc],
    and the import path of a repository is its URL, an empty URL being
    refused. *)
Module Demo.

Definition fails (w : list string) (cmd : string) : error :=
  if existsb (String.eqb cmd) w then Some "exit status 1" else None.

Definition sys (bc : buildConfig) (dc : deployConfig) : Sys :=
  {| World := list string;
     ReadFile := fun _ _ => Some "{}";
     Unmarshal := fun _ => inl (bc, dc);
     ImportDir := fun _ => (Some {| IsCommand := true |}, None);
     Connect := fun _ _ w => (None, w);
     Exec := fun _ cmd w => (("", fails w cmd), w);
     ExecPath := fun _ cmd _ w => (("", fails w cmd), w);
     SetEnv := fun _ _ _ w => w;
     Close := fun _ w => w;
     BinaryNameOf := fun _ => "git";
     ImportPathFromRepo := fun _ repo =>
       if String.eqb repo "" then ("", Some "empty repository url")
       else (repo, None);
     Checkout := fun _ _ _ _ _ w => (None, w);
     CombinedOutput := fun _ _ w => (("", None), w) |}.

Definition bc : buildConfig :=
  {| Host := ""; User := "builder"; Jail := "/j";
     CgoCFlags := ""; CgoLdFlags := "";
     GoRoot := "/usr/local/go"; GoPath := "";
     AppRepo := "github.com/acme/app"; AppPath := "myapp";
     RepoType := "git"; RepoBranch := "master";
     UpdatePackages := false; BuildAllPackages := false;
     RunTests := true; TestSkynet := true;
     PreBuildCommands := ["make gen"; "make lint"; "make docs"];
     PostBuildCommands := ["make clean"] |}.

Definition dc : deployConfig := {| DeployPath := "/out"; BinaryName := "app" |}.

Definition withHost (h : string) (c : buildConfig) : buildConfig :=
  {| Host := h; User := User c; Jail := Jail c;
     CgoCFlags := CgoCFlags c; CgoLdFlags := CgoLdFlags c;
     GoRoot := GoRoot c; GoPath := GoPath c;
     AppRepo := AppRepo c; AppPath := AppPath c;
     RepoType := RepoType c; RepoBranch := RepoBranch c;
     UpdatePackages := UpdatePackages c; BuildAllPackages := BuildAllPackages c;
     RunTests := RunTests c; TestSkynet := TestSkynet c;
     PreBuildCommands := PreBuildCommands c;
     PostBuildCommands := PostBuildCommands c |}.

Definition withRepoType (k : string) (c : buildConfig) : buildConfig :=
  {| Host := Host c; User := User c; Jail := Jail c;
     CgoCFlags := CgoCFlags c; CgoLdFlags := CgoLdFlags c;
     GoRoot := GoRoot c; GoPath := GoPath c;
     AppRepo := AppRepo c; AppPath := AppPath c;
     RepoType := k; RepoBranch := RepoBranch c;
     UpdatePackages := UpdatePackages c; BuildAllPackages := BuildAllPackages c;
     RunTests := RunTests c; TestSkynet := TestSkynet c;
     PreBuildCommands := PreBuildCommands c;
     PostBuildCommands := PostBuildCommands c |}.


Definition withRunTests (r : bool) (c : buildConfig) : buildConfig :=
  {| Host := Host c; User := User c; Jail := Jail c;
     CgoCFlags := CgoCFlags c; CgoLdFlags := CgoLdFlags c;
     GoRoot := GoRoot c; GoPath := GoPath c;
     AppRepo := AppRepo c; AppPath := AppPath c;
     RepoType := RepoType c; RepoBranch := RepoBranch c;
     UpdatePackages := UpdatePackages c; BuildAllPackages := BuildAllPackages c;
     RunTests := r; TestSkynet := TestSkynet c;
     PreBuildCommands := PreBuildCommands c;
     PostBuildCommands := PostBuildCommands c |}.

(** A builder as [newBuilder] and [setupScm] leave it. *)
Definition ready (c : buildConfig) : builder :=
  {| BuildConfig := c; DeployConfig := dc;
     term := Some LocalTerminal; scm := Some GitScm;
     projectPath := ""; pack := Some {| IsCommand := true |} |}.

(** A state of the small system. *)
Definition mk (c : buildConfig) (b : builder) (w : list string) (l : list event)
  : state (sys c dc) :=
  Build_state (sys c dc) b w l.

Definition at_ (c : buildConfig) (b : builder) (w : list string) : state (sys c dc) :=
  mk c b w [].

End Demo.

(** ** A system with faults

    As the small system, but the configuration and the transfers can fail
    too: the world lists faults, a command or a process name for one that
    fails, [unreadable] for a configuration file that cannot be read and
    [truncated] for one that is cut short. *)
Module Faulty.

Definition has (w : list string) (fault : string) : bool :=
  existsb (String.eqb fault) w.

Definition sys (bc : buildConfig) (dc : deployConfig) : Sys :=
  {| World := list string;
     ReadFile := fun _ w =>
       if has w "unreadable" then None
       else if has w "truncated" then Some "{" else Some "{}";
     Unmarshal := fun f =>
       if String.eqb f "{}" then inl (bc, dc)
       else inr "unexpected end of JSON input";
     ImportDir := fun _ => (Some {| IsCommand := true |}, None);
     Connect := fun _ _ w => (None, w);
     Exec := fun _ cmd w => (("", Demo.fails w cmd), w);
     ExecPath := fun _ cmd _ w => (("", Demo.fails w cmd), w);
     SetEnv := fun _ _ _ w => w;
     Close := fun _ w => w;
     BinaryNameOf := fun _ => "git";
     ImportPathFromRepo := fun _ repo =>
       if String.eqb repo "" then ("", Some "empty repository url")
       else (repo, None);
     Checkout := fun _ _ _ _ _ w => (None, w);
     CombinedOutput := fun name _ w => (("", Demo.fails w name), w) |}.

(** A state of the system with faults. *)
Definition mk (c : buildConfig) (b : builder) (w : list string) (l : list event)
  : state (sys c Demo.dc) :=
  Build_state (sys c Demo.dc) b w l.

End Faulty.

(** ** The vocabulary of the properties *)

(** What a probe of the environment prints: its complaint, on failure. *)
Definition report (complaint : string) (e : error) : list event :=
  match e with
  | Some msg => [EvPrint (complaint ++ msg)]
  | None => []
  end.

(** The name under which [newBuilder] reads the configuration. *)
Definition configFile (config : string) : string :=
  if String.eqb config "" then "./build.cfg" else config.

Definition isClose (e : event) : bool :=
  match e with EvClose => true | _ => false end.

(** The number of times the terminal was closed in a log. *)
Definition closes (l : list event) : nat := length (filter isClose l).


(** The test commands of the pipeline: [go test] and [go test ./...], run
    in a directory. The pre-build and post-build commands are the
    configuration's own and run through [Exec]. *)
Definition isTestCommand (e : event) : bool :=
  match e with
  | EvExecPath cmd _ => String.prefix "go test" cmd
  | _ => false
  end.


(** The dependency fetch, as [getPackageDependencies] spells it. *)
Definition goGet (bc : buildConfig) : string :=
  "go get "
  ++ GoStrings.Join (if UpdatePackages bc then ["-d"; "-u"] else ["-d"]) " "
  ++ " ./...".

(** An event that, if it is a command run in a directory, runs in the
    directory of the application under the project path [pp]; the one
    exception is the self-test of skynet, asked for by RunTests and
    TestSkynet, whose dependency fetch and [go test ./...] run in the
    skynet tree under the Jail. *)
Definition runsUnder (bc : buildConfig) (pp : string) (e : event) : Prop :=
  match e with
  | EvExecPath cmd dir =>
      dir = GoPath.Join [pp; AppPath bc] \/
      (dir = GoPath.Join [Jail bc; skynetPath] /\
       RunTests bc = true /\ TestSkynet bc = true /\
       (cmd = goGet bc \/ cmd = "go test ./..."))
  | _ => True
  end.

(** An event that is no command run in a directory: the dependency fetch,
    the build and the tests are the only ones that are. *)
Definition noStageCommand (e : event) : Prop :=
  match e with
  | EvExecPath _ _ => False
  | _ => True
  end.

(** The project path of line 175, for the import path [p]. *)
Definition projectPathOf (bc : buildConfig) (p : string) : string :=
  GoPath.Join [Jail bc; "src"; p].

(** A builder of configuration [bc] whose project path is [pp]. *)
Definition onPath (bc : buildConfig) (pp : string) (b : builder) : Prop :=
  BuildConfig b = bc /\ projectPath b = pp.

(** The commands run through [Exec] in a log, in order. *)
Definition execsOf (l : list event) : list string :=
  flat_map (fun e => match e with EvExec c => [c] | _ => [] end) l.

(** [triple P Q m R]: started on a builder that satisfies [P], the run of
    [m] logs only events that satisfy [Q], whether it returns or panics,
    and when it returns [a] the builder satisfies [R a]. *)
Definition triple {S : Sys} {A} (P : builder -> Prop) (Q : event -> Prop)
    (m : M S A) (R : A -> builder -> Prop) : Prop :=
  forall st o st',
    P (bld st) ->
    m st = (o, st') ->
    (exists evs, log st' = (log st ++ evs)%list /\ Forall Q evs) /\
    match o with
    | Returned a => R a (bld st')
    | Panicked _ => True
    end.

(** Stages that only use the terminal leave the builder as it is. *)
Definition keepsBuilder {S : Sys} {A} (m : M S A) : Prop :=
  forall st a st', m st = (Returned a, st') -> bld st' = bld st.

(** ** More vocabulary: hosts, transfers and the commands of the pipeline *)

(** A string without a colon. *)
Fixpoint noColon (s : string) : bool :=
  match s with
  | EmptyString => true
  | String c rest => negb (Ascii.eqb c ":"%char) && noColon rest
  end.

(** The processes started with [exec.Command] in a log, in order. *)
Definition commandsOf (l : list event) : list event :=
  filter (fun e => match e with EvCommand _ _ => true | _ => false end) l.

(** Where the built binary lies on the build host, and where it goes. *)
Definition builtBinary (b : builder) : string :=
  GoPath.Join [Jail (BuildConfig b); "bin"; GoPath.Base (AppPath (BuildConfig b))].

Definition deployedBinary (b : builder) : string :=
  GoPath.Join [DeployPath (DeployConfig b); BinaryName (DeployConfig b)].

(** The transfer [deploy] starts for a local host: a copy when the build
    host is local too, a secure copy from the build host otherwise. *)
Definition transfer (b : builder) : event :=
  if isHostLocal (Host (BuildConfig b)) then
    EvCommand "cp" [builtBinary b; deployedBinary b]
  else
    EvCommand "scp"
      ["-P"; snd (splitHostPort (Host (BuildConfig b)));
       User (BuildConfig b) ++ "@" ++ fst (splitHostPort (Host (BuildConfig b)))
         ++ ":" ++ builtBinary b;
       deployedBinary b].

(** The line [deploy] prints before a transfer. *)
Definition banner (b : builder) : string :=
  if isHostLocal (Host (BuildConfig b)) then "Copying local binary"
  else "Copying binary from build machine".

(** The build command, as [buildProject] spells it. *)
Definition goInstall (bc : buildConfig) : string :=
  "go install " ++ (if BuildAllPackages bc then "-v -a" else "-v").

(** The commands the pipeline itself may run in a directory, given the
    flags of the configuration. *)
Definition pipelineCommand (bc : buildConfig) (e : event) : Prop :=
  match e with
  | EvExecPath cmd _ =>
      cmd = goGet bc \/ cmd = goInstall bc \/
      (RunTests bc = true /\ cmd = "go test") \/
      (RunTests bc = true /\ TestSkynet bc = true /\ cmd = "go test ./...")
  | _ => True
  end.

(** Events of the stages after the environment is set: commands and the
    lines printed around them. *)
Definition commandOrPrint (e : event) : Prop :=
  match e with
  | EvExec _ | EvExecPath _ _ | EvPrint _ => True
  | _ => False
  end.

(** The four variables [performBuild] sets, in the order it sets them. *)
Definition environment (b : builder) : list event :=
  [EvSetEnv "GOPATH" (goPath b);
   EvSetEnv "GOROOT" (GoRoot (BuildConfig b));
   EvSetEnv "CGO_CFLAGS" (CgoCFlags (BuildConfig b));
   EvSetEnv "CGO_LDFLAGS" (CgoLdFlags (BuildConfig b))].

(** A builder whose configuration, terminal and package are those of [b]. *)
Definition sameSetup (b b' : builder) : Prop :=
  BuildConfig b' = BuildConfig b /\ DeployConfig b' = DeployConfig b /\
  term b' = term b /\ pack b' = pack b.

(** Events of the stages before the checkout: commands run through
    [Exec] and printed lines. *)
Definition execOrPrint (e : event) : Prop :=
  match e with
  | EvExec _ | EvPrint _ => True
  | _ => False
  end.

(** The checkout [updateCode] asks for, on the builder it leaves. *)
Definition checkoutOf (b : builder) : event :=
  EvCheckout (AppRepo (BuildConfig b)) (RepoBranch (BuildConfig b)) (projectPath b).

(** What [performBuild] does once the environment is set (lines 108-118),
    for the builder [b] read on the way. *)
Definition configuredStages (S : Sys) (b : builder) : M S unit :=
  bind S (runCommands S (PreBuildCommands (BuildConfig b))) (fun _ =>
  bind S (updateDependencies S) (fun _ =>
  bind S (buildProject S) (fun _ =>
  bind S (if RunTests (BuildConfig b) then runTests S else ret S tt) (fun _ =>
  runCommands S (PostBuildCommands (BuildConfig b)))))).

(** What [performBuild] does once the project is built (lines 114-118). *)
Definition testStages (S : Sys) (b : builder) : M S unit :=
  bind S (if RunTests (BuildConfig b) then runTests S else ret S tt) (fun _ =>
  runCommands S (PostBuildCommands (BuildConfig b))).

(** ** Vocabulary of the reactions of the system *)

(** The commands of [cmds] run through [Exec] on the terminal [t], one
    after the other from the world [w], every one without error: the world
    they lead to and what their runs log (the command, then its output
    printed). [None] as soon as one of them fails. *)
Fixpoint allSucceed (S : Sys) (t : Terminal) (cmds : list string) (w : World S)
  : option (World S * list event) :=
  match cmds with
  | [] => Some (w, [])
  | c :: rest =>
      match Exec S t c w with
      | ((out, None), w1) =>
          match allSucceed S t rest w1 with
          | Some (w2, evs) => Some (w2, EvExec c :: EvPrint out :: evs)
          | None => None
          end
      | ((_, Some _), _) => None
      end
  end.

(** What the system answers to the transfer of the builder [b]. *)
Definition runTransfer (S : Sys) (b : builder) (w : World S)
  : (string * error) * World S :=
  match transfer b with
  | EvCommand name args => CombinedOutput S name args w
  | _ => (("", None), w)
  end.

(** The transfers for the local hosts of [hosts], one after the other
    from the world [w], every one without error: the world they lead to and
    what the rounds log (an empty line for a host that is not local).
    [None] as soon as a transfer fails. *)
Fixpoint transfersSucceed (S : Sys) (b : builder) (hosts : list string)
    (w : World S) : option (World S * list event) :=
  match hosts with
  | [] => Some (w, [])
  | host :: rest =>
      if isHostLocal host then
        match runTransfer S b w with
        | ((out, None), w1) =>
            match transfersSucceed S b rest w1 with
            | Some (w2, evs) =>
                Some (w2, EvPrint (banner b) :: transfer b :: EvPrint out :: evs)
            | None => None
            end
        | ((_, Some _), _) => None
        end
      else
        match transfersSucceed S b rest w with
        | Some (w2, evs) => Some (w2, EvPrint "" :: evs)
        | None => None
        end
  end.

(** The commands run in a directory, and the checkouts, of a log. *)
Definition dirCommandsOf (l : list event) : list event :=
  filter (fun e => match e with EvExecPath _ _ => true | _ => false end) l.

Definition checkoutsOf (l : list event) : list event :=
  filter (fun e => match e with EvCheckout _ _ _ => true | _ => false end) l.

(** The commands of the test stage for the project path [pp], in order. *)
Definition testCommands (bc : buildConfig) (pp : string) : list event :=
  EvExecPath "go test" (GoPath.Join [pp; AppPath bc])
  :: (if TestSkynet bc then
        [EvExecPath (goGet bc) (GoPath.Join [Jail bc; skynetPath]);
         EvExecPath "go test ./..." (GoPath.Join [Jail bc; skynetPath])]
      else []).

(** The commands the stages after the checkout run in a directory for the
    project path [pp], in order: dependency fetch, build, and the tests if
    asked for. *)
Definition stageCommands (bc : buildConfig) (pp : string) : list event :=
  EvExecPath (goGet bc) (GoPath.Join [pp; AppPath bc])
  :: EvExecPath (goInstall bc) (GoPath.Join [pp; AppPath bc])
  :: (if RunTests bc then testCommands bc pp else []).

(** The four probes of the environment, in order. *)
Definition probeCommands (S : Sys) (bc : buildConfig) : list string :=
  ["ls " ++ Jail bc; "ls " ++ GoRoot bc; "ls " ++ GoRoot bc ++ "/bin/go";
   "which " ++ BinaryNameOf S GitScm].

(** The listing of the project path and the creation that follows a
    failed listing. *)
Definition listingCommands (pp : string) : list string :=
  ["ls " ++ pp; "mkdir -p " ++ pp].

(** The commands of a log, run through [Exec] or in a directory, in
    order; printed lines, variables and checkouts are left out. *)
Definition stepsOf (l : list event) : list event :=
  filter (fun e => match e with
                   | EvExec _ | EvExecPath _ _ => true
                   | _ => false
                   end) l.

(** The commands [performBuild] runs once the environment is set, for the
    project path [pp], in order (lines 108-118): the pre-build commands,
    the dependency fetch, the build, the tests if asked for, and the
    post-build commands. *)
Definition pipelineSteps (bc : buildConfig) (pp : string) : list event :=
  (map EvExec (PreBuildCommands bc) ++ stageCommands bc pp
     ++ map EvExec (PostBuildCommands bc))%list.

(** Events of a run that has not come to set the environment: commands
    run through [Exec], printed lines and the checkout. *)
Definition beforeEnvironment (e : event) : Prop :=
  match e with
  | EvExec _ | EvPrint _ | EvCheckout _ _ _ => True
  | _ => False
  end.

(** ** Reading runs *)

Ltac unfold_run :=
  unfold termExec, termExecPath, termSetEnv, termClose, osCommand, Println,
    theTerm, theScm, setTerm, setScm, setProjectPath, setPack,
    getBuilder, setBuilder, ask, call, bind, ret, panic in *.

Section Properties.

Variable S : Sys.

(** Sequencing is associative, run by run. *)
Lemma bind_assoc {A B C} (m : M S A) (k1 : A -> M S B) (k2 : B -> M S C)
    (st : state S) :
  bind S (bind S m k1) k2 st = bind S m (fun a => bind S (k1 a) k2) st.
Proof. unfold bind. destruct (m st) as [[a | msg] st1]; reflexivity. Qed.

Lemma bind_Returned {A B} (m : M S A) (k : A -> M S B) (st : state S) b st' :
  bind S m k st = (Returned b, st') ->
  exists a st1, m st = (Returned a, st1) /\ k a st1 = (Returned b, st').
Proof.
  unfold bind. destruct (m st) as [[a | msg] st1]; intros H.
  - exists a, st1. auto.
  - discriminate H.
Qed.

Lemma isHostLocal_true (h : string) :
  isHostLocal h = true <-> h = "" \/ h = "localhost" \/ h = "127.0.0.1".
Proof.
  unfold isHostLocal.
  destruct (String.eqb_spec h "localhost") as [E1 | N1];
    destruct (String.eqb_spec h "127.0.0.1") as [E2 | N2];
    destruct (String.eqb_spec h "") as [E3 | N3]; simpl;
    split; intros H; auto; try discriminate.
  destruct H as [H | [H | H]]; contradiction.
Qed.

Lemma validatePackage_silent (st : state S) o st' :
  validatePackage S st = (o, st') ->
  term (bld st') = term (bld st) /\ log st' = log st /\
  BuildConfig (bld st') = BuildConfig (bld st) /\ world st' = world st.
Proof.
  unfold validatePackage. unfold_run.
  destruct (ImportDir S (world st)) as [[p |] [e |]]; simpl;
    try destruct (IsCommand p); simpl;
    intros H; inversion H; subst; simpl; auto.
Qed.

(** C9. The local-host predicate holds exactly of the empty host,
    [localhost] and [127.0.0.1]; when the configuration is read and parsed,
    [newBuilder] gives the builder the local terminal for exactly those
    hosts and opens no connection, and for every other host it gives the
    ssh terminal and connects it to that host, once. *)
Theorem isHostLocal_selects_terminal (h : string) :
  (isHostLocal h = true <-> h = "" \/ h = "localhost" \/ h = "127.0.0.1") /\
  forall config (st : state S) f bc dc o st',
    ReadFile S (configFile config) (world st) = Some f ->
    Unmarshal S f = inl (bc, dc) ->
    Host bc = h ->
    newBuilder S config st = (o, st') ->
    term (bld st') = Some (if isHostLocal h then LocalTerminal else SSHConn) /\
    log st' =
      (log st ++ (if isHostLocal h then [] else [EvConnect h (User bc)]))%list.
Proof.
  split; [apply isHostLocal_true |].
  intros config st f bc dc o st' Hread Hparse Hhost.
  unfold newBuilder. fold (configFile config).
  unfold bind at 1. unfold ask at 1. rewrite Hread.
  unfold bind at 1. unfold setBuilder at 1. rewrite Hparse.
  unfold bind at 1. unfold setBuilder at 1.
  unfold bind at 1. unfold getBuilder at 1. simpl BuildConfig.
  rewrite Hhost. unfold bind at 1.
  destruct (isHostLocal h).
  - unfold_run. simpl. intros H. apply validatePackage_silent in H.
    simpl in H. destruct H as (Ht & Hl & _). rewrite Ht, Hl, app_nil_r. auto.
  - unfold_run. simpl.
    destruct (Connect S h (User bc) (world st)) as [[msg |] w]; simpl.
    + intros H; inversion H; subst; simpl; auto.
    + intros H. apply validatePackage_silent in H.
      simpl in H. destruct H as (Ht & Hl & _). rewrite Ht, Hl. auto.
Qed.

(** *** Environment validation *)

(** C4. With a terminal and a version control provider in place,
    [validateBuildEnvironment] runs its four probes (the Jail directory,
    the Go root, the Go binary under the Go root, the version control
    binary) one after the other whatever the earlier ones answered, prints
    one complaint for each probe that failed, changes nothing in the
    builder, and returns true exactly when the four probes succeeded. *)
Theorem validateBuildEnvironment_probes_all (st : state S) (t : Terminal) (s : Scm) :
  term (bld st) = Some t ->
  scm (bld st) = Some s ->
  let bc := BuildConfig (bld st) in
  let c1 := "ls " ++ Jail bc in
  let c2 := "ls " ++ GoRoot bc in
  let c3 := "ls " ++ GoRoot bc ++ "/bin/go" in
  let c4 := "which " ++ BinaryNameOf S s in
  let '(r1, w1) := Exec S t c1 (world st) in
  let '(r2, w2) := Exec S t c2 w1 in
  let '(r3, w3) := Exec S t c3 w2 in
  let '(r4, w4) := Exec S t c4 w3 in
  let valid := isNil (snd r1) && isNil (snd r2) && isNil (snd r3) && isNil (snd r4) in
  validateBuildEnvironment S st =
    (Returned valid,
     {| bld := bld st; world := w4;
        log := (log st
                ++ [EvExec c1] ++ report "Could not find Jail directory: " (snd r1)
                ++ [EvExec c2] ++ report "Could not find GOROOT directory: " (snd r2)
                ++ [EvExec c3] ++ report "Could not find Go binary: " (snd r3)
                ++ [EvExec c4]
                ++ report ("Could not find " ++ RepoType bc ++ " binary: ") (snd r4))%list
     |}) /\
  (valid = true <->
   snd r1 = None /\ snd r2 = None /\ snd r3 = None /\ snd r4 = None).
Proof.
  destruct st as [b w l]. destruct b as [bc dc tm sc pp pk].
  cbn [bld world log term scm BuildConfig]. intros -> ->.
  unfold validateBuildEnvironment, probe. unfold_run.
  cbn [bld world log term scm BuildConfig].
  destruct (Exec S t ("ls " ++ Jail bc) w) as [[o1 e1] w1].
  destruct (Exec S t ("ls " ++ GoRoot bc) w1) as [[o2 e2] w2] eqn:E2.
  destruct (Exec S t ("ls " ++ GoRoot bc ++ "/bin/go") w2) as [[o3 e3] w3] eqn:E3.
  destruct (Exec S t ("which " ++ BinaryNameOf S s) w3) as [[o4 e4] w4] eqn:E4.
  destruct e1 as [m1 |]; cbn [bld world log term scm BuildConfig fst snd];
    rewrite E2; destruct e2 as [m2 |];
    cbn [bld world log term scm BuildConfig fst snd];
    rewrite E3; destruct e3 as [m3 |];
    cbn [bld world log term scm BuildConfig fst snd];
    rewrite E4; destruct e4 as [m4 |];
    cbn [bld world log term scm BuildConfig fst snd isNil andb report];
    rewrite <- ?app_assoc; cbn [app];
    (split; [reflexivity |]);
    (split; [intros H; try discriminate H; auto
            | intros (H1 & H2 & H3 & H4); try discriminate; reflexivity]).
Qed.

(** *** Deployment *)

(** C8. When the deploy host and the build host are both local, [deploy]
    runs [cp] from the binary under the Jail's [bin], named after the base
    name of AppPath, to BinaryName under DeployPath, prints the output and
    panics only if the copy failed; with Jail [/j], AppPath [myapp],
    DeployPath [/out] and BinaryName [app] the copy is from [/j/bin/myapp]
    to [/out/app]. *)
Theorem deploy_local_copy (st : state S) (host : string) :
  isHostLocal host = true ->
  isHostLocal (Host (BuildConfig (bld st))) = true ->
  let bc := BuildConfig (bld st) in
  let dc := DeployConfig (bld st) in
  let src := GoPath.Join [Jail bc; "bin"; GoPath.Base (AppPath bc)] in
  let dst := GoPath.Join [DeployPath dc; BinaryName dc] in
  let '(r, w) := CombinedOutput S "cp" [src; dst] (world st) in
  deploy S [host] st =
    (match snd r with
     | Some e => Panicked ("Failed to deploy: " ++ e)
     | None => Returned tt
     end,
     {| bld := bld st; world := w;
        log := (log st ++ [EvPrint "Copying local binary";
                           EvCommand "cp" [src; dst];
                           EvPrint (fst r)])%list |}) /\
  (Jail bc = "/j" -> AppPath bc = "myapp" ->
   DeployPath dc = "/out" -> BinaryName dc = "app" ->
   src = "/j/bin/myapp" /\ dst = "/out/app").
Proof.
  intros Hh Hb. cbv zeta.
  destruct (CombinedOutput S "cp" _ (world st)) as [[out e] w] eqn:E.
  split.
  - unfold deploy. unfold_run. rewrite Hh, Hb. cbn [andb bld world log].
    rewrite E. cbn [fst snd bld world log].
    rewrite <- !app_assoc. cbn [app].
    destruct e; reflexivity.
  - intros -> -> -> ->. split; reflexivity.
Qed.

(** C2, as the code has it. A host that is not local enters neither branch
    of [deploy]: no copy is started, an empty line is printed, and the call
    returns without a panic. *)
Theorem deploy_remote_host_passes (st : state S) (host : string) :
  isHostLocal host = false ->
  deploy S [host] st =
    (Returned tt,
     {| bld := bld st; world := world st;
        log := (log st ++ [EvPrint ""])%list |}).
Proof.
  intros Hh. unfold deploy. unfold_run. rewrite Hh. reflexivity.
Qed.

(** *** Invariants of runs *)

Section Rules.

Context {A B : Type}.
Variable P : builder -> Prop.
Variable Q : event -> Prop.

Lemma triple_ret (a : A) (R : A -> builder -> Prop) :
  (forall b, P b -> R a b) -> triple P Q (ret S a) R.
Proof.
  intros HR st o st' HP H. inversion H; subst. split; auto.
  exists []. rewrite app_nil_r. auto.
Qed.

Lemma triple_panic (msg : string) (R : A -> builder -> Prop) :
  triple P Q (panic S msg) R.
Proof.
  intros st o st' HP H. inversion H; subst. split; auto.
  exists []. rewrite app_nil_r. auto.
Qed.

Lemma triple_bind (m : M S A) (k : A -> M S B) R1 (R : B -> builder -> Prop) :
  triple P Q m R1 ->
  (forall a, triple (R1 a) Q (k a) R) ->
  triple P Q (bind S m k) R.
Proof.
  intros Hm Hk st o st' HP. unfold bind.
  destruct (m st) as [[a | msg] st1] eqn:E; intros H.
  - destruct (Hm _ _ _ HP E) as [(evs1 & L1 & F1) HR1].
    destruct (Hk a _ _ _ HR1 H) as [(evs2 & L2 & F2) HR].
    split; auto. exists (evs1 ++ evs2)%list.
    rewrite L2, L1, app_assoc. split; auto. apply Forall_app; auto.
  - inversion H; subst. destruct (Hm _ _ _ HP E) as [Hl _]. split; auto.
Qed.

Lemma triple_bind_inv (m : M S A) (k : A -> M S B) (R : B -> builder -> Prop) :
  triple P Q m (fun _ => P) ->
  (forall a, triple P Q (k a) R) ->
  triple P Q (bind S m k) R.
Proof. intros Hm Hk. eapply triple_bind; eauto. Qed.

Lemma triple_bind_get (k : builder -> M S B) (R : B -> builder -> Prop) :
  (forall b, P b -> triple P Q (k b) R) ->
  triple P Q (bind S (getBuilder S) k) R.
Proof.
  intros Hk st o st' HP. unfold bind, getBuilder. intros H.
  exact (Hk _ HP _ _ _ HP H).
Qed.

Lemma triple_call (e : event) (f : World S -> A * World S)
    (R : A -> builder -> Prop) :
  Q e -> (forall a b, P b -> R a b) -> triple P Q (call S e f) R.
Proof.
  intros HQ HR st o st' HP. unfold call.
  destruct (f (world st)) as [a w]. intros H; inversion H; subst.
  cbn [bld log]. split; auto. exists [e]. auto.
Qed.

Lemma triple_ask (f : World S -> A) (R : A -> builder -> Prop) :
  (forall a b, P b -> R a b) -> triple P Q (ask S f) R.
Proof.
  intros HR st o st' HP H. inversion H; subst. split; auto.
  exists []. rewrite app_nil_r. auto.
Qed.

Lemma triple_post (m : M S A) (R R' : A -> builder -> Prop) :
  triple P Q m R -> (forall a b, R a b -> R' a b) -> triple P Q m R'.
Proof.
  intros Hm HR st o st' HP H. destruct (Hm _ _ _ HP H) as [Hl Ho].
  split; auto. destruct o; auto.
Qed.

End Rules.

Section FieldRules.

Variable P : builder -> Prop.
Variable Q : event -> Prop.

Lemma triple_setBuilder (b' : builder) (R : unit -> builder -> Prop) :
  R tt b' -> triple P Q (setBuilder S b') R.
Proof.
  intros HR st o st' HP H. inversion H; subst. cbn [bld log]. split; auto.
  exists []. rewrite app_nil_r. auto.
Qed.

Lemma triple_theTerm (R : Terminal -> builder -> Prop) :
  (forall t b, P b -> term b = Some t -> R t b) -> triple P Q (theTerm S) R.
Proof.
  intros HR st o st' HP. unfold theTerm, bind, getBuilder.
  destruct (term (bld st)) as [t |] eqn:E; intros H; inversion H; subst;
    (split; [exists []; rewrite app_nil_r; auto | auto]).
Qed.

Lemma triple_theScm (R : Scm -> builder -> Prop) :
  (forall s b, P b -> scm b = Some s -> R s b) -> triple P Q (theScm S) R.
Proof.
  intros HR st o st' HP. unfold theScm, bind, getBuilder.
  destruct (scm (bld st)) as [s |] eqn:E; intros H; inversion H; subst;
    (split; [exists []; rewrite app_nil_r; auto | auto]).
Qed.

Lemma triple_setTerm (t : Terminal) (R : unit -> builder -> Prop) :
  (forall b, P b ->
     R tt {| BuildConfig := BuildConfig b; DeployConfig := DeployConfig b;
             term := Some t; scm := scm b;
             projectPath := projectPath b; pack := pack b |}) ->
  triple P Q (setTerm S t) R.
Proof.
  intros HR st o st' HP H. inversion H; subst. cbn [bld log]. split; auto.
  exists []. rewrite app_nil_r. auto.
Qed.

Lemma triple_setScm (s : Scm) (R : unit -> builder -> Prop) :
  (forall b, P b ->
     R tt {| BuildConfig := BuildConfig b; DeployConfig := DeployConfig b;
             term := term b; scm := Some s;
             projectPath := projectPath b; pack := pack b |}) ->
  triple P Q (setScm S s) R.
Proof.
  intros HR st o st' HP H. inversion H; subst. cbn [bld log]. split; auto.
  exists []. rewrite app_nil_r. auto.
Qed.

Lemma triple_setProjectPath (p : string) (R : unit -> builder -> Prop) :
  (forall b, P b ->
     R tt {| BuildConfig := BuildConfig b; DeployConfig := DeployConfig b;
             term := term b; scm := scm b;
             projectPath := p; pack := pack b |}) ->
  triple P Q (setProjectPath S p) R.
Proof.
  intros HR st o st' HP H. inversion H; subst. cbn [bld log]. split; auto.
  exists []. rewrite app_nil_r. auto.
Qed.

Lemma triple_setPack (p : option Package) (R : unit -> builder -> Prop) :
  (forall b, P b ->
     R tt {| BuildConfig := BuildConfig b; DeployConfig := DeployConfig b;
             term := term b; scm := scm b;
             projectPath := projectPath b; pack := p |}) ->
  triple P Q (setPack S p) R.
Proof.
  intros HR st o st' HP H. inversion H; subst. cbn [bld log]. split; auto.
  exists []. rewrite app_nil_r. auto.
Qed.

(** The calls on the terminal keep any invariant of the builder. *)
Lemma triple_termExec (cmd : string) (R : string * error -> builder -> Prop) :
  Q (EvExec cmd) -> (forall r b, P b -> R r b) -> triple P Q (termExec S cmd) R.
Proof.
  intros HQ HR. unfold termExec. apply triple_bind_inv.
  - apply triple_theTerm; auto.
  - intros t. apply triple_call; auto.
Qed.

Lemma triple_termExecPath (cmd dir : string) (R : string * error -> builder -> Prop) :
  Q (EvExecPath cmd dir) -> (forall r b, P b -> R r b) ->
  triple P Q (termExecPath S cmd dir) R.
Proof.
  intros HQ HR. unfold termExecPath. apply triple_bind_inv.
  - apply triple_theTerm; auto.
  - intros t. apply triple_call; auto.
Qed.

Lemma triple_termSetEnv (name value : string) (R : unit -> builder -> Prop) :
  Q (EvSetEnv name value) -> (forall u b, P b -> R u b) ->
  triple P Q (termSetEnv S name value) R.
Proof.
  intros HQ HR. unfold termSetEnv. apply triple_bind_inv.
  - apply triple_theTerm; auto.
  - intros t. apply triple_call; auto.
Qed.

Lemma triple_Println (line : string) (R : unit -> builder -> Prop) :
  Q (EvPrint line) -> (forall u b, P b -> R u b) -> triple P Q (Println S line) R.
Proof. intros HQ HR. unfold Println. apply triple_call; auto. Qed.

Lemma triple_osCommand (name : string) (args : list string)
    (R : string * error -> builder -> Prop) :
  Q (EvCommand name args) -> (forall r b, P b -> R r b) ->
  triple P Q (osCommand S name args) R.
Proof. intros HQ HR. unfold osCommand. apply triple_call; auto. Qed.

(** [runCommands] executes and prints, and leaves the builder alone. *)
Lemma triple_runCommands (cmds : list string) :
  (forall c, Q (EvExec c)) -> (forall l, Q (EvPrint l)) ->
  triple P Q (runCommands S cmds) (fun _ => P).
Proof.
  intros HE HP. induction cmds as [| cmd rest IH]; cbn [runCommands].
  - apply triple_ret; auto.
  - apply triple_bind_inv; [apply triple_termExec; auto |]. intros r.
    apply triple_bind_inv; [apply triple_Println; auto |]. intros _.
    destruct (snd r); [apply triple_panic | exact IH].
Qed.

End FieldRules.

(** One step of a proof of a [triple], read off the program. *)
Ltac triple_step :=
  cbv beta in *;
  lazymatch goal with
  | |- triple _ _ (bind _ (getBuilder _) _) _ =>
      apply triple_bind_get; intros ? ?
  | |- triple _ _ (bind _ _ _) _ => apply triple_bind_inv; [| intros ?]
  | |- triple _ _ (ret _ _) _ => apply triple_ret; auto
  | |- triple _ _ (panic _ _) _ => apply triple_panic
  | |- triple _ _ (call _ _ _) _ => apply triple_call; [| auto]
  | |- triple _ _ (ask _ _) _ => apply triple_ask; auto
  | |- triple _ _ (theTerm _) _ => apply triple_theTerm; auto
  | |- triple _ _ (theScm _) _ => apply triple_theScm; auto
  | |- triple _ _ (setTerm _ _) _ => apply triple_setTerm; auto
  | |- triple _ _ (setScm _ _) _ => apply triple_setScm; auto
  | |- triple _ _ (setPack _ _) _ => apply triple_setPack; auto
  | |- triple _ _ (setProjectPath _ _) _ => apply triple_setProjectPath; auto
  | |- triple _ _ (setBuilder _ _) _ => apply triple_setBuilder; auto
  | |- triple _ _ (termExec _ _) _ => apply triple_termExec; [| auto]
  | |- triple _ _ (termExecPath _ _ _) _ => apply triple_termExecPath; [| auto]
  | |- triple _ _ (termSetEnv _ _ _) _ => apply triple_termSetEnv; [| auto]
  | |- triple _ _ (Println _ _) _ => apply triple_Println; [| auto]
  | |- triple _ _ (osCommand _ _ _) _ => apply triple_osCommand; [| auto]
  | |- triple _ _ (runCommands _ _) _ => apply triple_runCommands
  | |- triple _ _ (validatePackage _) _ => unfold validatePackage
  | |- triple _ _ (newBuilder _ _) _ => unfold newBuilder
  | |- triple _ _ (setupScm _) _ => unfold setupScm
  | |- triple _ _ (probe _ _ _ _) _ => unfold probe
  | |- triple _ _ (validateBuildEnvironment _) _ => unfold validateBuildEnvironment
  | |- triple _ _ (updateCode _) _ => unfold updateCode
  | |- triple _ _ (getPackageDependencies _ _) _ => unfold getPackageDependencies
  | |- triple _ _ (updateDependencies _) _ => unfold updateDependencies
  | |- triple _ _ (buildProject _) _ => unfold buildProject
  | |- triple _ _ (testSkynet _) _ => unfold testSkynet
  | |- triple _ _ (runTests _) _ => unfold runTests
  | |- triple _ _ (performBuild _) _ => unfold performBuild
  | |- triple _ _ (match ?x with _ => _ end) _ => destruct x eqn:?
  end.

(** *** Closing the terminal *)

Lemma closes_app (l1 l2 : list event) : closes (l1 ++ l2) = closes l1 + closes l2.
Proof. unfold closes. rewrite filter_app, length_app. reflexivity. Qed.







(** *** Tests only on request *)

Lemma Forall_existsb_false {X} (f : X -> bool) (l : list X) :
  Forall (fun x => f x = false) l -> existsb f l = false.
Proof.
  induction 1 as [| x l Hx _ IH]; simpl; auto. rewrite Hx. exact IH.
Qed.

(** C7. When RunTests is false, [performBuild] issues no test command,
    whether it returns or panics and whatever TestSkynet says. *)
Theorem performBuild_no_tests_unless_asked (st : state S) o st' :
  RunTests (BuildConfig (bld st)) = false ->
  performBuild S st = (o, st') ->
  exists evs, log st' = (log st ++ evs)%list /\ existsb isTestCommand evs = false.
Proof.
  intros Hrun Hperf.
  assert (T : triple (fun b => RunTests (BuildConfig b) = false)
                (fun e => isTestCommand e = false)
                (performBuild S)
                (fun _ b => RunTests (BuildConfig b) = false)).
  { repeat (triple_step; try congruence); reflexivity. }
  destruct (T _ _ _ Hrun Hperf) as [(evs & L & F) _].
  exists evs. split; auto. apply Forall_existsb_false. exact F.
Qed.

(** *** The project path *)

Lemma triple_false {A} (Q : event -> Prop) (m : M S A) (R : A -> builder -> Prop) :
  triple (fun _ => False) Q m R.
Proof. intros st o st' []. Qed.

Section ProjectPath.

Variable bc : buildConfig.
Variable p : string.

Lemma updateCode_sets_projectPath (pp0 : string) :
  ImportPathFromRepo S GitScm (AppRepo bc) = (p, None) ->
  triple (onPath bc pp0) (runsUnder bc (projectPathOf bc p)) (updateCode S) (fun _ => onPath bc (projectPathOf bc p)).
Proof.
  intros Himp. unfold updateCode.
  apply triple_bind_get. intros b0 [Hc Hp].
  eapply triple_bind; [apply triple_theScm; intros s b Hb _; exact Hb |].
  intros []. rewrite Hc, Himp.
  eapply triple_bind with (R1 := fun _ => onPath bc (projectPathOf bc p)).
  - apply triple_setProjectPath. intros b [Hc' _]. split; auto.
  - intros u. repeat triple_step; exact I.
Qed.

Lemma updateCode_refused (pp0 : string) (e : string) :
  ImportPathFromRepo S GitScm (AppRepo bc) = (p, Some e) ->
  triple (onPath bc pp0) noStageCommand (updateCode S) (fun _ _ => False).
Proof.
  intros Himp. unfold updateCode.
  apply triple_bind_get. intros b0 [Hc Hp].
  eapply triple_bind; [apply triple_theScm; intros s b Hb _; exact Hb |].
  intros []. rewrite Hc, Himp.
  eapply triple_bind with (R1 := fun _ _ => True).
  - apply triple_setProjectPath. auto.
  - intros u. apply triple_panic.
Qed.

(** The stages after the checkout run their commands under the project
    path and leave it as it is. *)
Lemma later_stages_keep_projectPath (b : builder) :
  BuildConfig b = bc ->
  triple (onPath bc (projectPathOf bc p)) (runsUnder bc (projectPathOf bc p))
    (bind S (termSetEnv S "GOPATH" (goPath b)) (fun _ =>
     bind S (termSetEnv S "GOROOT" (GoRoot (BuildConfig b))) (fun _ =>
     bind S (termSetEnv S "CGO_CFLAGS" (CgoCFlags (BuildConfig b))) (fun _ =>
     bind S (termSetEnv S "CGO_LDFLAGS" (CgoLdFlags (BuildConfig b))) (fun _ =>
     bind S (runCommands S (PreBuildCommands (BuildConfig b))) (fun _ =>
     bind S (updateDependencies S) (fun _ =>
     bind S (buildProject S) (fun _ =>
     bind S (if RunTests (BuildConfig b) then runTests S else ret S tt) (fun _ =>
     runCommands S (PostBuildCommands (BuildConfig b)))))))))))
    (fun _ => onPath bc (projectPathOf bc p)).
Proof.
  intros Hb.
  repeat triple_step; cbn [runsUnder]; auto;
    repeat match goal with
           | H : onPath _ _ _ |- _ => destruct H as [? ?]
           end;
    try (left; congruence);
    right; subst bc; repeat split; try congruence.
  - left. unfold goGet.
    replace (BuildConfig b2) with (BuildConfig b) by congruence. reflexivity.
  - right. reflexivity.
Qed.

End ProjectPath.

(** The directories of the commands of a run: under the project path of
    the derivation when it succeeds, none at all when it fails. *)
Lemma stage_directories_follow_derivation (st : state S) p err o st' :
  ImportPathFromRepo S GitScm (AppRepo (BuildConfig (bld st))) = (p, err) ->
  performBuild S st = (o, st') ->
  let bc := BuildConfig (bld st) in
  let pp := GoPath.Join [Jail bc; "src"; p] in
  exists evs,
    log st' = (log st ++ evs)%list /\
    match err with
    | None =>
        Forall (runsUnder bc pp) evs /\
        match o with
        | Returned _ =>
            projectPath (bld st') = pp \/
            projectPath (bld st') = projectPath (bld st)
        | Panicked _ => True
        end
    | Some _ => Forall noStageCommand evs
    end.
Proof.
  intros Himp Hperf bc pp.
  set (before := onPath bc (projectPath (bld st))).
  set (after := onPath bc pp).
  assert (Hst : before (bld st)) by (split; reflexivity).
  destruct err as [e |].
  - assert (T : triple before noStageCommand (performBuild S) (fun _ _ => True)).
    { unfold performBuild.
      apply triple_bind_inv.
      { repeat triple_step; exact I. }
      intros u. apply triple_bind_inv; [repeat triple_step; exact I |].
      intros [|]; [| apply triple_ret; auto].
      eapply triple_bind; [apply (updateCode_refused bc p _ e Himp) |].
      intros u'. apply triple_false. }
    destruct (T _ _ _ Hst Hperf) as [(evs & L & F) _]. exists evs. auto.
  - assert (T : triple before (runsUnder bc pp) (performBuild S)
                  (fun _ b => after b \/ before b)).
    { unfold performBuild.
      apply triple_bind_inv.
      { repeat triple_step; exact I. }
      intros u. apply triple_bind_inv; [repeat triple_step; exact I |].
      intros [|]; [| apply triple_ret; auto].
      eapply triple_bind; [apply (updateCode_sets_projectPath bc p _ Himp) |].
      intros u'. apply triple_bind_get. intros b [Hc Hp].
      eapply triple_post; [apply (later_stages_keep_projectPath bc p b Hc) |].
      cbv beta. auto. }
    destruct (T _ _ _ Hst Hperf) as [(evs & L & F) Ho]. exists evs.
    split; auto. split; auto.
    destruct o; auto. destruct Ho as [[_ Hp] | [_ Hp]]; auto.
Qed.

(** *** The order of the stages *)

Lemma execsOf_app (l1 l2 : list event) :
  execsOf (l1 ++ l2) = (execsOf l1 ++ execsOf l2)%list.
Proof. unfold execsOf. apply flat_map_app. Qed.

Lemma keepsBuilder_of_triple {A} (m : M S A) :
  (forall b0, triple (eq b0) (fun _ => True) m (fun _ => eq b0)) ->
  keepsBuilder m.
Proof.
  intros T st a st' H. destruct (T (bld st) _ _ _ eq_refl H) as [_ E].
  symmetry. exact E.
Qed.

Lemma termSetEnv_keepsBuilder (name value : string) :
  keepsBuilder (termSetEnv S name value).
Proof. apply keepsBuilder_of_triple. intros b0. repeat triple_step; auto. Qed.

Lemma runCommands_keepsBuilder (cmds : list string) :
  keepsBuilder (runCommands S cmds).
Proof. apply keepsBuilder_of_triple. intros b0. repeat triple_step; auto. Qed.

Lemma updateDependencies_keepsBuilder : keepsBuilder (updateDependencies S).
Proof. apply keepsBuilder_of_triple. intros b0. repeat triple_step; auto. Qed.

Lemma buildProject_keepsBuilder : keepsBuilder (buildProject S).
Proof. apply keepsBuilder_of_triple. intros b0. repeat triple_step; auto. Qed.

(** A call on the terminal that returned had a terminal to call. *)
Lemma termSetEnv_has_term (name value : string) (st : state S) u st' :
  termSetEnv S name value st = (Returned u, st') ->
  exists t, term (bld st) = Some t.
Proof.
  unfold termSetEnv. unfold_run.
  destruct (term (bld st)) as [t |]; cbn; intros H; [eauto | discriminate H].
Qed.

Lemma termSetEnv_log (name value : string) (st : state S) u st' :
  termSetEnv S name value st = (Returned u, st') ->
  log st' = (log st ++ [EvSetEnv name value])%list.
Proof.
  unfold termSetEnv. unfold_run.
  destruct (term (bld st)) as [t |]; cbn; intros H; inversion H; reflexivity.
Qed.


(** What [stagesBeforePreBuild] went through when it reports a valid
    environment: the steps of [performBuild] up to the last [SetEnv]. *)
Lemma stagesBeforePreBuild_true (st st1 : state S) :
  stagesBeforePreBuild S st = (Returned true, st1) ->
  (exists t, term (bld st1) = Some t) /\
  (exists l,
     log st1 =
       (l ++ [EvSetEnv "GOPATH" (goPath (bld st1));
              EvSetEnv "GOROOT" (GoRoot (BuildConfig (bld st1)));
              EvSetEnv "CGO_CFLAGS" (CgoCFlags (BuildConfig (bld st1)));
              EvSetEnv "CGO_LDFLAGS" (CgoLdFlags (BuildConfig (bld st1)))])%list) /\
  performBuild S st =
    bind S (runCommands S (PreBuildCommands (BuildConfig (bld st1)))) (fun _ =>
    bind S (updateDependencies S) (fun _ =>
    bind S (buildProject S) (fun _ =>
    bind S (if RunTests (BuildConfig (bld st1)) then runTests S else ret S tt) (fun _ =>
    runCommands S (PostBuildCommands (BuildConfig (bld st1))))))) st1.
Proof.
  unfold stagesBeforePreBuild. intros H.
  apply bind_Returned in H as (u1 & sA & E1 & H).
  apply bind_Returned in H as (valid & sB & E2 & H).
  destruct valid; [| discriminate H].
  apply bind_Returned in H as (u3 & sC & E3 & H).
  apply bind_Returned in H as (b & sC' & E4 & H).
  inversion E4; subst b sC'; clear E4.
  apply bind_Returned in H as (u5 & s5 & E5 & H).
  apply bind_Returned in H as (u6 & s6 & E6 & H).
  apply bind_Returned in H as (u7 & s7 & E7 & H).
  apply bind_Returned in H as (u8 & s8 & E8 & H).
  inversion H; subst s8; clear H.
  pose proof (termSetEnv_keepsBuilder _ _ _ _ _ E5) as B5.
  pose proof (termSetEnv_keepsBuilder _ _ _ _ _ E6) as B6.
  pose proof (termSetEnv_keepsBuilder _ _ _ _ _ E7) as B7.
  pose proof (termSetEnv_keepsBuilder _ _ _ _ _ E8) as B8.
  assert (B : bld st1 = bld sC) by congruence.
  split; [| split].
  - destruct (termSetEnv_has_term _ _ _ _ _ E8) as [t Ht]. exists t. congruence.
  - exists (log sC).
    rewrite (termSetEnv_log _ _ _ _ _ E8), (termSetEnv_log _ _ _ _ _ E7),
      (termSetEnv_log _ _ _ _ _ E6), (termSetEnv_log _ _ _ _ _ E5), B.
    rewrite <- !app_assoc. reflexivity.
  - unfold performBuild.
    unfold bind at 1. rewrite E1.
    unfold bind at 1. rewrite E2.
    unfold bind at 1. rewrite E3.
    unfold bind at 1. unfold getBuilder at 1.
    unfold bind at 1. rewrite E5.
    unfold bind at 1. rewrite E6.
    unfold bind at 1. rewrite E7.
    unfold bind at 1. rewrite E8.
    rewrite B. reflexivity.
Qed.

Lemma stagesBeforePreBuild_no_stage_command :
  triple (fun _ => True) noStageCommand (stagesBeforePreBuild S) (fun _ _ => True).
Proof. unfold stagesBeforePreBuild. repeat triple_step; cbn; auto. Qed.


(** *** The Go path *)

Lemma goPath_of_config (b b' : builder) :
  BuildConfig b = BuildConfig b' -> goPath b = goPath b'.
Proof. unfold goPath. intros ->. reflexivity. Qed.


(** *** The tests of skynet *)



(** *** Host and port *)

Lemma Split_noColon (s : string) :
  noColon s = true -> GoStrings.Split s ":"%char = [s].
Proof.
  induction s as [| c rest IH]; cbn [noColon GoStrings.Split]; auto.
  intros H. apply andb_prop in H as [Hc Hrest].
  destruct (Ascii.eqb c ":"%char); [discriminate Hc |].
  rewrite (IH Hrest). reflexivity.
Qed.

Lemma Split_at_colon (a rest : string) :
  noColon a = true ->
  GoStrings.Split (a ++ String ":"%char rest) ":"%char =
  a :: GoStrings.Split rest ":"%char.
Proof.
  induction a as [| c a IH]; cbn [noColon append GoStrings.Split].
  - intros _. reflexivity.
  - intros H. apply andb_prop in H as [Hc Ha].
    destruct (Ascii.eqb c ":"%char); [discriminate Hc |].
    rewrite (IH Ha). reflexivity.
Qed.

(** X1. A host written without a colon is taken whole and gets the
    default port 22. *)
Theorem splitHostPort_default_port (host : string) :
  noColon host = true -> splitHostPort host = (host, "22").
Proof.
  intros H. unfold splitHostPort. rewrite (Split_noColon _ H). reflexivity.
Qed.

(** X2. A host and a port joined by a colon come apart again; whatever
    follows a second colon is dropped. *)
Theorem splitHostPort_round_trip (host port : string) :
  noColon host = true ->
  noColon port = true ->
  splitHostPort (host ++ ":" ++ port) = (host, port) /\
  forall more, splitHostPort (host ++ ":" ++ port ++ ":" ++ more) = (host, port).
Proof.
  intros Hh Hp. unfold splitHostPort. split.
  - change (host ++ ":" ++ port) with (host ++ String ":"%char port).
    rewrite (Split_at_colon _ _ Hh), (Split_noColon _ Hp). reflexivity.
  - intros more.
    change (host ++ ":" ++ port ++ ":" ++ more)
      with (host ++ String ":"%char (port ++ String ":"%char more)).
    rewrite (Split_at_colon _ _ Hh), (Split_at_colon _ _ Hp).
    destruct (GoStrings.Split more ":"%char) eqn:E; reflexivity.
Qed.

(** *** Deployment to a list of hosts *)

Lemma bind_ext {A B} (m : M S A) (k1 k2 : A -> M S B) (st : state S) :
  (forall a st1, k1 a st1 = k2 a st1) -> bind S m k1 st = bind S m k2 st.
Proof.
  intros H. unfold bind. destruct (m st) as [[a | msg] st1]; auto.
Qed.

Lemma commandsOf_app (l1 l2 : list event) :
  commandsOf (l1 ++ l2) = (commandsOf l1 ++ commandsOf l2)%list.
Proof. unfold commandsOf. apply filter_app. Qed.

(** One round of the loop of [deploy], for a local host and for another. *)
Lemma deploy_cons_local (host : string) (rest : list string) (st : state S) :
  isHostLocal host = true ->
  exists out e w,
    let st1 := {| bld := bld st; world := w;
                  log := (log st ++ [EvPrint (banner (bld st)); transfer (bld st);
                                     EvPrint out])%list |} in
    deploy S (host :: rest) st =
      match e with
      | Some m => (Panicked ("Failed to deploy: " ++ m), st1)
      | None => deploy S rest st1
      end.
Proof.
  intros Hh. cbn [deploy]. unfold_run. rewrite Hh. unfold banner, transfer.
  destruct (isHostLocal (Host (BuildConfig (bld st)))); cbn [andb negb bld world log].
  - destruct (CombinedOutput S "cp" _ (world st)) as [[out e] w] eqn:E.
    exists out, e, w. cbv zeta. unfold builtBinary, deployedBinary. rewrite ?E.
    cbn [fst snd bld world log]. rewrite <- !app_assoc. cbn [app].
    destruct e; reflexivity.
  - destruct (splitHostPort (Host (BuildConfig (bld st)))) as [h port].
    cbn [fst snd bld world log].
    destruct (CombinedOutput S "scp" _ (world st)) as [[out e] w] eqn:E.
    exists out, e, w. cbv zeta. unfold builtBinary, deployedBinary. rewrite ?E.
    cbn [fst snd bld world log]. rewrite <- !app_assoc. cbn [app].
    destruct e; reflexivity.
Qed.

Lemma deploy_cons_remote (host : string) (rest : list string) (st : state S) :
  isHostLocal host = false ->
  deploy S (host :: rest) st =
  deploy S rest {| bld := bld st; world := world st;
                   log := (log st ++ [EvPrint ""])%list |}.
Proof. intros Hh. cbn [deploy]. unfold_run. rewrite Hh. reflexivity. Qed.

(** X3. When the deploy host is local and the build host is not, [deploy]
    fetches the binary with [scp], from the user's account on the build
    host, through the port written after the host's colon or 22, to
    BinaryName under DeployPath; it prints the output and panics only if
    the copy failed. *)
Theorem deploy_copy_from_build_host (st : state S) (host : string) :
  isHostLocal host = true ->
  isHostLocal (Host (BuildConfig (bld st))) = false ->
  let bc := BuildConfig (bld st) in
  let dc := DeployConfig (bld st) in
  let args :=
    ["-P"; snd (splitHostPort (Host bc));
     User bc ++ "@" ++ fst (splitHostPort (Host bc)) ++ ":"
       ++ GoPath.Join [Jail bc; "bin"; GoPath.Base (AppPath bc)];
     GoPath.Join [DeployPath dc; BinaryName dc]] in
  let '(r, w) := CombinedOutput S "scp" args (world st) in
  deploy S [host] st =
    (match snd r with
     | Some e => Panicked ("Failed to deploy: " ++ e)
     | None => Returned tt
     end,
     {| bld := bld st; world := w;
        log := (log st ++ [EvPrint "Copying binary from build machine";
                           EvCommand "scp" args;
                           EvPrint (fst r)])%list |}).
Proof.
  intros Hh Hb. cbv zeta.
  unfold deploy. unfold_run. rewrite Hh, Hb. cbn [andb negb bld world log].
  destruct (splitHostPort (Host (BuildConfig (bld st)))) as [h port].
  cbn [fst snd bld world log].
  destruct (CombinedOutput S "scp" _ (world st)) as [[out e] w] eqn:E.
  cbn [fst snd bld world log]. rewrite <- !app_assoc. cbn [app].
  destruct e; reflexivity.
Qed.

(** X4. Deploying to a list of hosts is deploying to its front part and
    then, unless that panicked, to the rest. *)
Theorem deploy_app (hosts1 hosts2 : list string) (st : state S) :
  deploy S (hosts1 ++ hosts2) st =
  bind S (deploy S hosts1) (fun _ => deploy S hosts2) st.
Proof.
  revert st. induction hosts1 as [| host rest IH]; intros st.
  - reflexivity.
  - cbn [app deploy]. rewrite bind_assoc.
    apply bind_ext. intros b s1. cbv zeta. rewrite bind_assoc.
    apply bind_ext. intros r s2. rewrite bind_assoc.
    apply bind_ext. intros u s3.
    destruct (snd r); [reflexivity | apply IH].
Qed.

(** X5. A call of [deploy] that returns has started one transfer for each
    local host of the list, the same for all of them, and none for the
    other hosts; the builder is as before. *)
Theorem deploy_transfers_per_local_host (hosts : list string) :
  forall (st st' : state S),
    deploy S hosts st = (Returned tt, st') ->
    bld st' = bld st /\
    exists evs,
      log st' = (log st ++ evs)%list /\
      commandsOf evs =
        repeat (transfer (bld st)) (length (filter isHostLocal hosts)).
Proof.
  induction hosts as [| host rest IH]; intros st st' H.
  - inversion H; subst. split; auto. exists []. rewrite app_nil_r. auto.
  - destruct (isHostLocal host) eqn:Hh; cbn [filter]; rewrite Hh.
    + destruct (deploy_cons_local host rest st Hh) as (out & e & w & Hd).
      cbv zeta in Hd. rewrite Hd in H. destruct e as [m |]; [discriminate H |].
      apply IH in H. cbn [bld log] in H. destruct H as [Hb (evs & Hl & Hc)].
      split; auto.
      exists ([EvPrint (banner (bld st)); transfer (bld st); EvPrint out] ++ evs)%list.
      rewrite Hl, <- app_assoc. split; auto.
      rewrite commandsOf_app, Hc. cbn [length repeat].
      unfold transfer. destruct (isHostLocal (Host (BuildConfig (bld st))));
        reflexivity.
    + rewrite (deploy_cons_remote host rest st Hh) in H.
      apply IH in H. cbn [bld log] in H. destruct H as [Hb (evs & Hl & Hc)].
      split; auto. exists (EvPrint "" :: evs).
      rewrite Hl, <- app_assoc. split; auto.
Qed.

(** X7. [deploy] works on the machine it runs on: whatever the hosts and
    the outcome, it never calls the terminal, neither to run a command nor
    to set a variable nor to close it; it only prints and starts
    processes. *)
Theorem deploy_leaves_terminal_alone (hosts : list string) (st : state S) o st' :
  deploy S hosts st = (o, st') ->
  exists evs,
    log st' = (log st ++ evs)%list /\
    Forall (fun e => match e with
                     | EvPrint _ | EvCommand _ _ => True
                     | _ => False
                     end) evs.
Proof.
  intros H.
  assert (T : triple (fun _ => True)
                (fun e => match e with
                          | EvPrint _ | EvCommand _ _ => True
                          | _ => False
                          end)
                (deploy S hosts) (fun _ _ => True)).
  { clear. induction hosts as [| host rest IH]; cbn [deploy];
      repeat triple_step; try exact I. exact IH. }
  destruct (T _ _ _ I H) as [Hl _]. exact Hl.
Qed.

(** *** Lists of commands *)

(** X8. Running a list of commands is running its front part and then,
    unless that panicked, the rest. *)
Theorem runCommands_app (cmds1 cmds2 : list string) (st : state S) :
  runCommands S (cmds1 ++ cmds2) st =
  bind S (runCommands S cmds1) (fun _ => runCommands S cmds2) st.
Proof.
  revert st. induction cmds1 as [| cmd rest IH]; intros st.
  - reflexivity.
  - cbn [app runCommands]. rewrite bind_assoc.
    apply bind_ext. intros r s1. rewrite bind_assoc.
    apply bind_ext. intros u s2.
    destruct (snd r); [reflexivity | apply IH].
Qed.

(** X9. A call of [runCommands] that returns has executed every command of
    the list, each once and in the order of the list, and printed the output
    of each; the builder is as before. *)
Theorem runCommands_runs_all (cmds : list string) :
  forall (st st' : state S),
    runCommands S cmds st = (Returned tt, st') ->
    bld st' = bld st /\
    exists evs,
      log st' = (log st ++ evs)%list /\
      execsOf evs = cmds /\
      length evs = 2 * length cmds /\
      Forall commandOrPrint evs.
Proof.
  induction cmds as [| cmd rest IH]; intros st st'; cbn [runCommands].
  - intros H. inversion H; subst. split; auto.
    exists []. rewrite app_nil_r. repeat split; auto.
  - unfold termExec, Println. unfold_run.
    destruct (term (bld st)) as [t |]; [| discriminate].
    destruct (Exec S t cmd (world st)) as [[out e] w1].
    cbn [fst snd bld world log]. destruct e as [e |]; [discriminate |].
    intros H. apply IH in H. cbn [bld log] in H.
    destruct H as [Hb (evs & Hl & He & Hn & Hf)]. split; auto.
    exists (EvExec cmd :: EvPrint out :: evs).
    rewrite Hl, <- !app_assoc. repeat split.
    + cbn [execsOf flat_map app]. fold (execsOf evs). rewrite He. reflexivity.
    + cbn [length]. rewrite Hn. lia.
    + repeat constructor. exact Hf.
Qed.

(** *** Reading the configuration *)

(** X11. A configuration file that cannot be read, or that does not parse,
    ends [Build] and [Deploy] with a panic that names the file, before
    anything happened: nothing is logged, no terminal is opened, the world
    is untouched. An empty name stands for [./build.cfg]. *)
Theorem configuration_errors_are_fatal (config : string) (st : state S) :
  (ReadFile S (configFile config) (world st) = None ->
   let failure := (Panicked ("Failed to read: " ++ configFile config), st) in
   Build S config st = failure /\ Deploy S config st = failure) /\
  (forall f e,
     ReadFile S (configFile config) (world st) = Some f ->
     Unmarshal S f = inr e ->
     let failure :=
       (Panicked ("Failed to parse " ++ configFile config ++ ": " ++ e),
        {| bld := zeroBuilder; world := world st; log := log st |}) in
     Build S config st = failure /\ Deploy S config st = failure) /\
  configFile "" = "./build.cfg".
Proof.
  split; [| split; [| reflexivity]].
  - intros Hread. cbv zeta.
    unfold Build, Deploy, newBuilder. fold (configFile config).
    unfold bind at 1. unfold bind at 1. unfold ask at 1. rewrite Hread.
    split; [reflexivity |].
    unfold bind at 1. unfold bind at 1. unfold ask at 1. rewrite Hread.
    reflexivity.
  - intros f e Hread Hparse. cbv zeta.
    unfold Build, Deploy, newBuilder. fold (configFile config).
    unfold bind at 1. unfold bind at 1. unfold ask at 1. rewrite Hread.
    unfold bind at 1. unfold setBuilder at 1. rewrite Hparse.
    split; [reflexivity |].
    unfold bind at 1. unfold bind at 1. unfold ask at 1. rewrite Hread.
    unfold bind at 1. unfold setBuilder at 1. rewrite Hparse.
    reflexivity.
Qed.

(** X12. A builder that [newBuilder] returns is complete: it carries the
    configuration as parsed, the terminal of its build host, a package that
    is a command, no version control provider yet and an empty project
    path. *)
Theorem newBuilder_returns_complete_builder (config : string) (st st' : state S) :
  newBuilder S config st = (Returned tt, st') ->
  exists f bc dc p,
    ReadFile S (configFile config) (world st) = Some f /\
    Unmarshal S f = inl (bc, dc) /\
    IsCommand p = true /\
    bld st' =
      {| BuildConfig := bc; DeployConfig := dc;
         term := Some (if isHostLocal (Host bc) then LocalTerminal else SSHConn);
         scm := None; projectPath := ""; pack := Some p |}.
Proof.
  unfold newBuilder. fold (configFile config).
  unfold bind at 1. unfold ask at 1.
  destruct (ReadFile S (configFile config) (world st)) as [f |] eqn:Hread;
    [| discriminate].
  unfold bind at 1. unfold setBuilder at 1.
  destruct (Unmarshal S f) as [[bc dc] | e] eqn:Hparse; [| discriminate].
  unfold bind at 1. unfold setBuilder at 1.
  unfold bind at 1. unfold getBuilder at 1. cbn [bld BuildConfig].
  intros H. exists f, bc, dc.
  assert (V : forall s s' : state S,
             validatePackage S s = (Returned tt, s') ->
             exists p, IsCommand p = true /\
               bld s' = {| BuildConfig := BuildConfig (bld s);
                           DeployConfig := DeployConfig (bld s);
                           term := term (bld s); scm := scm (bld s);
                           projectPath := projectPath (bld s);
                           pack := Some p |}).
  { intros s s'. unfold validatePackage. unfold_run.
    destruct (ImportDir S (world s)) as [[p |] [e |]]; cbn [fst snd];
      try discriminate.
    destruct (IsCommand p) eqn:Hp; cbn [negb]; [| discriminate].
    intros E. inversion E; subst. exists p. auto. }
  apply bind_Returned in H as (u & s1 & E1 & H).
  apply V in H as (p & Hp & Hb). exists p.
  split; [reflexivity | split; [exact Hparse | split; [exact Hp |]]].
  rewrite Hb.
  destruct (isHostLocal (Host bc)).
  - unfold_run. inversion E1; subst. reflexivity.
  - unfold_run. cbn [bld world log] in E1.
    destruct (Connect S (Host bc) (User bc) (world st)) as [[m |] w];
      inversion E1; subst. reflexivity.
Qed.

(** *** The pipeline, stage by stage *)

Lemma bind_ext_run {A B} (m : M S A) (k1 k2 : A -> M S B) (st : state S) :
  (forall a st1, m st = (Returned a, st1) -> k1 a st1 = k2 a st1) ->
  bind S m k1 st = bind S m k2 st.
Proof.
  intros H. unfold bind. destruct (m st) as [[a | msg] st1]; auto.
Qed.

Lemma bind_ret_l {A B} (a : A) (k : A -> M S B) (st : state S) :
  bind S (ret S a) k st = k a st.
Proof. reflexivity. Qed.

Lemma bind_getBuilder {B} (k : builder -> M S B) (st : state S) :
  bind S (getBuilder S) k st = k (bld st) st.
Proof. reflexivity. Qed.

(** [performBuild] is its stages up to the environment, and then the
    configured stages if the environment was valid. *)
Lemma performBuild_by_stages (st : state S) :
  performBuild S st =
  bind S (stagesBeforePreBuild S)
    (fun valid =>
       if valid then bind S (getBuilder S) (fun b => configuredStages S b)
       else ret S tt) st.
Proof.
  unfold performBuild, stagesBeforePreBuild, configuredStages.
  rewrite bind_assoc. apply bind_ext. intros u1 s1.
  rewrite bind_assoc. apply bind_ext. intros valid s2.
  destruct valid; [| reflexivity].
  rewrite bind_assoc. apply bind_ext. intros u3 s3.
  rewrite bind_assoc. rewrite !bind_getBuilder.
  rewrite bind_assoc. apply bind_ext_run. intros u4 s4 E4.
  rewrite bind_assoc. apply bind_ext_run. intros u5 s5 E5.
  rewrite bind_assoc. apply bind_ext_run. intros u6 s6 E6.
  rewrite bind_assoc. apply bind_ext_run. intros u7 s7 E7.
  rewrite bind_ret_l, bind_getBuilder.
  pose proof (termSetEnv_keepsBuilder _ _ _ _ _ E4) as B4.
  pose proof (termSetEnv_keepsBuilder _ _ _ _ _ E5) as B5.
  pose proof (termSetEnv_keepsBuilder _ _ _ _ _ E6) as B6.
  pose proof (termSetEnv_keepsBuilder _ _ _ _ _ E7) as B7.
  replace (bld s7) with (bld s3) by congruence. reflexivity.
Qed.

(** And it is its stages up to the build, and then the tests and the
    post-build commands. *)
Lemma performBuild_by_build (st : state S) :
  performBuild S st =
  bind S (stagesBeforeTests S)
    (fun built =>
       if built then bind S (getBuilder S) (fun b => testStages S b)
       else ret S tt) st.
Proof.
  rewrite performBuild_by_stages. unfold stagesBeforeTests.
  rewrite bind_assoc. apply bind_ext. intros valid s0.
  destruct valid; [| reflexivity].
  rewrite bind_assoc. rewrite !bind_getBuilder.
  unfold configuredStages.
  rewrite bind_assoc. apply bind_ext_run. intros u1 s1 E1.
  rewrite bind_assoc. apply bind_ext_run. intros u2 s2 E2.
  rewrite bind_assoc. apply bind_ext_run. intros u3 s3 E3.
  rewrite bind_ret_l, bind_getBuilder. unfold testStages.
  pose proof (runCommands_keepsBuilder _ _ _ _ E1) as B1.
  pose proof (updateDependencies_keepsBuilder _ _ _ E2) as B2.
  pose proof (buildProject_keepsBuilder _ _ _ E3) as B3.
  replace (bld s3) with (bld s0) by congruence. reflexivity.
Qed.

(** X13. The only repository type is [git], spelled so. For any other
    type [performBuild] panics in [setupScm] before anything else: nothing
    is run on the build host and the builder is as it was. *)
Theorem performBuild_unknown_repository_type (st : state S) :
  RepoType (BuildConfig (bld st)) <> "git" ->
  performBuild S st = (Panicked "unkown RepoType", st).
Proof.
  intros N. unfold performBuild, setupScm. unfold bind at 1.
  rewrite bind_getBuilder.
  destruct (String.eqb_spec (RepoType (BuildConfig (bld st))) "git") as [E | _];
    [contradiction | reflexivity].
Qed.

(** X14. When a probe of the environment fails, [performBuild] stops after
    the probes and returns as if all was well: there is no checkout, no
    variable is set, no command of the pipeline runs and nothing panics. *)
Theorem performBuild_skips_invalid_environment (st s1 s2 : state S) :
  setupScm S st = (Returned tt, s1) ->
  validateBuildEnvironment S s1 = (Returned false, s2) ->
  performBuild S st = (Returned tt, s2) /\
  exists evs, log s2 = (log st ++ evs)%list /\ Forall execOrPrint evs.
Proof.
  intros E1 E2. split.
  - unfold performBuild. unfold bind at 1. rewrite E1.
    unfold bind at 1. rewrite E2. reflexivity.
  - assert (T : triple (fun _ => True) execOrPrint
                  (bind S (setupScm S) (fun _ => validateBuildEnvironment S))
                  (fun _ _ => True)).
    { repeat triple_step; exact I. }
    assert (E : bind S (setupScm S) (fun _ => validateBuildEnvironment S) st
                = (Returned false, s2)).
    { unfold bind. rewrite E1. exact E2. }
    destruct (T _ _ _ I E) as [Hl _]. exact Hl.
Qed.

(** The run of [updateCode] on a builder with its terminal and provider,
    for a repository whose import path is [p]. *)
Lemma updateCode_run (st : state S) (t : Terminal) (s : Scm) (p : string) :
  term (bld st) = Some t ->
  scm (bld st) = Some s ->
  ImportPathFromRepo S s (AppRepo (BuildConfig (bld st))) = (p, None) ->
  let bc := BuildConfig (bld st) in
  let pp := GoPath.Join [Jail bc; "src"; p] in
  let b' := {| BuildConfig := bc; DeployConfig := DeployConfig (bld st);
               term := term (bld st); scm := scm (bld st);
               projectPath := pp; pack := pack (bld st) |} in
  let checkout := EvCheckout (AppRepo bc) (RepoBranch bc) pp in
  let ended (e : error) : outcome unit :=
    match e with Some m => Panicked m | None => Returned tt end in
  let '(r1, w1) := Exec S t ("ls " ++ pp) (world st) in
  let '(r2, w2) := Exec S t ("mkdir -p " ++ pp) w1 in
  let made := [EvExec ("ls " ++ pp); EvPrint "Creating project directories";
               EvExec ("mkdir -p " ++ pp)] in
  match snd r1, snd r2 with
  | None, _ =>
      let '(e, w3) := Checkout S s t (AppRepo bc) (RepoBranch bc) pp w1 in
      updateCode S st =
        (ended e,
         {| bld := b'; world := w3;
            log := (log st ++ [EvExec ("ls " ++ pp); checkout])%list |})
  | Some _, Some _ =>
      updateCode S st =
        (Panicked "Could not create project directories",
         {| bld := b'; world := w2; log := (log st ++ made)%list |})
  | Some _, None =>
      let '(e, w3) := Checkout S s t (AppRepo bc) (RepoBranch bc) pp w2 in
      updateCode S st =
        (ended e,
         {| bld := b'; world := w3;
            log := (log st ++ made ++ [EvPrint (fst r2); checkout])%list |})
  end.
Proof.
  destruct st as [b w l]. destruct b as [bc dc tm sc pp0 pk].
  cbn [bld world log term scm BuildConfig DeployConfig pack].
  intros -> -> Himp. cbv zeta.
  unfold updateCode. unfold_run.
  cbn [bld world log term scm BuildConfig DeployConfig pack projectPath].
  rewrite Himp.
  cbn [bld world log term scm BuildConfig DeployConfig pack projectPath].
  destruct (Exec S t _ w) as [[o1 e1] w1].
  destruct (Exec S t ("mkdir -p " ++ _) w1) as [[o2 e2] w2] eqn:E2.
  cbn [fst snd bld world log term scm BuildConfig DeployConfig pack projectPath].
  destruct e1 as [m1 |];
    cbn [fst snd bld world log term scm BuildConfig DeployConfig pack projectPath].
  - rewrite E2.
    cbn [fst snd bld world log term scm BuildConfig DeployConfig pack projectPath].
    destruct e2 as [m2 |];
      cbn [fst snd bld world log term scm BuildConfig DeployConfig pack projectPath].
    + rewrite <- !app_assoc. reflexivity.
    + destruct (Checkout S s t _ _ _ w2) as [[m |] w3];
        cbn [fst snd bld world log];
        rewrite <- !app_assoc; reflexivity.
  - destruct e2; destruct (Checkout S s t _ _ _ w1) as [[m |] w3];
      cbn [fst snd bld world log];
      rewrite <- !app_assoc; reflexivity.
Qed.

(** What a checkout that returned went through. *)
Lemma updateCode_Returned (st st' : state S) :
  updateCode S st = (Returned tt, st') ->
  exists t s p,
    term (bld st) = Some t /\ scm (bld st) = Some s /\
    ImportPathFromRepo S s (AppRepo (BuildConfig (bld st))) = (p, None) /\
    let pp := GoPath.Join [Jail (BuildConfig (bld st)); "src"; p] in
    let listed := snd (fst (Exec S t ("ls " ++ pp) (world st))) in
    projectPath (bld st') = pp /\
    sameSetup (bld st) (bld st') /\
    exists evs,
      log st' = (log st ++ evs ++ [checkoutOf (bld st')])%list /\
      Forall execOrPrint evs /\
      (listed = None /\ execsOf evs = ["ls " ++ pp] \/
       listed <> None /\ execsOf evs = ["ls " ++ pp; "mkdir -p " ++ pp]).
Proof.
  intros H.
  destruct (term (bld st)) as [t |] eqn:Ht; cycle 1.
  { exfalso. revert H. unfold updateCode. unfold_run.
    destruct (scm (bld st)) as [s |]; [| discriminate].
    destruct (ImportPathFromRepo S s _) as [p [e |]];
      cbn [bld world log term]; [discriminate |].
    rewrite Ht. discriminate. }
  destruct (scm (bld st)) as [s |] eqn:Hs; cycle 1.
  { exfalso. revert H. unfold updateCode. unfold_run. rewrite Hs. discriminate. }
  destruct (ImportPathFromRepo S s (AppRepo (BuildConfig (bld st))))
    as [p [e |]] eqn:Himp.
  { exfalso. revert H. unfold updateCode. unfold_run. rewrite Hs, Himp.
    discriminate. }
  exists t, s, p.
  split; [reflexivity | split; [reflexivity | split; [exact Himp |]]]. cbv zeta.
  pose proof (updateCode_run st t s p Ht Hs Himp) as R. cbv zeta in R.
  destruct (Exec S t _ (world st)) as [[o1 e1] w1].
  destruct (Exec S t ("mkdir -p " ++ _) w1) as [[o2 e2] w2].
  cbn [fst snd] in *.
  destruct e1 as [m1 |]; [destruct e2 as [m2 |] |].
  - rewrite R in H. discriminate H.
  - destruct (Checkout S s t _ _ _ w2) as [[m |] w3]; rewrite R in H;
      [discriminate H |]. inversion H; subst st'; clear H R.
    cbn [bld log projectPath]. split; [reflexivity |].
    split; [repeat split; auto |].
    exists [EvExec ("ls " ++ GoPath.Join [Jail (BuildConfig (bld st)); "src"; p]);
            EvPrint "Creating project directories";
            EvExec ("mkdir -p " ++ GoPath.Join [Jail (BuildConfig (bld st)); "src"; p]);
            EvPrint o2].
    split; [reflexivity |]. split.
    + repeat constructor.
    + right. split; [discriminate | reflexivity].
  - destruct (Checkout S s t _ _ _ w1) as [[m |] w3]; rewrite R in H;
      [discriminate H |]. inversion H; subst st'; clear H R.
    cbn [bld log projectPath]. split; [reflexivity |].
    split; [repeat split; auto |].
    exists [EvExec ("ls " ++ GoPath.Join [Jail (BuildConfig (bld st)); "src"; p])].
    split; [reflexivity |]. split.
    + repeat constructor.
    + left. split; reflexivity.
Qed.

(** X15. A checkout that returns has listed the project directory, created
    it with [mkdir -p] exactly when the listing failed, and then, as its
    last action, checked the repository out, on the configured branch, into
    the project path it has just set; configuration, terminal and package of
    the builder are as before. *)
Theorem updateCode_lists_creates_checks_out (st st' : state S) :
  updateCode S st = (Returned tt, st') ->
  exists t s p,
    term (bld st) = Some t /\ scm (bld st) = Some s /\
    ImportPathFromRepo S s (AppRepo (BuildConfig (bld st))) = (p, None) /\
    let pp := GoPath.Join [Jail (BuildConfig (bld st)); "src"; p] in
    let listed := snd (fst (Exec S t ("ls " ++ pp) (world st))) in
    projectPath (bld st') = pp /\
    sameSetup (bld st) (bld st') /\
    exists evs,
      log st' = (log st ++ evs ++ [checkoutOf (bld st')])%list /\
      Forall execOrPrint evs /\
      (listed = None /\ execsOf evs = ["ls " ++ pp] \/
       listed <> None /\ execsOf evs = ["ls " ++ pp; "mkdir -p " ++ pp]).
Proof. exact (updateCode_Returned st st'). Qed.

(** X16. When the project directory can neither be listed nor created,
    [updateCode] panics and the repository is not checked out. *)
Theorem updateCode_needs_project_directory
    (st : state S) (t : Terminal) (s : Scm) (p : string) o1 e1 w1 o2 e2 w2 :
  term (bld st) = Some t ->
  scm (bld st) = Some s ->
  ImportPathFromRepo S s (AppRepo (BuildConfig (bld st))) = (p, None) ->
  let pp := GoPath.Join [Jail (BuildConfig (bld st)); "src"; p] in
  Exec S t ("ls " ++ pp) (world st) = ((o1, Some e1), w1) ->
  Exec S t ("mkdir -p " ++ pp) w1 = ((o2, Some e2), w2) ->
  exists st',
    updateCode S st = (Panicked "Could not create project directories", st') /\
    log st' = (log st ++ [EvExec ("ls " ++ pp);
                          EvPrint "Creating project directories";
                          EvExec ("mkdir -p " ++ pp)])%list.
Proof.
  intros Ht Hs Himp pp Hls Hmk.
  pose proof (updateCode_run st t s p Ht Hs Himp) as R. cbv zeta in R.
  fold pp in R. rewrite Hls, Hmk in R. cbn [fst snd] in R.
  eexists. split; [exact R | reflexivity].
Qed.

(** The log of the stages before the pre-build commands, when they report
    a valid environment. *)
Lemma stagesBeforePreBuild_log (st s1 : state S) :
  stagesBeforePreBuild S st = (Returned true, s1) ->
  BuildConfig (bld s1) = BuildConfig (bld st) /\
  exists pre,
    log s1 = (log st ++ pre ++ checkoutOf (bld s1) :: environment (bld s1))%list /\
    Forall execOrPrint pre.
Proof.
  unfold stagesBeforePreBuild. intros H.
  assert (T : triple (fun b => BuildConfig b = BuildConfig (bld st)) execOrPrint
                (bind S (setupScm S) (fun _ => validateBuildEnvironment S))
                (fun _ b => BuildConfig b = BuildConfig (bld st))).
  { repeat triple_step; exact I. }
  rewrite <- bind_assoc in H.
  apply bind_Returned in H as (valid & sB & E2 & H).
  destruct (T _ _ _ eq_refl E2) as [(evs0 & L0 & F0) C0]. cbv beta in C0.
  destruct valid; [| discriminate H].
  apply bind_Returned in H as (u3 & sC & E3 & H).
  rewrite bind_getBuilder in H.
  apply bind_Returned in H as (u5 & s5 & E5 & H).
  apply bind_Returned in H as (u6 & s6 & E6 & H).
  apply bind_Returned in H as (u7 & s7 & E7 & H).
  apply bind_Returned in H as (u8 & s8 & E8 & H).
  inversion H; subst s8; clear H.
  destruct u3.
  destruct (updateCode_Returned _ _ E3)
    as (t & s & p & _ & _ & _ & _ & (Hc & _) & evs1 & L1 & F1 & _).
  pose proof (termSetEnv_keepsBuilder _ _ _ _ _ E5) as B5.
  pose proof (termSetEnv_keepsBuilder _ _ _ _ _ E6) as B6.
  pose proof (termSetEnv_keepsBuilder _ _ _ _ _ E7) as B7.
  pose proof (termSetEnv_keepsBuilder _ _ _ _ _ E8) as B8.
  assert (B : bld s1 = bld sC) by congruence.
  split; [congruence |].
  exists (evs0 ++ evs1)%list. split; [| apply Forall_app; auto].
  rewrite (termSetEnv_log _ _ _ _ _ E8), (termSetEnv_log _ _ _ _ _ E7),
    (termSetEnv_log _ _ _ _ _ E6), (termSetEnv_log _ _ _ _ _ E5), L1, L0, B.
  unfold environment. rewrite <- !app_assoc. reflexivity.
Qed.

Lemma environment_of_config (b b' : builder) :
  BuildConfig b = BuildConfig b' -> environment b = environment b'.
Proof. unfold environment, goPath. intros ->. reflexivity. Qed.

Lemma configuredStages_commands (b : builder) :
  triple (fun _ => True) commandOrPrint (configuredStages S b) (fun _ _ => True).
Proof. unfold configuredStages. repeat triple_step; cbn; auto. Qed.

Lemma noStageCommand_of_execOrPrint (l : list event) :
  Forall execOrPrint l -> Forall noStageCommand l.
Proof.
  intros F. eapply Forall_impl; [| exact F]. intros [] H; cbn in *; auto.
Qed.

Lemma goGet_spelled (b : builder) (bc : buildConfig) :
  BuildConfig b = bc ->
  "go get "
  ++ GoStrings.Join
       (if UpdatePackages (BuildConfig b) then (["-d"] ++ ["-u"])%list else ["-d"]) " "
  ++ " ./..." = goGet bc.
Proof. intros <-. reflexivity. Qed.

Lemma goInstall_spelled (b : builder) (bc : buildConfig) :
  BuildConfig b = bc ->
  "go install "
  ++ (if BuildAllPackages (BuildConfig b) then "-v" ++ " -a" else "-v")
  = goInstall bc.
Proof.
  intros <-. unfold goInstall. destruct (BuildAllPackages (BuildConfig b));
    reflexivity.
Qed.

(** X18. The pipeline runs four commands of its own and no other: the
    dependency fetch [go get -d ./...], with [-u] after [-d] exactly when
    UpdatePackages is set; the build [go install -v], with [-a] added
    exactly when BuildAllPackages is set; [go test], only when RunTests is
    set; and [go test ./...], only when RunTests and TestSkynet are. *)
Theorem performBuild_commands (st : state S) o st' :
  performBuild S st = (o, st') ->
  let bc := BuildConfig (bld st) in
  (exists evs,
     log st' = (log st ++ evs)%list /\ Forall (pipelineCommand bc) evs) /\
  goGet bc = (if UpdatePackages bc then "go get -d -u ./..." else "go get -d ./...") /\
  goInstall bc = (if BuildAllPackages bc then "go install -v -a" else "go install -v").
Proof.
  intros H. cbv zeta. split; [| split].
  - assert (T : triple (fun b => BuildConfig b = BuildConfig (bld st))
                  (pipelineCommand (BuildConfig (bld st)))
                  (performBuild S)
                  (fun _ b => BuildConfig b = BuildConfig (bld st))).
    { repeat triple_step; cbn [pipelineCommand]; auto;
        first [ left; apply goGet_spelled; assumption
              | right; left; apply goInstall_spelled; assumption
              | right; right; left; split; [congruence | reflexivity]
              | right; right; right; repeat split; congruence ]. }
    destruct (T _ _ _ eq_refl H) as [Hl _]. exact Hl.
  - unfold goGet. destruct (UpdatePackages (BuildConfig (bld st))); reflexivity.
  - unfold goInstall. destruct (BuildAllPackages (BuildConfig (bld st)));
      reflexivity.
Qed.

Lemma stagesBeforeTests_no_test :
  triple (fun _ => True) (fun e => isTestCommand e = false)
    (stagesBeforeTests S) (fun _ _ => True).
Proof.
  unfold stagesBeforeTests, stagesBeforePreBuild.
  repeat triple_step; reflexivity.
Qed.

(** X19. Whatever stops the pipeline before the tests (an unknown
    repository type, a failed checkout, pre-build command, dependency fetch
    or build, or an invalid environment) stops [performBuild] there, in the
    state reached and with the same panic if there is one: no test has run,
    and no post-build command runs afterwards. *)
Theorem performBuild_stops_before_tests (st : state S) o s :
  stagesBeforeTests S st = (o, s) ->
  o <> Returned true ->
  performBuild S st =
    (match o with
     | Returned _ => Returned tt
     | Panicked m => Panicked m
     end, s) /\
  exists evs, log s = (log st ++ evs)%list /\ existsb isTestCommand evs = false.
Proof.
  intros E N. split.
  - rewrite performBuild_by_build. unfold bind at 1. rewrite E.
    destruct o as [[|] | m]; [contradiction | reflexivity | reflexivity].
  - destruct (stagesBeforeTests_no_test _ _ _ I E) as [(evs & L & F) _].
    exists evs. split; auto. apply Forall_existsb_false. exact F.
Qed.

(** X20. A run of [performBuild] that returns has not touched the set-up
    of the builder: configuration, deploy configuration, terminal and
    package are as they were. *)
Theorem performBuild_keeps_setup (st st' : state S) :
  performBuild S st = (Returned tt, st') ->
  sameSetup (bld st) (bld st').
Proof.
  intros H.
  assert (T : triple (sameSetup (bld st)) (fun _ => True) (performBuild S)
                (fun _ => sameSetup (bld st))).
  { repeat triple_step; auto.
      all: intros b (? & ? & ? & ?); repeat split; assumption. }
  assert (P0 : sameSetup (bld st) (bld st)) by (repeat split).
  destruct (T _ _ _ P0 H) as [_ R]. exact R.
Qed.

(** X21. [performBuild] works through the terminal alone: whatever the
    outcome, it starts no process on the machine it runs on, opens no
    connection and does not close the terminal. *)
Theorem performBuild_only_uses_terminal (st : state S) o st' :
  performBuild S st = (o, st') ->
  exists evs,
    log st' = (log st ++ evs)%list /\
    Forall (fun e => match e with
                     | EvCommand _ _ | EvConnect _ _ | EvClose => False
                     | _ => True
                     end) evs.
Proof.
  intros H.
  assert (T : triple (fun _ => True)
                (fun e => match e with
                          | EvCommand _ _ | EvConnect _ _ | EvClose => False
                          | _ => True
                          end)
                (performBuild S) (fun _ _ => True)).
  { repeat triple_step; cbn; auto. }
  destruct (T _ _ _ I H) as [Hl _]. exact Hl.
Qed.

(** X22. Once the builder is made, [Deploy] starts exactly one transfer,
    for the local host: a copy when the build host is local, a secure copy
    from the build host otherwise. It is started whether or not it then
    fails. *)
Theorem Deploy_starts_one_transfer (config : string) (st s1 : state S) :
  newBuilder S config st = (Returned tt, s1) ->
  exists o st' evs,
    Deploy S config st = (o, st') /\
    log st' = (log s1 ++ evs)%list /\
    commandsOf evs = [transfer (bld s1)].
Proof.
  intros E. unfold Deploy. unfold bind at 1. rewrite E.
  destruct (deploy_cons_local "localhost" [] s1 eq_refl) as (out & e & w & Hd).
  cbv zeta in Hd. unfold bind at 1. rewrite Hd.
  assert (C : commandsOf [EvPrint (banner (bld s1)); transfer (bld s1); EvPrint out]
              = [transfer (bld s1)]).
  { unfold transfer. destruct (isHostLocal (Host (BuildConfig (bld s1))));
      reflexivity. }
  destruct e as [m |].
  - do 3 eexists. split; [reflexivity |]. split; [reflexivity | exact C].
  - cbn [deploy]. unfold ret at 1. unfold termClose. unfold_run.
    cbn [bld world log].
    destruct (term (bld s1)) as [t |].
    + do 3 eexists. split; [reflexivity |]. cbn [log]. split.
      * rewrite <- app_assoc. reflexivity.
      * rewrite commandsOf_app, C. reflexivity.
    + do 3 eexists. split; [reflexivity |]. split; [reflexivity | exact C].
Qed.

(** *** What each stage logs, whatever its outcome *)

Lemma bind_outcome {A B} (m : M S A) (k : A -> M S B) (st : state S) o st' :
  bind S m k st = (o, st') ->
  (exists msg, m st = (Panicked msg, st') /\ o = Panicked msg) \/
  (exists a s1, m st = (Returned a, s1) /\ k a s1 = (o, st')).
Proof.
  unfold bind. destruct (m st) as [[a | msg] s1]; intros H.
  - right. eauto.
  - left. inversion H; subst. eauto.
Qed.

Lemma dirCommandsOf_app (l1 l2 : list event) :
  dirCommandsOf (l1 ++ l2) = (dirCommandsOf l1 ++ dirCommandsOf l2)%list.
Proof. unfold dirCommandsOf. apply filter_app. Qed.

Lemma checkoutsOf_app (l1 l2 : list event) :
  checkoutsOf (l1 ++ l2) = (checkoutsOf l1 ++ checkoutsOf l2)%list.
Proof. unfold checkoutsOf. apply filter_app. Qed.

Lemma dirCommandsOf_execOrPrint (l : list event) :
  Forall execOrPrint l -> dirCommandsOf l = [].
Proof.
  induction 1 as [| e l He _ IH]; [reflexivity |].
  destruct e; cbn in He; try contradiction; exact IH.
Qed.

Lemma checkoutsOf_commandOrPrint (l : list event) :
  Forall commandOrPrint l -> checkoutsOf l = [].
Proof.
  induction 1 as [| e l He _ IH]; [reflexivity |].
  destruct e; cbn in He; try contradiction; exact IH.
Qed.

Lemma commandOrPrint_of_execOrPrint (l : list event) :
  Forall execOrPrint l -> Forall commandOrPrint l.
Proof.
  intros F. eapply Forall_impl; [| exact F]. intros [] H; cbn in *; auto.
Qed.

(** [runCommands]: a front part of the list is executed, the whole list
    when the call returns. *)
Lemma runCommands_facts (cmds : list string) :
  forall (st : state S) o st',
    runCommands S cmds st = (o, st') ->
    bld st' = bld st /\
    exists evs,
      log st' = (log st ++ evs)%list /\
      Forall execOrPrint evs /\
      (exists rest, cmds = (execsOf evs ++ rest)%list) /\
      (o = Returned tt -> execsOf evs = cmds).
Proof.
  induction cmds as [| cmd rest IH]; intros st o st'; cbn [runCommands].
  - intros H. inversion H; subst. split; auto.
    exists []. rewrite app_nil_r. repeat split; auto. exists []. reflexivity.
  - unfold termExec, Println. unfold_run.
    destruct (term (bld st)) as [t |].
    + destruct (Exec S t cmd (world st)) as [[out e] w1].
      cbn [fst snd bld world log]. destruct e as [e |].
      * intros H. inversion H; subst. cbn [bld log]. split; auto.
        exists [EvExec cmd; EvPrint out]. rewrite <- app_assoc.
        repeat split; auto.
        -- repeat constructor.
        -- exists rest. reflexivity.
        -- discriminate.
      * intros H. apply IH in H. cbn [bld log] in H.
        destruct H as [Hb (evs & Hl & Hf & [r Hr] & Hc)]. split; auto.
        exists (EvExec cmd :: EvPrint out :: evs).
        rewrite Hl, <- !app_assoc. repeat split.
        -- repeat constructor. exact Hf.
        -- exists r. cbn [execsOf flat_map app]. fold (execsOf evs).
           rewrite <- Hr. reflexivity.
        -- intros Ho. cbn [execsOf flat_map app]. fold (execsOf evs).
           rewrite (Hc Ho). reflexivity.
    + intros H. inversion H; subst. split; auto.
      exists []. rewrite app_nil_r. repeat split; auto.
      * exists (cmd :: rest). reflexivity.
      * discriminate.
Qed.

(** The dependency fetch and the build: with a terminal, the one command
    in the directory, whatever its result. *)
Lemma getPackageDependencies_facts (p : string) (st : state S) t o st' :
  term (bld st) = Some t ->
  getPackageDependencies S p st = (o, st') ->
  bld st' = bld st /\
  exists evs,
    log st' = (log st ++ evs)%list /\
    Forall commandOrPrint evs /\
    execsOf evs = [] /\
    dirCommandsOf evs = [EvExecPath (goGet (BuildConfig (bld st))) p].
Proof.
  intros Ht. unfold getPackageDependencies. unfold_run.
  cbn [bld world log]. rewrite Ht.
  rewrite (goGet_spelled (bld st) (BuildConfig (bld st)) eq_refl).
  cbn [bld world log].
  destruct (ExecPath S t _ p (world st)) as [[out e] w1].
  cbn [fst snd bld world log].
  destruct e as [e |]; intros H; inversion H; subst; cbn [bld log];
    (split; [reflexivity |]);
    exists [EvPrint "Fetching dependencies";
            EvExecPath (goGet (BuildConfig (bld st))) p; EvPrint out];
    rewrite <- !app_assoc; repeat split; auto; repeat constructor.
Qed.

Lemma buildProject_facts (st : state S) t o st' :
  term (bld st) = Some t ->
  buildProject S st = (o, st') ->
  bld st' = bld st /\
  exists evs,
    log st' = (log st ++ evs)%list /\
    Forall commandOrPrint evs /\
    execsOf evs = [] /\
    dirCommandsOf evs =
      [EvExecPath (goInstall (BuildConfig (bld st)))
         (GoPath.Join [projectPath (bld st); AppPath (BuildConfig (bld st))])].
Proof.
  intros Ht. unfold buildProject. unfold_run.
  cbn [bld world log]. rewrite Ht.
  rewrite (goInstall_spelled (bld st) (BuildConfig (bld st)) eq_refl).
  cbn [bld world log].
  destruct (ExecPath S t _ _ (world st)) as [[out e] w1].
  cbn [fst snd bld world log].
  destruct e as [e |]; intros H; inversion H; subst; cbn [bld log];
    (split; [reflexivity |]);
    exists [EvPrint "Building packages";
            EvExecPath (goInstall (BuildConfig (bld st)))
              (GoPath.Join [projectPath (bld st); AppPath (BuildConfig (bld st))]);
            EvPrint out];
    rewrite <- !app_assoc; repeat split; auto; repeat constructor.
Qed.

Lemma bind_Println {B} (line : string) (k : unit -> M S B) (st : state S) :
  bind S (Println S line) k st =
  k tt {| bld := bld st; world := world st;
          log := (log st ++ [EvPrint line])%list |}.
Proof. reflexivity. Qed.

Lemma bind_termExecPath {B} (t : Terminal) (cmd dir : string)
    (k : string * error -> M S B) (st : state S) :
  term (bld st) = Some t ->
  bind S (termExecPath S cmd dir) k st =
  (let '(r, w) := ExecPath S t cmd dir (world st) in
   k r {| bld := bld st; world := w;
          log := (log st ++ [EvExecPath cmd dir])%list |}).
Proof.
  intros Ht. unfold termExecPath. unfold_run. rewrite Ht.
  destruct (ExecPath S t cmd dir (world st)) as [r w]. reflexivity.
Qed.

Lemma updateDependencies_facts (st : state S) t o st' :
  term (bld st) = Some t ->
  updateDependencies S st = (o, st') ->
  bld st' = bld st /\
  exists evs,
    log st' = (log st ++ evs)%list /\
    Forall commandOrPrint evs /\
    execsOf evs = [] /\
    dirCommandsOf evs =
      [EvExecPath (goGet (BuildConfig (bld st)))
         (GoPath.Join [projectPath (bld st); AppPath (BuildConfig (bld st))])].
Proof.
  intros Ht H. unfold updateDependencies in H. rewrite bind_getBuilder in H.
  exact (getPackageDependencies_facts _ _ _ _ _ Ht H).
Qed.

(** The self-test of skynet: the fetch and, after it, the tests, both in
    the skynet tree. *)
Lemma testSkynet_facts (st : state S) t o st' :
  term (bld st) = Some t ->
  testSkynet S st = (o, st') ->
  let bc := BuildConfig (bld st) in
  let sky := GoPath.Join [Jail bc; skynetPath] in
  bld st' = bld st /\
  exists evs,
    log st' = (log st ++ evs)%list /\
    Forall commandOrPrint evs /\
    execsOf evs = [] /\
    (exists rest,
       [EvExecPath (goGet bc) sky; EvExecPath "go test ./..." sky]
       = (dirCommandsOf evs ++ rest)%list) /\
    (o = Returned tt ->
     dirCommandsOf evs = [EvExecPath (goGet bc) sky; EvExecPath "go test ./..." sky]).
Proof.
  intros Ht H. cbv zeta. unfold testSkynet in H.
  rewrite bind_getBuilder, bind_Println in H.
  apply bind_outcome in H as [(msg & E & ->) | (u & s1 & E & H)].
  - apply (getPackageDependencies_facts _ _ t) in E; [| exact Ht].
    cbn [bld log] in E. destruct E as [Hb (evs & Hl & Hf & He & Hd)].
    split; auto. exists (EvPrint "Testing Skynet" :: evs).
    rewrite Hl, <- app_assoc. repeat split; auto.
    + constructor; [exact I | exact Hf].
    + cbn [dirCommandsOf filter]. fold (dirCommandsOf evs). rewrite Hd.
      eexists. reflexivity.
    + discriminate.
  - apply (getPackageDependencies_facts _ _ t) in E; [| exact Ht].
    cbn [bld log] in E. destruct E as [Hb (evs & Hl & Hf & He & Hd)].
    rewrite (bind_termExecPath t) in H by congruence.
    destruct (ExecPath S t "go test ./..." _ (world s1)) as [[out e] w1].
    rewrite bind_Println in H. cbn [fst snd bld world log] in H.
    assert (F : Forall commandOrPrint
                  (EvPrint "Testing Skynet" :: evs ++
                   [EvExecPath "go test ./..."
                      (GoPath.Join [Jail (BuildConfig (bld st)); skynetPath]);
                    EvPrint out])%list).
    { constructor; [exact I |]. apply Forall_app. split; auto.
      repeat constructor. }
    assert (X : execsOf
                  (EvPrint "Testing Skynet" :: evs ++
                   [EvExecPath "go test ./..."
                      (GoPath.Join [Jail (BuildConfig (bld st)); skynetPath]);
                    EvPrint out])%list = []).
    { cbn [execsOf flat_map app]. fold (execsOf (evs ++ [EvExecPath "go test ./..."
        (GoPath.Join [Jail (BuildConfig (bld st)); skynetPath]); EvPrint out])).
      rewrite execsOf_app, He. reflexivity. }
    assert (D : dirCommandsOf
                  (EvPrint "Testing Skynet" :: evs ++
                   [EvExecPath "go test ./..."
                      (GoPath.Join [Jail (BuildConfig (bld st)); skynetPath]);
                    EvPrint out])%list
                = [EvExecPath (goGet (BuildConfig (bld st)))
                     (GoPath.Join [Jail (BuildConfig (bld st)); skynetPath]);
                   EvExecPath "go test ./..."
                     (GoPath.Join [Jail (BuildConfig (bld st)); skynetPath])]).
    { cbn [dirCommandsOf filter]. fold (dirCommandsOf (evs ++ [EvExecPath "go test ./..."
        (GoPath.Join [Jail (BuildConfig (bld st)); skynetPath]); EvPrint out])).
      rewrite dirCommandsOf_app, Hd. reflexivity. }
    assert (L : (log s1 ++ [EvExecPath "go test ./..."
                   (GoPath.Join [Jail (BuildConfig (bld st)); skynetPath])]
                 ++ [EvPrint out])%list
                = (log st ++ EvPrint "Testing Skynet" :: evs ++
                   [EvExecPath "go test ./..."
                      (GoPath.Join [Jail (BuildConfig (bld st)); skynetPath]);
                    EvPrint out])%list).
    { rewrite Hl, <- !app_assoc. reflexivity. }
    destruct e as [e |]; inversion H; subst; cbn [bld log];
      (split; [exact Hb |]); eexists;
      (split; [rewrite <- app_assoc; exact L |]);
      (split; [exact F |]); (split; [exact X |]);
      rewrite D; (split; [exists []; reflexivity | intros _; reflexivity]).
Qed.

(** The tests: [go test] in the directory of the application and then,
    if asked for, the self-test of skynet. *)
Lemma runTests_facts (st : state S) t o st' :
  term (bld st) = Some t ->
  runTests S st = (o, st') ->
  let bc := BuildConfig (bld st) in
  bld st' = bld st /\
  exists evs,
    log st' = (log st ++ evs)%list /\
    Forall commandOrPrint evs /\
    execsOf evs = [] /\
    (exists rest,
       testCommands bc (projectPath (bld st)) = (dirCommandsOf evs ++ rest)%list) /\
    (o = Returned tt ->
     dirCommandsOf evs = testCommands bc (projectPath (bld st))).
Proof.
  intros Ht H. cbv zeta. unfold runTests in H.
  rewrite bind_getBuilder, bind_Println in H.
  rewrite (bind_termExecPath t) in H by exact Ht.
  cbn [bld world log] in H.
  destruct (ExecPath S t "go test" _ (world st)) as [[out e] w1].
  rewrite bind_Println in H. cbn [fst snd bld world log] in H.
  set (dir := GoPath.Join [projectPath (bld st); AppPath (BuildConfig (bld st))]) in *.
  set (front := [EvPrint "Testing packages"; EvExecPath "go test" dir; EvPrint out]).
  assert (L : (((log st ++ [EvPrint "Testing packages"])
                 ++ [EvExecPath "go test" dir]) ++ [EvPrint out]
               = log st ++ front)%list).
  { unfold front. rewrite <- !app_assoc. reflexivity. }
  rewrite L in H. unfold testCommands. fold dir.
  destruct e as [e |].
  - inversion H; subst; cbn [bld log]. split; auto.
    exists front. repeat split; auto.
    + repeat constructor.
    + eexists. reflexivity.
    + discriminate.
  - destruct (TestSkynet (BuildConfig (bld st))).
    + apply (testSkynet_facts _ t) in H; [| exact Ht]. cbv zeta in H.
      cbn [bld log] in H.
      destruct H as [Hb (evs & Hl & Hf & He & [rest Hr] & Hc)].
      split; auto. exists (front ++ evs)%list.
      rewrite Hl, <- app_assoc.
      split; [reflexivity | split; [| split; [| split]]].
      * apply Forall_app. split; [repeat constructor | exact Hf].
      * rewrite execsOf_app, He. reflexivity.
      * exists rest. rewrite dirCommandsOf_app. cbn [front dirCommandsOf filter app].
        fold (dirCommandsOf evs). rewrite <- Hr. reflexivity.
      * intros Ho. rewrite dirCommandsOf_app, (Hc Ho). reflexivity.
    + inversion H; subst; cbn [bld log]. split; auto.
      exists front. repeat split; auto.
      * repeat constructor.
      * exists []. reflexivity.
Qed.

Lemma ret_facts (st : state S) o st' :
  ret S tt st = (o, st') -> o = Returned tt /\ st' = st.
Proof. intros H. inversion H. auto. Qed.

(** The stages after the environment, together. *)
Lemma configuredStages_facts (b : builder) (st : state S) t o st' :
  term (bld st) = Some t ->
  BuildConfig b = BuildConfig (bld st) ->
  configuredStages S b st = (o, st') ->
  let bc := BuildConfig (bld st) in
  let pp := projectPath (bld st) in
  bld st' = bld st /\
  exists evs,
    log st' = (log st ++ evs)%list /\
    Forall commandOrPrint evs /\
    (exists rest,
       (PreBuildCommands bc ++ PostBuildCommands bc = execsOf evs ++ rest)%list) /\
    (exists rest, stageCommands bc pp = (dirCommandsOf evs ++ rest)%list) /\
    (o = Returned tt ->
     execsOf evs = (PreBuildCommands bc ++ PostBuildCommands bc)%list /\
     dirCommandsOf evs = stageCommands bc pp).
Proof.
  intros Ht Hc H. cbv zeta. unfold configuredStages in H. rewrite Hc in H.
  unfold stageCommands.
  set (bc := BuildConfig (bld st)) in *.
  set (dir := GoPath.Join [projectPath (bld st); AppPath bc]) in *.
  (* the pre-build commands *)
  apply bind_outcome in H as [(msg & E1 & ->) | (u1 & s1 & E1 & H)];
    apply runCommands_facts in E1;
    destruct E1 as [B1 (evs1 & L1 & F1 & [r1 R1] & C1)].
  { split; auto. exists evs1. repeat split; auto.
    - apply commandOrPrint_of_execOrPrint. exact F1.
    - exists (r1 ++ PostBuildCommands bc)%list. rewrite R1 at 1.
      rewrite app_assoc. reflexivity.
    - rewrite (dirCommandsOf_execOrPrint _ F1). eexists. reflexivity.
    - discriminate.
    - discriminate. }
  destruct u1. specialize (C1 eq_refl).
  pose proof (dirCommandsOf_execOrPrint _ F1) as D1.
  apply commandOrPrint_of_execOrPrint in F1.
  assert (T1 : term (bld s1) = Some t) by congruence.
  (* the dependency fetch *)
  apply bind_outcome in H as [(msg & E2 & ->) | (u2 & s2 & E2 & H)];
    apply (updateDependencies_facts _ t) in E2; try exact T1;
    destruct E2 as [B2 (evs2 & L2 & F2 & X2 & D2)];
    rewrite B1 in D2; fold bc dir in D2.
  { split; [congruence |]. exists (evs1 ++ evs2)%list.
    rewrite L2, L1, <- app_assoc. repeat split; auto.
    - apply Forall_app; auto.
    - exists (PostBuildCommands bc). rewrite execsOf_app, C1, X2, app_nil_r.
      reflexivity.
    - rewrite dirCommandsOf_app, D1, D2. eexists. reflexivity.
    - discriminate.
    - discriminate. }
  assert (T2 : term (bld s2) = Some t) by congruence.
  (* the build *)
  apply bind_outcome in H as [(msg & E3 & ->) | (u3 & s3 & E3 & H)];
    apply (buildProject_facts _ t) in E3; try exact T2;
    destruct E3 as [B3 (evs3 & L3 & F3 & X3 & D3)];
    rewrite B2, B1 in D3; fold bc dir in D3.
  { split; [congruence |]. exists (evs1 ++ evs2 ++ evs3)%list.
    rewrite L3, L2, L1, <- !app_assoc. repeat split; auto.
    - repeat (apply Forall_app; split); auto.
    - exists (PostBuildCommands bc).
      rewrite !execsOf_app, C1, X2, X3, !app_nil_r. reflexivity.
    - rewrite !dirCommandsOf_app, D1, D2, D3. eexists. reflexivity.
    - discriminate.
    - discriminate. }
  assert (T3 : term (bld s3) = Some t) by congruence.
  assert (B03 : bld s3 = bld st) by congruence.
  (* the tests *)
  assert (Tests :
    forall o4 s4,
      (if RunTests bc then runTests S else ret S tt) s3 = (o4, s4) ->
      bld s4 = bld st /\
      exists evs4,
        log s4 = (log s3 ++ evs4)%list /\
        Forall commandOrPrint evs4 /\
        execsOf evs4 = [] /\
        (exists rest,
           (if RunTests bc then testCommands bc (projectPath (bld st)) else [])
           = (dirCommandsOf evs4 ++ rest)%list) /\
        (o4 = Returned tt ->
         dirCommandsOf evs4 =
           (if RunTests bc then testCommands bc (projectPath (bld st)) else []))).
  { intros o4 s4 E4. destruct (RunTests bc).
    - apply (runTests_facts _ t) in E4; [| exact T3]. cbv zeta in E4.
      rewrite B03 in E4. fold bc in E4. destruct E4 as [B4 R4].
      split; [exact B4 | exact R4].
    - apply ret_facts in E4 as [-> ->]. split; [exact B03 |].
      exists []. rewrite app_nil_r. repeat split; auto.
      exists []. reflexivity. }
  apply bind_outcome in H as [(msg & E4 & ->) | (u4 & s4 & E4 & H)];
    apply Tests in E4;
    destruct E4 as [B4 (evs4 & L4 & F4 & X4 & [r4 R4] & C4)].
  { split; [congruence |]. exists (evs1 ++ evs2 ++ evs3 ++ evs4)%list.
    rewrite L4, L3, L2, L1, <- !app_assoc. repeat split; auto.
    - repeat (apply Forall_app; split); auto.
    - exists (PostBuildCommands bc).
      rewrite !execsOf_app, C1, X2, X3, X4, !app_nil_r. reflexivity.
    - exists r4. rewrite !dirCommandsOf_app, D1, D2, D3, R4. reflexivity.
    - discriminate.
    - discriminate. }
  destruct u4. specialize (C4 eq_refl).
  (* the post-build commands *)
  apply runCommands_facts in H.
  destruct H as [B5 (evs5 & L5 & F5 & [r5 R5] & C5)].
  pose proof (dirCommandsOf_execOrPrint _ F5) as D5.
  apply commandOrPrint_of_execOrPrint in F5.
  split; [congruence |]. exists (evs1 ++ evs2 ++ evs3 ++ evs4 ++ evs5)%list.
  rewrite L5, L4, L3, L2, L1, <- !app_assoc.
  split; [reflexivity | split; [| split; [| split]]].
  - repeat (apply Forall_app; split); auto.
  - exists r5. rewrite !execsOf_app, C1, X2, X3, X4. cbn [app].
    rewrite R5 at 1. rewrite app_assoc. reflexivity.
  - exists []. rewrite !dirCommandsOf_app, D1, D2, D3, C4, D5, !app_nil_r.
    reflexivity.
  - intros Ho. split.
    + rewrite !execsOf_app, C1, X2, X3, X4, (C5 Ho). reflexivity.
    + rewrite !dirCommandsOf_app, D1, D2, D3, C4, D5, !app_nil_r. reflexivity.
Qed.

(** *** The commands of the configured stages, in one sequence *)

Lemma stepsOf_app (l1 l2 : list event) :
  stepsOf (l1 ++ l2) = (stepsOf l1 ++ stepsOf l2)%list.
Proof. apply filter_app. Qed.

Lemma stepsOf_execOrPrint (l : list event) :
  Forall execOrPrint l -> stepsOf l = map EvExec (execsOf l).
Proof.
  induction 1 as [| e l He _ IH]; [reflexivity |].
  destruct e; cbn in He; try contradiction;
    cbn [stepsOf filter execsOf flat_map app map];
    fold (stepsOf l); fold (execsOf l); rewrite IH; reflexivity.
Qed.

Lemma stepsOf_dirCommands (l : list event) :
  Forall commandOrPrint l -> execsOf l = [] -> stepsOf l = dirCommandsOf l.
Proof.
  induction 1 as [| e l He _ IH]; [reflexivity |].
  destruct e; cbn in He; try contradiction;
    cbn [stepsOf dirCommandsOf filter execsOf flat_map app];
    fold (stepsOf l); fold (dirCommandsOf l); fold (execsOf l);
    intros X; try discriminate X; rewrite (IH X); reflexivity.
Qed.

(** The commands of the stages after the environment come in the order of
    [pipelineSteps]: a run that stops has run a front part of them, a run
    that returns all of them. *)
Lemma configuredStages_steps (b : builder) (st : state S) t o st' :
  term (bld st) = Some t ->
  BuildConfig b = BuildConfig (bld st) ->
  configuredStages S b st = (o, st') ->
  let bc := BuildConfig (bld st) in
  let pp := projectPath (bld st) in
  exists evs,
    log st' = (log st ++ evs)%list /\
    (exists rest, pipelineSteps bc pp = (stepsOf evs ++ rest)%list) /\
    (o = Returned tt -> stepsOf evs = pipelineSteps bc pp).
Proof.
  intros Ht Hc H. cbv zeta. unfold configuredStages in H. rewrite Hc in H.
  unfold pipelineSteps, stageCommands.
  set (bc := BuildConfig (bld st)) in *.
  set (dir := GoPath.Join [projectPath (bld st); AppPath bc]) in *.
  (* the pre-build commands *)
  apply bind_outcome in H as [(msg & E1 & ->) | (u1 & s1 & E1 & H)];
    apply runCommands_facts in E1;
    destruct E1 as [B1 (evs1 & L1 & F1 & [r1 R1] & C1)];
    pose proof (stepsOf_execOrPrint _ F1) as S1.
  { exists evs1. split; [exact L1 |]. split; [| discriminate].
    eexists. rewrite S1. rewrite R1 at 1. rewrite map_app, <- app_assoc.
    reflexivity. }
  destruct u1. specialize (C1 eq_refl). rewrite C1 in S1.
  assert (T1 : term (bld s1) = Some t) by congruence.
  (* the dependency fetch *)
  apply bind_outcome in H as [(msg & E2 & ->) | (u2 & s2 & E2 & H)];
    apply (updateDependencies_facts _ t) in E2; try exact T1;
    destruct E2 as [B2 (evs2 & L2 & F2 & X2 & D2)];
    rewrite B1 in D2; fold bc dir in D2;
    pose proof (stepsOf_dirCommands _ F2 X2) as S2; rewrite D2 in S2.
  { exists (evs1 ++ evs2)%list. rewrite L2, L1, <- app_assoc.
    split; [reflexivity |]. split; [| discriminate].
    eexists. rewrite stepsOf_app, S1, S2, <- app_assoc. cbn [app].
    reflexivity. }
  assert (T2 : term (bld s2) = Some t) by congruence.
  (* the build *)
  apply bind_outcome in H as [(msg & E3 & ->) | (u3 & s3 & E3 & H)];
    apply (buildProject_facts _ t) in E3; try exact T2;
    destruct E3 as [B3 (evs3 & L3 & F3 & X3 & D3)];
    rewrite B2, B1 in D3; fold bc dir in D3;
    pose proof (stepsOf_dirCommands _ F3 X3) as S3; rewrite D3 in S3.
  { exists (evs1 ++ evs2 ++ evs3)%list. rewrite L3, L2, L1, <- !app_assoc.
    split; [reflexivity |]. split; [| discriminate].
    eexists. rewrite !stepsOf_app, S1, S2, S3, <- !app_assoc. cbn [app].
    reflexivity. }
  assert (T3 : term (bld s3) = Some t) by congruence.
  assert (B03 : bld s3 = bld st) by congruence.
  (* the tests *)
  assert (Tests :
    forall o4 s4,
      (if RunTests bc then runTests S else ret S tt) s3 = (o4, s4) ->
      bld s4 = bld st /\
      exists evs4,
        log s4 = (log s3 ++ evs4)%list /\
        (exists rest,
           (if RunTests bc then testCommands bc (projectPath (bld st)) else [])
           = (stepsOf evs4 ++ rest)%list) /\
        (o4 = Returned tt ->
         stepsOf evs4 =
           (if RunTests bc then testCommands bc (projectPath (bld st)) else []))).
  { intros o4 s4 E4. destruct (RunTests bc).
    - apply (runTests_facts _ t) in E4; [| exact T3]. cbv zeta in E4.
      rewrite B03 in E4. fold bc in E4.
      destruct E4 as [B4 (evs4 & L4 & F4 & X4 & R4 & C4)].
      split; [exact B4 |]. exists evs4.
      rewrite (stepsOf_dirCommands _ F4 X4). auto.
    - apply ret_facts in E4 as [-> ->]. split; [exact B03 |].
      exists []. rewrite app_nil_r. repeat split; auto.
      exists []. reflexivity. }
  apply bind_outcome in H as [(msg & E4 & ->) | (u4 & s4 & E4 & H)];
    apply Tests in E4;
    destruct E4 as [B4 (evs4 & L4 & [r4 R4] & C4)].
  { exists (evs1 ++ evs2 ++ evs3 ++ evs4)%list.
    rewrite L4, L3, L2, L1, <- !app_assoc.
    split; [reflexivity |]. split; [| discriminate].
    eexists. rewrite !stepsOf_app, S1, S2, S3, R4, <- !app_assoc. cbn [app].
    rewrite <- ?app_assoc. reflexivity. }
  destruct u4. specialize (C4 eq_refl).
  (* the post-build commands *)
  apply runCommands_facts in H.
  destruct H as [B5 (evs5 & L5 & F5 & [r5 R5] & C5)].
  pose proof (stepsOf_execOrPrint _ F5) as S5.
  exists (evs1 ++ evs2 ++ evs3 ++ evs4 ++ evs5)%list.
  rewrite L5, L4, L3, L2, L1, <- !app_assoc.
  split; [reflexivity |].
  rewrite !stepsOf_app, S1, S2, S3, C4, S5. cbn [app]. split.
  - exists (map EvExec r5). rewrite R5 at 1. rewrite map_app, <- !app_assoc.
    cbn [app]. rewrite <- ?app_assoc. reflexivity.
  - intros Ho. rewrite (C5 Ho). reflexivity.
Qed.

(** *** The stages before the environment, whatever their outcome *)

Lemma setupScm_outcome (st : state S) o s1 :
  setupScm S st = (o, s1) ->
  (o = Panicked "unkown RepoType" /\ s1 = st) \/
  (o = Returned tt /\ scm (bld s1) = Some GitScm /\
   sameSetup (bld st) (bld s1) /\ projectPath (bld s1) = projectPath (bld st) /\
   log s1 = log st /\ world s1 = world st).
Proof.
  unfold setupScm. rewrite bind_getBuilder.
  destruct (String.eqb (RepoType (BuildConfig (bld st))) "git").
  - unfold_run. intros H. inversion H; subst. right. cbn.
    repeat split; reflexivity.
  - intros H. inversion H; subst. left. auto.
Qed.

Lemma validateBuildEnvironment_outcome (s : state S) o s2 :
  scm (bld s) = Some GitScm ->
  validateBuildEnvironment S s = (o, s2) ->
  (term (bld s) = None /\ o = Panicked nilDeref /\ s2 = s) \/
  (exists t v evs,
     term (bld s) = Some t /\ o = Returned v /\ bld s2 = bld s /\
     log s2 = (log s ++ evs)%list /\
     Forall execOrPrint evs /\
     execsOf evs = probeCommands S (BuildConfig (bld s))).
Proof.
  destruct s as [b w l]. destruct b as [bc dc tm sc pp pk].
  cbn [bld world log term scm BuildConfig]. intros ->.
  unfold validateBuildEnvironment, probe. unfold_run.
  cbn [bld world log term scm BuildConfig].
  destruct tm as [t |]; cycle 1.
  { intros H. inversion H; subst. left. auto. }
  cbn [bld world log term scm BuildConfig].
  destruct (Exec S t ("ls " ++ Jail bc) w) as [[o1 e1] w1].
  destruct (Exec S t ("ls " ++ GoRoot bc) w1) as [[o2 e2] w2] eqn:E2.
  destruct (Exec S t ("ls " ++ GoRoot bc ++ "/bin/go") w2) as [[o3 e3] w3] eqn:E3.
  destruct (Exec S t ("which " ++ BinaryNameOf S GitScm) w3) as [[o4 e4] w4] eqn:E4.
  intros H. right. exists t.
  destruct e1 as [m1 |]; cbn [bld world log term scm BuildConfig fst snd] in H;
    rewrite E2 in H; destruct e2 as [m2 |];
    cbn [bld world log term scm BuildConfig fst snd] in H;
    rewrite E3 in H; destruct e3 as [m3 |];
    cbn [bld world log term scm BuildConfig fst snd] in H;
    rewrite E4 in H; destruct e4 as [m4 |];
    cbn [bld world log term scm BuildConfig fst snd] in H;
    inversion H; subst; cbn [bld log];
    eexists; eexists;
    (split; [reflexivity |]); (split; [reflexivity |]); (split; [reflexivity |]);
    (split; [rewrite <- !app_assoc; cbn [app]; reflexivity |]);
    (split; [repeat constructor | reflexivity]).
Qed.

Lemma bind_termSetEnv {B} (t : Terminal) (name value : string)
    (k : unit -> M S B) (st : state S) :
  term (bld st) = Some t ->
  bind S (termSetEnv S name value) k st =
  k tt {| bld := bld st; world := SetEnv S t name value (world st);
          log := (log st ++ [EvSetEnv name value])%list |}.
Proof. intros Ht. unfold termSetEnv. unfold_run. rewrite Ht. reflexivity. Qed.


Lemma beforeEnvironment_of_execOrPrint (l : list event) :
  Forall execOrPrint l -> Forall beforeEnvironment l.
Proof.
  intros F. eapply Forall_impl; [| exact F]. intros [] H; cbn in *; auto.
Qed.

Lemma noStageCommand_of_beforeEnvironment (l : list event) :
  Forall beforeEnvironment l -> Forall noStageCommand l.
Proof.
  intros F. eapply Forall_impl; [| exact F]. intros [] H; cbn in *; auto.
Qed.

Lemma checkoutsOf_execOrPrint (l : list event) :
  Forall execOrPrint l -> checkoutsOf l = [].
Proof.
  intros F. apply checkoutsOf_commandOrPrint, commandOrPrint_of_execOrPrint, F.
Qed.

(** A derivation that fails ends the checkout at once. *)
Lemma updateCode_failed_derivation (st : state S) (s : Scm) (p e : string) :
  scm (bld st) = Some s ->
  ImportPathFromRepo S s (AppRepo (BuildConfig (bld st))) = (p, Some e) ->
  exists st',
    updateCode S st = (Panicked e, st') /\ log st' = log st /\
    projectPath (bld st') = GoPath.Join [Jail (BuildConfig (bld st)); "src"; p].
Proof.
  intros Hs Himp. unfold updateCode. unfold_run. rewrite Hs, Himp.
  eexists. split; [reflexivity | split; reflexivity].
Qed.

(** The checkout on a builder with its terminal and provider, for a
    repository whose import path is [p], whatever its outcome. *)
Lemma updateCode_facts (st : state S) (t : Terminal) (s : Scm) (p : string) o st' :
  term (bld st) = Some t ->
  scm (bld st) = Some s ->
  ImportPathFromRepo S s (AppRepo (BuildConfig (bld st))) = (p, None) ->
  updateCode S st = (o, st') ->
  let bc := BuildConfig (bld st) in
  let pp := GoPath.Join [Jail bc; "src"; p] in
  let checkout := EvCheckout (AppRepo bc) (RepoBranch bc) pp in
  projectPath (bld st') = pp /\
  sameSetup (bld st) (bld st') /\
  exists evs,
    log st' = (log st ++ evs)%list /\
    Forall beforeEnvironment evs /\
    (exists rest, listingCommands pp = (execsOf evs ++ rest)%list) /\
    (exists rest, [checkout] = (checkoutsOf evs ++ rest)%list) /\
    (o = Returned tt ->
     exists pre,
       evs = (pre ++ [checkout])%list /\
       Forall execOrPrint pre /\
       (execsOf pre = ["ls " ++ pp] \/ execsOf pre = listingCommands pp)).
Proof.
  intros Ht Hs Himp H. cbv zeta.
  pose proof (updateCode_run st t s p Ht Hs Himp) as R. cbv zeta in R.
  unfold listingCommands.
  set (pp := GoPath.Join [Jail (BuildConfig (bld st)); "src"; p]) in *.
  destruct (Exec S t ("ls " ++ pp) (world st)) as [[o1 e1] w1].
  destruct (Exec S t ("mkdir -p " ++ pp) w1) as [[o2 e2] w2].
  cbn [fst snd] in R.
  destruct e1 as [m1 |]; [destruct e2 as [m2 |] |].
  - rewrite R in H. inversion H; subst; clear H R. cbn [bld log projectPath].
    split; [reflexivity |]. split; [repeat split |].
    eexists. split; [reflexivity |].
    split; [repeat constructor |].
    split; [exists []; reflexivity |].
    split; [eexists; reflexivity | discriminate].
  - destruct (Checkout S s t _ _ _ w2) as [e w3]. rewrite R in H.
    inversion H; subst; clear H R. cbn [bld log projectPath].
    split; [reflexivity |]. split; [repeat split |].
    eexists. split; [reflexivity |].
    split; [repeat constructor |].
    split; [exists []; reflexivity |].
    split; [exists []; reflexivity |].
    intros _.
    exists [EvExec ("ls " ++ pp); EvPrint "Creating project directories";
            EvExec ("mkdir -p " ++ pp); EvPrint o2].
    split; [reflexivity |]. split; [repeat constructor | right; reflexivity].
  - assert (R' : let '(e, w3) :=
                   Checkout S s t (AppRepo (BuildConfig (bld st)))
                     (RepoBranch (BuildConfig (bld st))) pp w1 in
                 updateCode S st =
                 (match e with Some m => Panicked m | None => Returned tt end,
                  {| bld := {| BuildConfig := BuildConfig (bld st);
                               DeployConfig := DeployConfig (bld st);
                               term := term (bld st); scm := scm (bld st);
                               projectPath := pp; pack := pack (bld st) |};
                     world := w3;
                     log := (log st ++ [EvExec ("ls " ++ pp);
                               EvCheckout (AppRepo (BuildConfig (bld st)))
                                 (RepoBranch (BuildConfig (bld st))) pp])%list |})).
    { destruct e2; exact R. }
    clear R. destruct (Checkout S s t _ _ _ w1) as [e w3]. rewrite R' in H.
    inversion H; subst; clear H R'. cbn [bld log projectPath].
    split; [reflexivity |]. split; [repeat split |].
    eexists. split; [reflexivity |].
    split; [repeat constructor |].
    split; [eexists; reflexivity |].
    split; [exists []; reflexivity |].
    intros _. exists [EvExec ("ls " ++ pp)].
    split; [reflexivity |]. split; [repeat constructor | left; reflexivity].
Qed.

(** *** The run after a valid environment *)

(** What a run of [performBuild] is made of once the repository type is
    known, the environment was found valid and the import path of the
    repository is [p]: it stops in the checkout, or it goes through the
    checkout, the environment and the configured stages. *)
Lemma performBuild_after_validation (st s1 s2 : state S) (p : string) o st' :
  setupScm S st = (Returned tt, s1) ->
  validateBuildEnvironment S s1 = (Returned true, s2) ->
  ImportPathFromRepo S GitScm (AppRepo (BuildConfig (bld st))) = (p, None) ->
  performBuild S st = (o, st') ->
  let bc := BuildConfig (bld st) in
  let pp := GoPath.Join [Jail bc; "src"; p] in
  let checkout := EvCheckout (AppRepo bc) (RepoBranch bc) pp in
  projectPath (bld st') = pp /\
  exists evs,
    log st' = (log s2 ++ evs)%list /\
    (((exists m, o = Panicked m) /\
      Forall beforeEnvironment evs /\
      (exists rest, listingCommands pp = (execsOf evs ++ rest)%list) /\
      (exists rest, [checkout] = (checkoutsOf evs ++ rest)%list))
     \/
     (exists pre post,
        evs = (pre ++ checkout :: environment (bld st) ++ post)%list /\
        Forall execOrPrint pre /\
        (execsOf pre = ["ls " ++ pp] \/ execsOf pre = listingCommands pp) /\
        Forall commandOrPrint post /\
        (exists rest,
           (PreBuildCommands bc ++ PostBuildCommands bc = execsOf post ++ rest)%list) /\
        (exists rest, stageCommands bc pp = (dirCommandsOf post ++ rest)%list) /\
        (o = Returned tt ->
         execsOf post = (PreBuildCommands bc ++ PostBuildCommands bc)%list /\
         dirCommandsOf post = stageCommands bc pp) /\
        (exists rest, pipelineSteps bc pp = (stepsOf post ++ rest)%list) /\
        (o = Returned tt -> stepsOf post = pipelineSteps bc pp))).
Proof.
  intros E1 E2 Himp H. cbv zeta.
  destruct (setupScm_outcome _ _ _ E1)
    as [[Ho _] | (_ & Hscm & (C1 & _ & T1 & _) & _)]; [discriminate Ho |].
  destruct (validateBuildEnvironment_outcome _ _ _ Hscm E2)
    as [(_ & Ho & _) | (t & v & evs0 & Ht & _ & B2 & _)]; [discriminate Ho |].
  assert (C2 : BuildConfig (bld s2) = BuildConfig (bld st)) by congruence.
  assert (T2 : term (bld s2) = Some t) by congruence.
  assert (S2 : scm (bld s2) = Some GitScm) by congruence.
  assert (I2 : ImportPathFromRepo S GitScm (AppRepo (BuildConfig (bld s2)))
               = (p, None)) by (rewrite C2; exact Himp).
  unfold performBuild in H. unfold bind at 1 in H. rewrite E1 in H.
  unfold bind at 1 in H. rewrite E2 in H.
  apply bind_outcome in H as [(msg & E3 & ->) | (u3 & s3 & E3 & H)];
    pose proof (updateCode_facts _ _ _ _ _ _ T2 S2 I2 E3) as F3;
    cbv zeta in F3; rewrite C2 in F3;
    destruct F3 as (P3 & (C3 & _ & T3 & _) & evs3 & L3 & N3 & X3 & K3 & R3).
  - split; [exact P3 |]. exists evs3. split; [exact L3 |]. left.
    split; [eauto |]. auto.
  - destruct u3. destruct (R3 eq_refl) as (pre & -> & Fpre & Xpre).
    rewrite bind_getBuilder in H.
    assert (T3' : term (bld s3) = Some t) by congruence.
    rewrite (bind_termSetEnv t) in H by exact T3'.
    rewrite (bind_termSetEnv t) in H by exact T3'.
    rewrite (bind_termSetEnv t) in H by exact T3'.
    rewrite (bind_termSetEnv t) in H by exact T3'.
    cbn [bld world log] in H.
    match type of H with
    | _ ?s = _ => change (configuredStages S (bld s3) s = (o, st')) in H
    end.
    pose proof H as St.
    apply (configuredStages_steps _ _ t) in St; [| exact T3' | reflexivity].
    apply (configuredStages_facts _ _ t) in H; [| exact T3' | reflexivity].
    cbv zeta in H, St. cbn [bld log] in H, St.
    assert (C3' : BuildConfig (bld s3) = BuildConfig (bld st)) by congruence.
    rewrite C3', P3 in H. rewrite C3', P3 in St.
    destruct H as [B (post & L & Fpost & Xpost & Dpost & Rpost)].
    destruct St as (post' & L' & Xsteps & Rsteps).
    rewrite L in L'. apply app_inv_head in L'. subst post'.
    split; [congruence |].
    exists (pre ++ EvCheckout (AppRepo (BuildConfig (bld st)))
                     (RepoBranch (BuildConfig (bld st)))
                     (GoPath.Join [Jail (BuildConfig (bld st)); "src"; p])
                   :: environment (bld st) ++ post)%list.
    split.
    + rewrite L, L3. unfold environment. rewrite (goPath_of_config _ _ C3').
      rewrite <- !app_assoc. reflexivity.
    + right. exists pre, post. split; [reflexivity | auto 10].
Qed.

(** *** The project path, once and in the checkout *)




(** *** Commands that fail *)

Lemma allSucceed_events (t : Terminal) (cmds : list string) :
  forall (w w' : World S) evs,
    allSucceed S t cmds w = Some (w', evs) ->
    execsOf evs = cmds /\ Forall execOrPrint evs.
Proof.
  induction cmds as [| c rest IH]; intros w w' evs; cbn [allSucceed].
  - intros H. inversion H; subst. split; [reflexivity | constructor].
  - destruct (Exec S t c w) as [[out [e |]] w1]; [discriminate |].
    destruct (allSucceed S t rest w1) as [[w2 evs'] |] eqn:E; [| discriminate].
    intros H. inversion H; subst. destruct (IH _ _ _ E) as [He Hf]. split.
    + cbn [execsOf flat_map app]. fold (execsOf evs'). rewrite He. reflexivity.
    + repeat constructor. exact Hf.
Qed.

(** The commands before the first failure run, the failing one panics. *)
Lemma runCommands_fails_at (t : Terminal) (done : list string) :
  forall (st : state S) c rest w1 evs1 out e w2,
    term (bld st) = Some t ->
    allSucceed S t done (world st) = Some (w1, evs1) ->
    Exec S t c w1 = ((out, Some e), w2) ->
    runCommands S (done ++ c :: rest) st =
      (Panicked ("Failed to execute dependent command: " ++ c ++ newline ++ e),
       {| bld := bld st; world := w2;
          log := (log st ++ evs1 ++ [EvExec c; EvPrint out])%list |}).
Proof.
  induction done as [| d done IH]; intros st c rest w1 evs1 out e w2 Ht Hall Hc.
  - cbn [allSucceed] in Hall. inversion Hall; subst. cbn [app runCommands].
    unfold termExec, Println. unfold_run. rewrite Ht, Hc.
    cbn [fst snd bld world log]. rewrite <- app_assoc. reflexivity.
  - cbn [allSucceed] in Hall.
    destruct (Exec S t d (world st)) as [[outd [ed |]] wd] eqn:Ed;
      [discriminate |].
    destruct (allSucceed S t done wd) as [[w' evs'] |] eqn:E; [| discriminate].
    inversion Hall; subst. cbn [app runCommands].
    unfold termExec, Println. unfold_run. rewrite Ht, Ed.
    cbn [fst snd bld world log].
    rewrite (IH _ c rest w1 evs' out e w2); cbn [bld world log]; auto.
    rewrite <- !app_assoc. reflexivity.
Qed.

(** C5. Let the stages before the pre-build commands be through, and let
    the pre-build commands be [done], then [c], then [rest], where the
    commands of [done] succeed one after the other and [c], run after them,
    fails. Then [performBuild] panics with the failure of [c], in the state
    that failure left: the commands of [done] and [c] were executed, no
    command of [rest] was, and the run has issued no dependency fetch, build
    or test command at all. *)
Theorem preBuild_failure_stops_pipeline
    (st st1 : state S) (t : Terminal) (done : list string) (c : string)
    (rest : list string) w1 evs1 out e w2 :
  stagesBeforePreBuild S st = (Returned true, st1) ->
  term (bld st1) = Some t ->
  PreBuildCommands (BuildConfig (bld st)) = (done ++ c :: rest)%list ->
  allSucceed S t done (world st1) = Some (w1, evs1) ->
  Exec S t c w1 = ((out, Some e), w2) ->
  performBuild S st =
    (Panicked ("Failed to execute dependent command: " ++ c ++ newline ++ e),
     {| bld := bld st1; world := w2;
        log := (log st1 ++ evs1 ++ [EvExec c; EvPrint out])%list |}) /\
  execsOf (evs1 ++ [EvExec c; EvPrint out]) = (done ++ [c])%list /\
  exists evs,
    (log st1 ++ evs1 ++ [EvExec c; EvPrint out])%list = (log st ++ evs)%list /\
    Forall noStageCommand evs.
Proof.
  intros H1 Ht Hpre Hall Hc.
  destruct (stagesBeforePreBuild_true _ _ H1) as (_ & _ & Hperf).
  destruct (stagesBeforePreBuild_log _ _ H1) as (C & _).
  destruct (allSucceed_events _ _ _ _ _ Hall) as [He Hf].
  split; [| split].
  - rewrite Hperf, C, Hpre. unfold bind at 1.
    rewrite (runCommands_fails_at t done st1 c rest w1 evs1 out e w2 Ht Hall Hc).
    reflexivity.
  - rewrite execsOf_app, He. reflexivity.
  - destruct (stagesBeforePreBuild_no_stage_command _ _ _ I H1)
      as [(evs0 & L0 & F0) _].
    exists (evs0 ++ evs1 ++ [EvExec c; EvPrint out])%list.
    rewrite L0, <- !app_assoc. split; [reflexivity |].
    apply Forall_app. split; [exact F0 |].
    apply Forall_app. split.
    + apply noStageCommand_of_execOrPrint. exact Hf.
    + repeat constructor.
Qed.

(** X10. A call of [runCommands] panics in two ways only. Without a
    terminal it panics on the first command, nothing done. With one, it
    panics exactly when a command fails: if the commands of [done] succeed
    one after the other and [c], run after them, fails, the call panics
    naming [c] and its error, in the state that failure left, the commands
    of [done] and [c] executed and none after; and every panic with a
    terminal is of that kind. *)
Theorem runCommands_panics (cmds : list string) (st : state S) :
  (term (bld st) = None -> cmds <> [] ->
   runCommands S cmds st = (Panicked nilDeref, st)) /\
  (forall t done c rest w1 evs1 out e w2,
     term (bld st) = Some t ->
     cmds = (done ++ c :: rest)%list ->
     allSucceed S t done (world st) = Some (w1, evs1) ->
     Exec S t c w1 = ((out, Some e), w2) ->
     runCommands S cmds st =
       (Panicked ("Failed to execute dependent command: " ++ c ++ newline ++ e),
        {| bld := bld st; world := w2;
           log := (log st ++ evs1 ++ [EvExec c; EvPrint out])%list |}) /\
     execsOf (evs1 ++ [EvExec c; EvPrint out]) = (done ++ [c])%list) /\
  (forall t msg st',
     term (bld st) = Some t ->
     runCommands S cmds st = (Panicked msg, st') ->
     exists done c rest w1 evs1 out e w2,
       cmds = (done ++ c :: rest)%list /\
       allSucceed S t done (world st) = Some (w1, evs1) /\
       Exec S t c w1 = ((out, Some e), w2) /\
       msg = "Failed to execute dependent command: " ++ c ++ newline ++ e /\
       st' = {| bld := bld st; world := w2;
                log := (log st ++ evs1 ++ [EvExec c; EvPrint out])%list |}).
Proof.
  split; [| split].
  - intros Ht N. destruct cmds as [| cmd rest]; [contradiction |].
    cbn [runCommands]. unfold termExec. unfold_run. rewrite Ht. reflexivity.
  - intros t done c rest w1 evs1 out e w2 Ht -> Hall Hc. split.
    + exact (runCommands_fails_at t done st c rest w1 evs1 out e w2 Ht Hall Hc).
    + destruct (allSucceed_events _ _ _ _ _ Hall) as [He _].
      rewrite execsOf_app, He. reflexivity.
  - intros t. revert st. induction cmds as [| cmd rest IH]; intros st msg st' Ht.
    + cbn [runCommands]. unfold ret. discriminate.
    + cbn [runCommands]. unfold termExec, Println. unfold_run. rewrite Ht.
      destruct (Exec S t cmd (world st)) as [[out e] w1] eqn:E.
      cbn [fst snd bld world log]. destruct e as [e |].
      * intros H. inversion H; subst; clear H.
        exists [], cmd, rest, (world st), [], out, e, w1.
        cbn [app allSucceed]. repeat split; auto.
        rewrite <- app_assoc. reflexivity.
      * intros H. apply IH in H; [| exact Ht].
        cbn [bld world log] in H.
        destruct H as (done & c & rest' & w' & evs' & out' & e' & w2
                       & -> & Hall & Hc & -> & ->).
        exists (cmd :: done), c, rest', w',
          (EvExec cmd :: EvPrint out :: evs'), out', e', w2.
        cbn [app allSucceed]. rewrite E, Hall.
        repeat split; auto.
        rewrite <- !app_assoc. reflexivity.
Qed.

(** *** Transfers that fail *)

(** One round of [deploy] for a local host, on the answer of the system. *)
Lemma deploy_cons_local_run (host : string) (rest : list string) (st : state S) :
  isHostLocal host = true ->
  deploy S (host :: rest) st =
    (let '((out, e), w) := runTransfer S (bld st) (world st) in
     let st1 := {| bld := bld st; world := w;
                   log := (log st ++ [EvPrint (banner (bld st)); transfer (bld st);
                                      EvPrint out])%list |} in
     match e with
     | Some m => (Panicked ("Failed to deploy: " ++ m), st1)
     | None => deploy S rest st1
     end).
Proof.
  intros Hh. cbn [deploy]. unfold_run. rewrite Hh.
  unfold runTransfer, banner, transfer.
  destruct (isHostLocal (Host (BuildConfig (bld st)))); cbn [andb negb bld world log].
  - unfold builtBinary, deployedBinary.
    destruct (CombinedOutput S "cp" _ (world st)) as [[out e] w].
    cbn [fst snd bld world log]. rewrite <- !app_assoc. cbn [app].
    destruct e; reflexivity.
  - destruct (splitHostPort (Host (BuildConfig (bld st)))) as [h port].
    cbn [fst snd bld world log]. unfold builtBinary, deployedBinary.
    destruct (CombinedOutput S "scp" _ (world st)) as [[out e] w].
    cbn [fst snd bld world log]. rewrite <- !app_assoc. cbn [app].
    destruct e; reflexivity.
Qed.

Lemma commandsOf_transfer (b : builder) (l1 l2 : string) :
  commandsOf [EvPrint l1; transfer b; EvPrint l2] = [transfer b].
Proof.
  unfold transfer. destruct (isHostLocal (Host (BuildConfig b))); reflexivity.
Qed.

Lemma transfersSucceed_commands (b : builder) (hosts : list string) :
  forall (w w' : World S) evs,
    transfersSucceed S b hosts w = Some (w', evs) ->
    commandsOf evs = repeat (transfer b) (length (filter isHostLocal hosts)).
Proof.
  induction hosts as [| host rest IH]; intros w w' evs; cbn [transfersSucceed].
  - intros H. inversion H; subst. reflexivity.
  - cbn [filter]. destruct (isHostLocal host).
    + destruct (runTransfer S b w) as [[out [e |]] w1]; [discriminate |].
      destruct (transfersSucceed S b rest w1) as [[w2 evs'] |] eqn:E;
        [| discriminate].
      intros H. inversion H; subst. cbn [length repeat].
      change (EvPrint (banner b) :: transfer b :: EvPrint out :: evs')
        with ([EvPrint (banner b); transfer b; EvPrint out] ++ evs')%list.
      rewrite commandsOf_app, commandsOf_transfer, (IH _ _ _ E). reflexivity.
    + destruct (transfersSucceed S b rest w) as [[w2 evs'] |] eqn:E;
        [| discriminate].
      intros H. inversion H; subst. exact (IH _ _ _ E).
Qed.

Lemma deploy_fails_at (done : list string) :
  forall (st : state S) host rest w1 evs1 out e w2,
    isHostLocal host = true ->
    transfersSucceed S (bld st) done (world st) = Some (w1, evs1) ->
    runTransfer S (bld st) w1 = ((out, Some e), w2) ->
    deploy S (done ++ host :: rest) st =
      (Panicked ("Failed to deploy: " ++ e),
       {| bld := bld st; world := w2;
          log := (log st ++ evs1 ++ [EvPrint (banner (bld st)); transfer (bld st);
                                     EvPrint out])%list |}).
Proof.
  induction done as [| d done IH]; intros st host rest w1 evs1 out e w2 Hh Hall Hf.
  - cbn [transfersSucceed] in Hall. inversion Hall; subst. cbn [app].
    rewrite (deploy_cons_local_run _ _ _ Hh), Hf. reflexivity.
  - cbn [transfersSucceed] in Hall. cbn [app].
    destruct (isHostLocal d) eqn:Hd.
    + rewrite (deploy_cons_local_run _ _ _ Hd).
      destruct (runTransfer S (bld st) (world st)) as [[outd [ed |]] wd];
        [discriminate |].
      destruct (transfersSucceed S (bld st) done wd) as [[w' evs'] |] eqn:E;
        [| discriminate].
      inversion Hall; subst. cbv zeta.
      rewrite (IH _ host rest w1 evs' out e w2); cbn [bld world log]; auto.
      rewrite <- !app_assoc. reflexivity.
    + rewrite (deploy_cons_remote _ _ _ Hd).
      destruct (transfersSucceed S (bld st) done (world st)) as [[w' evs'] |] eqn:E;
        [| discriminate].
      inversion Hall; subst.
      rewrite (IH _ host rest w1 evs' out e w2); cbn [bld world log]; auto.
      rewrite <- !app_assoc. reflexivity.
Qed.

(** X6. [deploy] panics exactly when a transfer fails, a transfer being
    the [CombinedOutput] of the copy started for a local host. If the
    transfers for the local hosts of [done] succeed one after the other and
    the transfer for the local host that follows returns an error, the call
    panics with that error in its message, in the state the failure left: the local
    hosts of [done] and the failing host got their transfer and the hosts
    after it were not looked at. And every panic of [deploy] is of that
    kind. *)
Theorem deploy_stops_at_failed_transfer (hosts : list string) (st : state S) :
  (forall done host rest w1 evs1 out e w2,
     hosts = (done ++ host :: rest)%list ->
     isHostLocal host = true ->
     transfersSucceed S (bld st) done (world st) = Some (w1, evs1) ->
     runTransfer S (bld st) w1 = ((out, Some e), w2) ->
     deploy S hosts st =
       (Panicked ("Failed to deploy: " ++ e),
        {| bld := bld st; world := w2;
           log := (log st ++ evs1 ++ [EvPrint (banner (bld st)); transfer (bld st);
                                      EvPrint out])%list |}) /\
     commandsOf (evs1 ++ [EvPrint (banner (bld st)); transfer (bld st); EvPrint out])
     = repeat (transfer (bld st)) (length (filter isHostLocal done) + 1)) /\
  (forall msg st',
     deploy S hosts st = (Panicked msg, st') ->
     exists done host rest w1 evs1 out e w2,
       hosts = (done ++ host :: rest)%list /\
       isHostLocal host = true /\
       transfersSucceed S (bld st) done (world st) = Some (w1, evs1) /\
       runTransfer S (bld st) w1 = ((out, Some e), w2) /\
       msg = "Failed to deploy: " ++ e /\
       st' = {| bld := bld st; world := w2;
                log := (log st ++ evs1 ++ [EvPrint (banner (bld st));
                                           transfer (bld st);
                                           EvPrint out])%list |}).
Proof.
  split.
  - intros done host rest w1 evs1 out e w2 -> Hh Hall Hf. split.
    + exact (deploy_fails_at done st host rest w1 evs1 out e w2 Hh Hall Hf).
    + rewrite commandsOf_app, commandsOf_transfer,
        (transfersSucceed_commands _ _ _ _ _ Hall).
      rewrite Nat.add_comm. cbn [Nat.add repeat].
      symmetry. apply repeat_cons.
  - revert st. induction hosts as [| host rest IH]; intros st msg st'.
    + cbn [deploy]. unfold ret. discriminate.
    + destruct (isHostLocal host) eqn:Hh.
      * rewrite (deploy_cons_local_run _ _ _ Hh).
        destruct (runTransfer S (bld st) (world st)) as [[out e] w] eqn:E.
        cbv zeta. destruct e as [e |].
        -- intros H. inversion H; subst; clear H.
           exists [], host, rest, (world st), [], out, e, w.
           cbn [app transfersSucceed]. repeat split; auto.
        -- intros H. apply IH in H. cbn [bld world log] in H.
           destruct H as (done & h & rest' & w1 & evs1 & out' & e' & w2
                          & -> & Hl & Hall & Hf & -> & ->).
           exists (host :: done), h, rest', w1,
             (EvPrint (banner (bld st)) :: transfer (bld st) :: EvPrint out :: evs1),
             out', e', w2.
           cbn [app transfersSucceed]. rewrite Hh, E, Hall.
           repeat split; auto.
           rewrite <- !app_assoc. reflexivity.
      * rewrite (deploy_cons_remote _ _ _ Hh).
        intros H. apply IH in H. cbn [bld world log] in H.
        destruct H as (done & h & rest' & w1 & evs1 & out' & e' & w2
                       & -> & Hl & Hall & Hf & -> & ->).
        exists (host :: done), h, rest', w1, (EvPrint "" :: evs1), out', e', w2.
        cbn [app transfersSucceed]. rewrite Hh, Hall.
        repeat split; auto.
        rewrite <- !app_assoc. reflexivity.
Qed.

(** *** The order of the stages *)

(** X17. The log of [performBuild] has one of two shapes, where [pp] is the
    project path derived from the repository. Either the run did not come
    to set the environment: then it logged only commands run through
    [Exec], prints and the checkout, its commands are a front part of the
    four probes followed by the two commands on the project directory, and
    if it returned (the environment was found invalid) they are the four
    probes and there was no checkout. Or the log is: the four probes and
    the commands on the project directory, with their prints; then the one
    checkout into [pp]; then the four variables of the environment; then
    prints and commands only, and these commands are a front part, all of
    it when the run returns, of: the pre-build commands, the dependency
    fetch, the build, the tests if asked for, the post-build commands. So no
    pre-build command, fetch, build, test or post-build command comes
    before the checkout or before the environment is set. *)
Theorem performBuild_stage_order (st : state S) o st' :
  performBuild S st = (o, st') ->
  let bc := BuildConfig (bld st) in
  let pp := GoPath.Join [Jail bc; "src";
                         fst (ImportPathFromRepo S GitScm (AppRepo bc))] in
  let checkout := EvCheckout (AppRepo bc) (RepoBranch bc) pp in
  exists evs,
    log st' = (log st ++ evs)%list /\
    ((Forall beforeEnvironment evs /\
      (exists rest,
         (probeCommands S bc ++ listingCommands pp = execsOf evs ++ rest)%list) /\
      (exists rest, [checkout] = (checkoutsOf evs ++ rest)%list) /\
      (o = Returned tt ->
       execsOf evs = probeCommands S bc /\ checkoutsOf evs = []))
     \/
     (exists pre post,
        evs = (pre ++ checkout :: environment (bld st) ++ post)%list /\
        Forall execOrPrint pre /\
        (execsOf pre = (probeCommands S bc ++ [("ls " ++ pp)%string])%list \/
         execsOf pre = (probeCommands S bc ++ listingCommands pp)%list) /\
        Forall commandOrPrint post /\
        (exists rest, pipelineSteps bc pp = (stepsOf post ++ rest)%list) /\
        (o = Returned tt -> stepsOf post = pipelineSteps bc pp))).
Proof.
  intros H. cbv zeta.
  destruct (ImportPathFromRepo S GitScm (AppRepo (BuildConfig (bld st))))
    as [p err] eqn:Himp.
  cbn [fst].
  set (pp := GoPath.Join [Jail (BuildConfig (bld st)); "src"; p]).
  destruct (setupScm S st) as [o1 s1] eqn:E1.
  destruct (setupScm_outcome _ _ _ E1)
    as [[Ho Hs] | (Ho & Hscm & (C1 & _ & T1 & _) & P1 & L1 & W1)]; subst o1.
  { (* the repository type is not known *)
    subst s1. unfold performBuild in H. unfold bind at 1 in H.
    rewrite E1 in H. inversion H; subst; clear H.
    exists []. rewrite app_nil_r. split; [reflexivity |]. left.
    split; [constructor |]. split; [eexists; reflexivity |].
    split; [eexists; reflexivity | discriminate]. }
  destruct (validateBuildEnvironment S s1) as [o2 s2] eqn:E2.
  destruct (validateBuildEnvironment_outcome _ _ _ Hscm E2)
    as [(Tn & Ho & Hs) | (t & v & evs0 & Ht & Ho & B2 & L2 & F2 & X2)]; subst o2.
  { (* no terminal *)
    subst s2. unfold performBuild in H. unfold bind at 1 in H.
    rewrite E1 in H. unfold bind at 1 in H. rewrite E2 in H.
    inversion H; subst; clear H.
    exists []. rewrite app_nil_r. split; [exact L1 |]. left.
    split; [constructor |]. split; [eexists; reflexivity |].
    split; [eexists; reflexivity | discriminate]. }
  rewrite C1 in X2. rewrite L1 in L2.
  destruct v.
  - destruct err as [e |].
    + (* the derivation of the import path fails *)
      assert (S2 : scm (bld s2) = Some GitScm) by congruence.
      assert (I2 : ImportPathFromRepo S GitScm (AppRepo (BuildConfig (bld s2)))
                   = (p, Some e)) by (rewrite B2, C1; exact Himp).
      destruct (updateCode_failed_derivation _ _ _ _ S2 I2) as (s3 & E3 & L3 & _).
      unfold performBuild in H. unfold bind at 1 in H. rewrite E1 in H.
      unfold bind at 1 in H. rewrite E2 in H.
      unfold bind at 1 in H. rewrite E3 in H.
      inversion H; subst; clear H.
      exists evs0. split; [congruence |]. left.
      split; [apply beforeEnvironment_of_execOrPrint; exact F2 |].
      rewrite X2, (checkoutsOf_execOrPrint _ F2).
      split; [eexists; reflexivity |].
      split; [eexists; reflexivity | discriminate].
    + destruct (performBuild_after_validation _ _ _ _ _ _ E1 E2 Himp H)
        as (_ & evs & L &
            [([m Hm] & F & [r X] & K)
            | (pre & post & -> & Fpre & Xpre & Fpost & _ & _ & _ & Xs & Rs)]).
      * (* the run stops in the checkout *)
        exists (evs0 ++ evs)%list. split; [rewrite L, L2, app_assoc; reflexivity |].
        left. split.
        { apply Forall_app. split; [| exact F].
          apply beforeEnvironment_of_execOrPrint. exact F2. }
        rewrite execsOf_app, checkoutsOf_app, X2, (checkoutsOf_execOrPrint _ F2).
        split; [exists r; fold pp in X; rewrite X, app_assoc; reflexivity |].
        split; [exact K |].
        intros Hr. rewrite Hr in Hm. discriminate Hm.
      * (* the run reaches the configured stages *)
        eexists. split; [rewrite L, L2, <- app_assoc; reflexivity |].
        right. exists (evs0 ++ pre)%list, post.
        split; [rewrite <- app_assoc; reflexivity |].
        split; [apply Forall_app; split; assumption |].
        rewrite execsOf_app, X2.
        split; [destruct Xpre as [-> | ->]; auto |].
        split; [exact Fpost |]. split; [exact Xs | exact Rs].
  - (* the environment is not valid *)
    unfold performBuild in H. unfold bind at 1 in H. rewrite E1 in H.
    unfold bind at 1 in H. rewrite E2 in H.
    inversion H; subst; clear H.
    exists evs0. split; [exact L2 |]. left.
    split; [apply beforeEnvironment_of_execOrPrint; exact F2 |].
    rewrite X2, (checkoutsOf_execOrPrint _ F2).
    split; [eexists; reflexivity |].
    split; [eexists; reflexivity | auto].
Qed.

End Properties.

(** ** The helpers and a whole run, on examples *)

Example splitHostPort_default : splitHostPort "example.com" = ("example.com", "22").
Proof. reflexivity. Qed.

Example splitHostPort_port :
  splitHostPort "example.com:2222" = ("example.com", "2222").
Proof. reflexivity. Qed.

Example Join_cleans :
  GoPath.Join ["/j"; "src"; "github.com/acme/app"] = "/j/src/github.com/acme/app" /\
  GoPath.Join ["/j/"; ""; "bin/"] = "/j/bin" /\
  GoPath.Join ["a/../.."; "b/./c//"; ".."] = "../b" /\
  GoPath.Join [""; ""] = "".
Proof. repeat split; reflexivity. Qed.

Example Base_last_element :
  GoPath.Base "cmd/sky/" = "sky" /\ GoPath.Base "myapp" = "myapp" /\
  GoPath.Base "///" = "/" /\ GoPath.Base "" = ".".
Proof. repeat split; reflexivity. Qed.

(** A whole build on the small system, nothing failing. *)
Example Build_log :
  Build (Demo.sys Demo.bc Demo.dc) "" (start (Demo.sys Demo.bc Demo.dc) []) =
  (Returned tt,
   Demo.mk Demo.bc
     {| BuildConfig := Demo.bc; DeployConfig := Demo.dc;
        term := Some LocalTerminal; scm := Some GitScm;
        projectPath := "/j/src/github.com/acme/app";
        pack := Some {| IsCommand := true |} |}
     []
     [EvExec "ls /j"; EvExec "ls /usr/local/go";
      EvExec "ls /usr/local/go/bin/go"; EvExec "which git";
      EvExec "ls /j/src/github.com/acme/app";
      EvCheckout "github.com/acme/app" "master" "/j/src/github.com/acme/app";
      EvSetEnv "GOPATH" "/j"; EvSetEnv "GOROOT" "/usr/local/go";
      EvSetEnv "CGO_CFLAGS" ""; EvSetEnv "CGO_LDFLAGS" "";
      EvExec "make gen"; EvPrint "";
      EvExec "make lint"; EvPrint "";
      EvExec "make docs"; EvPrint "";
      EvPrint "Fetching dependencies";
      EvExecPath "go get -d ./..." "/j/src/github.com/acme/app/myapp";
      EvPrint "";
      EvPrint "Building packages";
      EvExecPath "go install -v" "/j/src/github.com/acme/app/myapp";
      EvPrint "";
      EvPrint "Testing packages";
      EvExecPath "go test" "/j/src/github.com/acme/app/myapp";
      EvPrint "";
      EvPrint "Testing Skynet";
      EvPrint "Fetching dependencies";
      EvExecPath "go get -d ./..." "/j/src/github.com/skynetservices/skynet2";
      EvPrint "";
      EvExecPath "go test ./..." "/j/src/github.com/skynetservices/skynet2";
      EvPrint "";
      EvExec "make clean"; EvPrint "";
      EvClose]).
Proof. reflexivity. Qed.

(** A build whose Jail is missing: the four probes run, the pipeline is
    skipped, the run returns and the terminal is closed. *)
Example Build_invalid_environment :
  let S0 := Demo.sys Demo.bc Demo.dc in
  let r := Build S0 "" (start S0 ["ls /j"]) in
  fst r = Returned tt /\
  log (snd r) =
    [EvExec "ls /j"; EvPrint "Could not find Jail directory: exit status 1";
     EvExec "ls /usr/local/go"; EvExec "ls /usr/local/go/bin/go";
     EvExec "which git"; EvClose] /\
  projectPath (bld (snd r)) = "".
Proof. cbv zeta. repeat split; reflexivity. Qed.

(** A deployment from a remote build host: the binary is fetched with scp
    through the port of the host. *)
Example Deploy_from_remote_build_host :
  let c := Demo.withHost "build.example.com:2222" Demo.bc in
  let S0 := Demo.sys c Demo.dc in
  log (snd (Deploy S0 "" (start S0 []))) =
    [EvConnect "build.example.com:2222" "builder";
     EvPrint "Copying binary from build machine";
     EvCommand "scp"
       ["-P"; "2222"; "builder@build.example.com:/j/bin/myapp"; "/out/app"];
     EvPrint ""; EvClose].
Proof. reflexivity. Qed.

(** ** The theorems at work on the small system *)

Lemma isHostLocal_selects_terminal_witness :
  let S0 := Demo.sys (Demo.withHost "build.example.com:2222" Demo.bc) Demo.dc in
  let st' := snd (newBuilder S0 "" (start S0 [])) in
  term (bld st') = Some SSHConn /\
  log st' = [EvConnect "build.example.com:2222" "builder"].
Proof.
  intros S0 st'.
  exact (proj2 (isHostLocal_selects_terminal S0 "build.example.com:2222")
           "" (start S0 []) "{}" (Demo.withHost "build.example.com:2222" Demo.bc)
           Demo.dc (fst (newBuilder S0 "" (start S0 []))) st'
           eq_refl eq_refl eq_refl eq_refl).
Defined.

Lemma validateBuildEnvironment_probes_all_witness :
  validateBuildEnvironment (Demo.sys Demo.bc Demo.dc)
    (Demo.at_ Demo.bc (Demo.ready Demo.bc) ["ls /usr/local/go/bin/go"; "ls /j"]) =
  (Returned false,
   Demo.mk Demo.bc (Demo.ready Demo.bc)
     ["ls /usr/local/go/bin/go"; "ls /j"]
     [EvExec "ls /j";
      EvPrint "Could not find Jail directory: exit status 1";
      EvExec "ls /usr/local/go";
      EvExec "ls /usr/local/go/bin/go";
      EvPrint "Could not find Go binary: exit status 1";
      EvExec "which git"]).
Proof.
  exact (proj1 (validateBuildEnvironment_probes_all (Demo.sys Demo.bc Demo.dc)
                  (Demo.at_ Demo.bc (Demo.ready Demo.bc)
                     ["ls /usr/local/go/bin/go"; "ls /j"])
                  LocalTerminal GitScm eq_refl eq_refl)).
Defined.


Lemma performBuild_no_tests_unless_asked_witness :
  let c := Demo.withRunTests false Demo.bc in
  exists evs,
    log (snd (performBuild (Demo.sys c Demo.dc) (Demo.at_ c (Demo.ready c) []))) =
      ([] ++ evs)%list /\
    existsb isTestCommand evs = false.
Proof.
  intros c.
  exact (performBuild_no_tests_unless_asked (Demo.sys c Demo.dc)
           (Demo.at_ c (Demo.ready c) [])
           (fst (performBuild (Demo.sys c Demo.dc) (Demo.at_ c (Demo.ready c) [])))
           (snd (performBuild (Demo.sys c Demo.dc) (Demo.at_ c (Demo.ready c) [])))
           eq_refl eq_refl).
Defined.

Lemma deploy_local_copy_witness :
  deploy (Demo.sys Demo.bc Demo.dc) ["localhost"]
    (Demo.at_ Demo.bc (Demo.ready Demo.bc) []) =
  (Returned tt,
   Demo.mk Demo.bc (Demo.ready Demo.bc) []
     [EvPrint "Copying local binary";
      EvCommand "cp" ["/j/bin/myapp"; "/out/app"];
      EvPrint ""]).
Proof.
  exact (proj1 (deploy_local_copy (Demo.sys Demo.bc Demo.dc)
                  (Demo.at_ Demo.bc (Demo.ready Demo.bc) []) "localhost"
                  eq_refl eq_refl)).
Defined.

Lemma deploy_remote_host_passes_witness :
  deploy (Demo.sys Demo.bc Demo.dc) ["deploy.example.com"]
    (Demo.at_ Demo.bc (Demo.ready Demo.bc) []) =
  (Returned tt,
   Demo.mk Demo.bc (Demo.ready Demo.bc) [] [EvPrint ""]).
Proof.
  exact (deploy_remote_host_passes (Demo.sys Demo.bc Demo.dc)
           (Demo.at_ Demo.bc (Demo.ready Demo.bc) []) "deploy.example.com"
           eq_refl).
Defined.


Lemma preBuild_failure_stops_pipeline_witness :
  let S0 := Demo.sys Demo.bc Demo.dc in
  let st := Demo.at_ Demo.bc (Demo.ready Demo.bc) ["make lint"] in
  let st1 := snd (stagesBeforePreBuild S0 st) in
  let ran := [EvExec "make gen"; EvPrint ""; EvExec "make lint"; EvPrint ""] in
  performBuild S0 st =
    (Panicked ("Failed to execute dependent command: " ++ "make lint" ++ newline
               ++ "exit status 1"),
     Demo.mk Demo.bc (bld st1) ["make lint"] (log st1 ++ ran)) /\
  execsOf ran = ["make gen"; "make lint"] /\
  exists evs, (log st1 ++ ran)%list = ([] ++ evs)%list /\
              Forall noStageCommand evs.
Proof.
  intros S0 st st1 ran.
  exact (preBuild_failure_stops_pipeline S0 st st1 LocalTerminal
           ["make gen"] "make lint" ["make docs"]
           ["make lint"] [EvExec "make gen"; EvPrint ""] "" "exit status 1"
           ["make lint"]
           eq_refl eq_refl eq_refl eq_refl eq_refl).
Defined.


(** ** Where the code departs from the specification *)



(** C2 on the small system: [deploy] given a remote host and then the
    local one skips the first without a word and copies for the second. *)
Example deploy_skips_remote_host :
  deploy (Demo.sys Demo.bc Demo.dc) ["deploy.example.com"; "localhost"]
    (Demo.at_ Demo.bc (Demo.ready Demo.bc) []) =
  (Returned tt,
   Demo.mk Demo.bc (Demo.ready Demo.bc) []
     [EvPrint "";
      EvPrint "Copying local binary";
      EvCommand "cp" ["/j/bin/myapp"; "/out/app"];
      EvPrint ""]).
Proof. reflexivity. Qed.

(** ** The further theorems at work *)

Lemma splitHostPort_default_port_witness :
  splitHostPort "build.example.com" = ("build.example.com", "22").
Proof. exact (splitHostPort_default_port "build.example.com" eq_refl). Defined.

Lemma splitHostPort_round_trip_witness :
  splitHostPort ("build.example.com" ++ ":" ++ "2222")
  = ("build.example.com", "2222").
Proof.
  exact (proj1 (splitHostPort_round_trip "build.example.com" "2222"
                  eq_refl eq_refl)).
Defined.

Lemma deploy_copy_from_build_host_witness :
  let c := Demo.withHost "build.example.com:2222" Demo.bc in
  deploy (Demo.sys c Demo.dc) ["localhost"] (Demo.at_ c (Demo.ready c) []) =
  (Returned tt,
   Demo.mk c (Demo.ready c) []
     [EvPrint "Copying binary from build machine";
      EvCommand "scp"
        ["-P"; "2222"; "builder@build.example.com:/j/bin/myapp"; "/out/app"];
      EvPrint ""]).
Proof.
  intros c.
  exact (deploy_copy_from_build_host (Demo.sys c Demo.dc)
           (Demo.at_ c (Demo.ready c) []) "localhost" eq_refl eq_refl).
Defined.

Lemma deploy_transfers_per_local_host_witness :
  let S0 := Demo.sys Demo.bc Demo.dc in
  let st := Demo.at_ Demo.bc (Demo.ready Demo.bc) [] in
  let hosts := ["localhost"; "deploy.example.com"; "127.0.0.1"] in
  exists evs,
    log (snd (deploy S0 hosts st)) = ([] ++ evs)%list /\
    commandsOf evs =
      [EvCommand "cp" ["/j/bin/myapp"; "/out/app"];
       EvCommand "cp" ["/j/bin/myapp"; "/out/app"]].
Proof.
  intros S0 st hosts.
  exact (proj2 (deploy_transfers_per_local_host S0 hosts st
                  (snd (deploy S0 hosts st)) eq_refl)).
Defined.

Lemma deploy_leaves_terminal_alone_witness :
  let S0 := Demo.sys Demo.bc Demo.dc in
  let st := Demo.at_ Demo.bc (Demo.ready Demo.bc) [] in
  exists evs,
    log (snd (deploy S0 ["localhost"] st)) = (log st ++ evs)%list /\
    Forall (fun e => match e with
                     | EvPrint _ | EvCommand _ _ => True
                     | _ => False
                     end) evs.
Proof.
  intros S0 st.
  exact (deploy_leaves_terminal_alone S0 ["localhost"] st
           (fst (deploy S0 ["localhost"] st)) (snd (deploy S0 ["localhost"] st))
           eq_refl).
Defined.

Lemma runCommands_runs_all_witness :
  let S0 := Demo.sys Demo.bc Demo.dc in
  let st := Demo.at_ Demo.bc (Demo.ready Demo.bc) [] in
  let cmds := ["make gen"; "make lint"] in
  exists evs,
    log (snd (runCommands S0 cmds st)) = (log st ++ evs)%list /\
    execsOf evs = cmds /\
    length evs = 2 * length cmds /\
    Forall commandOrPrint evs.
Proof.
  intros S0 st cmds.
  exact (proj2 (runCommands_runs_all S0 cmds st (snd (runCommands S0 cmds st))
                  eq_refl)).
Defined.

Lemma configuration_errors_are_fatal_witness :
  let S0 := Faulty.sys Demo.bc Demo.dc in
  (Build S0 "" (start S0 ["unreadable"]) =
     (Panicked "Failed to read: ./build.cfg", start S0 ["unreadable"])) /\
  (Deploy S0 "sky.cfg" (start S0 ["truncated"]) =
     (Panicked "Failed to parse sky.cfg: unexpected end of JSON input",
      start S0 ["truncated"])).
Proof.
  intros S0. split.
  - exact (proj1 (proj1 (configuration_errors_are_fatal S0 ""
                           (start S0 ["unreadable"])) eq_refl)).
  - exact (proj2 (proj1 (proj2 (configuration_errors_are_fatal S0 "sky.cfg"
                                  (start S0 ["truncated"])))
                    "{" "unexpected end of JSON input" eq_refl eq_refl)).
Defined.

Lemma newBuilder_returns_complete_builder_witness :
  let c := Demo.withHost "build.example.com:2222" Demo.bc in
  let S0 := Demo.sys c Demo.dc in
  exists f bc dc p,
    ReadFile S0 (configFile "") (world (start S0 [])) = Some f /\
    Unmarshal S0 f = inl (bc, dc) /\
    IsCommand p = true /\
    bld (snd (newBuilder S0 "" (start S0 []))) =
      {| BuildConfig := bc; DeployConfig := dc;
         term := Some (if isHostLocal (Host bc) then LocalTerminal else SSHConn);
         scm := None; projectPath := ""; pack := Some p |}.
Proof.
  intros c S0.
  exact (newBuilder_returns_complete_builder S0 "" (start S0 [])
           (snd (newBuilder S0 "" (start S0 []))) eq_refl).
Defined.

Lemma performBuild_unknown_repository_type_witness :
  let c := Demo.withRepoType "hg" Demo.bc in
  let st := Demo.at_ c (Demo.ready c) [] in
  performBuild (Demo.sys c Demo.dc) st = (Panicked "unkown RepoType", st).
Proof.
  intros c st.
  apply (performBuild_unknown_repository_type (Demo.sys c Demo.dc) st).
  vm_compute. discriminate.
Defined.

Lemma performBuild_skips_invalid_environment_witness :
  let S0 := Demo.sys Demo.bc Demo.dc in
  let st := Demo.at_ Demo.bc (Demo.ready Demo.bc) ["which git"] in
  let s1 := snd (setupScm S0 st) in
  let s2 := snd (validateBuildEnvironment S0 s1) in
  performBuild S0 st = (Returned tt, s2) /\
  exists evs, log s2 = (log st ++ evs)%list /\ Forall execOrPrint evs.
Proof.
  intros S0 st s1 s2.
  exact (performBuild_skips_invalid_environment S0 st s1 s2 eq_refl eq_refl).
Defined.

Lemma updateCode_lists_creates_checks_out_witness :
  let S0 := Demo.sys Demo.bc Demo.dc in
  let st := Demo.at_ Demo.bc (Demo.ready Demo.bc) ["ls /j/src/github.com/acme/app"] in
  let st' := snd (updateCode S0 st) in
  projectPath (bld st') = "/j/src/github.com/acme/app" /\
  log st' =
    [EvExec "ls /j/src/github.com/acme/app";
     EvPrint "Creating project directories";
     EvExec "mkdir -p /j/src/github.com/acme/app";
     EvPrint "";
     EvCheckout "github.com/acme/app" "master" "/j/src/github.com/acme/app"].
Proof.
  intros S0 st st'.
  destruct (updateCode_lists_creates_checks_out S0 st st' eq_refl)
    as (t & s & p & _ & _ & _ & _).
  split; reflexivity.
Defined.

Lemma updateCode_needs_project_directory_witness :
  let S0 := Demo.sys Demo.bc Demo.dc in
  let w := ["ls /j/src/github.com/acme/app";
            "mkdir -p /j/src/github.com/acme/app"] in
  let st := Demo.at_ Demo.bc (Demo.ready Demo.bc) w in
  exists st',
    updateCode S0 st = (Panicked "Could not create project directories", st') /\
    log st' =
      (log st ++ [EvExec ("ls " ++ "/j/src/github.com/acme/app");
                  EvPrint "Creating project directories";
                  EvExec ("mkdir -p " ++ "/j/src/github.com/acme/app")])%list.
Proof.
  intros S0 w st.
  exact (updateCode_needs_project_directory S0 st LocalTerminal GitScm
           "github.com/acme/app" "" "exit status 1" w "" "exit status 1" w
           eq_refl eq_refl eq_refl eq_refl eq_refl).
Defined.

Lemma performBuild_commands_witness :
  let S0 := Demo.sys Demo.bc Demo.dc in
  let st := Demo.at_ Demo.bc (Demo.ready Demo.bc) [] in
  exists evs,
    log (snd (performBuild S0 st)) = (log st ++ evs)%list /\
    Forall (pipelineCommand Demo.bc) evs.
Proof.
  intros S0 st.
  exact (proj1 (performBuild_commands S0 st (fst (performBuild S0 st))
                  (snd (performBuild S0 st)) eq_refl)).
Defined.

Lemma performBuild_stops_before_tests_witness :
  let S0 := Demo.sys Demo.bc Demo.dc in
  let st := Demo.at_ Demo.bc (Demo.ready Demo.bc) ["go install -v"] in
  let s := snd (stagesBeforeTests S0 st) in
  performBuild S0 st = (Panicked "Failed build: exit status 1", s) /\
  exists evs, log s = (log st ++ evs)%list /\ existsb isTestCommand evs = false.
Proof.
  intros S0 st s.
  apply (performBuild_stops_before_tests S0 st
           (Panicked "Failed build: exit status 1") s eq_refl).
  discriminate.
Defined.

Lemma performBuild_keeps_setup_witness :
  let S0 := Demo.sys Demo.bc Demo.dc in
  let st := Demo.at_ Demo.bc (Demo.ready Demo.bc) [] in
  sameSetup (bld st) (bld (snd (performBuild S0 st))).
Proof.
  intros S0 st.
  exact (performBuild_keeps_setup S0 st (snd (performBuild S0 st)) eq_refl).
Defined.

Lemma performBuild_only_uses_terminal_witness :
  let S0 := Demo.sys Demo.bc Demo.dc in
  let st := Demo.at_ Demo.bc (Demo.ready Demo.bc) [] in
  exists evs,
    log (snd (performBuild S0 st)) = (log st ++ evs)%list /\
    Forall (fun e => match e with
                     | EvCommand _ _ | EvConnect _ _ | EvClose => False
                     | _ => True
                     end) evs.
Proof.
  intros S0 st.
  exact (performBuild_only_uses_terminal S0 st (fst (performBuild S0 st))
           (snd (performBuild S0 st)) eq_refl).
Defined.

Lemma Deploy_starts_one_transfer_witness :
  let c := Demo.withHost "build.example.com:2222" Demo.bc in
  let S0 := Faulty.sys c Demo.dc in
  let s1 := snd (newBuilder S0 "" (start S0 ["scp"])) in
  exists o st' evs,
    Deploy S0 "" (start S0 ["scp"]) = (o, st') /\
    log st' = (log s1 ++ evs)%list /\
    commandsOf evs = [transfer (bld s1)].
Proof.
  intros c S0 s1.
  exact (Deploy_starts_one_transfer S0 "" (start S0 ["scp"]) s1 eq_refl).
Defined.

Lemma deploy_stops_at_failed_transfer_witness :
  let S0 := Faulty.sys Demo.bc Demo.dc in
  let b := Demo.ready Demo.bc in
  let st := Faulty.mk Demo.bc b ["cp"] [] in
  let ran := [EvPrint ""; EvPrint "Copying local binary";
              EvCommand "cp" ["/j/bin/myapp"; "/out/app"]; EvPrint ""] in
  deploy S0 ["deploy.example.com"; "localhost"; "127.0.0.1"] st =
    (Panicked ("Failed to deploy: " ++ "exit status 1"),
     Faulty.mk Demo.bc b ["cp"] ran) /\
  commandsOf ran = [EvCommand "cp" ["/j/bin/myapp"; "/out/app"]].
Proof.
  intros S0 b st ran.
  exact (proj1 (deploy_stops_at_failed_transfer S0
                  ["deploy.example.com"; "localhost"; "127.0.0.1"] st)
           ["deploy.example.com"] "localhost" ["127.0.0.1"]
           ["cp"] [EvPrint ""] "" "exit status 1" ["cp"]
           eq_refl eq_refl eq_refl eq_refl).
Defined.

Lemma runCommands_panics_witness :
  let S0 := Demo.sys Demo.bc Demo.dc in
  let st := Demo.at_ Demo.bc (Demo.ready Demo.bc) ["make lint"] in
  let ran := [EvExec "make gen"; EvPrint ""; EvExec "make lint"; EvPrint ""] in
  runCommands S0 ["make gen"; "make lint"; "make docs"] st =
    (Panicked ("Failed to execute dependent command: " ++ "make lint" ++ newline
               ++ "exit status 1"),
     Demo.mk Demo.bc (Demo.ready Demo.bc) ["make lint"] ran) /\
  execsOf ran = ["make gen"; "make lint"].
Proof.
  intros S0 st ran.
  exact (proj1 (proj2 (runCommands_panics S0
                         ["make gen"; "make lint"; "make docs"] st))
           LocalTerminal ["make gen"] "make lint" ["make docs"]
           ["make lint"] [EvExec "make gen"; EvPrint ""] "" "exit status 1"
           ["make lint"]
           eq_refl eq_refl eq_refl eq_refl).
Defined.

Lemma performBuild_stage_order_witness :
  let S0 := Demo.sys Demo.bc Demo.dc in
  let st := Demo.at_ Demo.bc (Demo.ready Demo.bc) ["make clean"] in
  let o := fst (performBuild S0 st) in
  let st' := snd (performBuild S0 st) in
  let pp := "/j/src/github.com/acme/app" in
  let checkout := EvCheckout "github.com/acme/app" "master" pp in
  exists evs,
    log st' = ([] ++ evs)%list /\
    ((Forall beforeEnvironment evs /\
      (exists rest,
         (probeCommands S0 Demo.bc ++ listingCommands pp
          = execsOf evs ++ rest)%list) /\
      (exists rest, [checkout] = (checkoutsOf evs ++ rest)%list) /\
      (o = Returned tt ->
       execsOf evs = probeCommands S0 Demo.bc /\ checkoutsOf evs = []))
     \/
     (exists pre post,
        evs = (pre ++ checkout :: environment (Demo.ready Demo.bc) ++ post)%list /\
        Forall execOrPrint pre /\
        (execsOf pre = (probeCommands S0 Demo.bc ++ [("ls " ++ pp)%string])%list \/
         execsOf pre = (probeCommands S0 Demo.bc ++ listingCommands pp)%list) /\
        Forall commandOrPrint post /\
        (exists rest, pipelineSteps Demo.bc pp = (stepsOf post ++ rest)%list) /\
        (o = Returned tt -> stepsOf post = pipelineSteps Demo.bc pp))).
Proof.
  intros S0 st o st' pp checkout.
  exact (performBuild_stage_order S0 st o st' eq_refl).
Defined.
